(** * Multi-period inventory replenishment (inventory.ipynb)

    A shallow embedding of the notebook that builds the mixed-integer model
    of the replenishment problem with the OR-Tools linear-solver wrapper,
    hands it to the external engine and prints the solved plan.

    - The notebook's globals ([solver], the dictionaries [x], [intake],
      [inv], [lost]) form one mutable environment, threaded through a small
      state-and-exception monad; a missing dictionary key raises [KeyError],
      a list index out of range raises [IndexError].
    - Linear expressions are the syntax trees the wrapper's overloaded
      operators build; their coefficients and the values the engine returns
      are floating-point numbers in the notebook and exact rationals here.
    - The problem data (stock, demand, prices, minimum order quantity) are
      integers, as in the notebook's data cell; stock or demand with a
      fractional part is outside this development.
    - The engine behind [solver.Solve()] is external: it is a parameter
      that maps the submitted model to a status, a value per variable and an
      objective value.  The wrapper's [solution_value()] rounds the value of
      an integer variable, the backend (SCIP) being one that supports
      integer variables. *)

From Stdlib Require Import ZArith QArith Qround Qabs Lia Lqa List Bool.
From Stdlib Require Import Wf_nat Classical.
From stdpp Require Import gmap.
Import ListNotations.

Local Open Scope Z_scope.

(** ** The solver wrapper *)

(** A variable is identified by the name it is registered under:
    [f'x_{i}'], [f'ord_{i}'], [f'inv_{i}'], [f'lost_{i}']. *)
Inductive Var : Type :=
| x_ (i : nat)
| ord_ (i : nat)
| inv_ (i : nat)
| lost_ (i : nat).

(** Linear expressions as built by [+], [-] and [*] on variables and
    numbers. *)
Inductive LinExpr : Type :=
| Cst (c : Q)
| V (v : Var)
| Sum (a b : LinExpr)
| Diff (a b : LinExpr)
| Prod (c : Q) (a : LinExpr).

(** The comparisons [<=], [>=] and [==] between linear expressions. *)
Inductive Constraint : Type :=
| c_le (a b : LinExpr)
| c_ge (a b : LinExpr)
| c_eq (a b : LinExpr).

(** A registered variable: its name, whether it is integer-typed, and its
    bounds ([None] is [solver.infinity()]). *)
Record VarDecl : Type := mkVar {
  name : Var;
  integer : bool;
  lb : Q;
  ub : option Q
}.

(** 0=optimal, 1=feasible, 2=infeasible, 3=unbounded, 4=abnormal,
    6=not solved. *)
Inductive Status : Type :=
| OPTIMAL | FEASIBLE | INFEASIBLE | UNBOUNDED | ABNORMAL | NOT_SOLVED.

Definition status_code (st : Status) : Z :=
  match st with
  | OPTIMAL => 0 | FEASIBLE => 1 | INFEASIBLE => 2
  | UNBOUNDED => 3 | ABNORMAL => 4 | NOT_SOLVED => 6
  end.

(** What the engine hands back: [Solve()]'s return value, and the value
    of each variable and of the objective that the wrapper holds
    afterwards. *)
Record Solution : Type := mkSolution {
  status : Status;
  value_of : Var -> Q;
  objective_value : Q
}.

(** The solver object: the model accumulated so far and the last result. *)
Record Solver : Type := mkSolver {
  variables : list VarDecl;
  constraints : list Constraint;
  objective : LinExpr;
  last : Solution
}.

Definition CreateSolver : Solver :=
  {| variables := []; constraints := []; objective := Cst 0;
     last := {| status := NOT_SOLVED; value_of := fun _ => 0%Q;
                objective_value := 0%Q |} |}.

Definition Var_eqb (u v : Var) : bool :=
  match u, v with
  | x_ i, x_ j => Nat.eqb i j
  | ord_ i, ord_ j => Nat.eqb i j
  | inv_ i, inv_ j => Nat.eqb i j
  | lost_ i, lost_ j => Nat.eqb i j
  | _, _ => false
  end.

(** Whether the variable registered under the name [v] is integer-typed. *)
Definition is_integer (s : Solver) (v : Var) : bool :=
  match find (fun vd => Var_eqb (name vd) v) (variables s) with
  | Some vd => integer vd
  | None => false
  end.

(** C's [round]: the nearest integer, halfway cases away from zero. *)
Definition round (q : Q) : Z :=
  if Qle_bool 0 q then Qfloor (q + (1 # 2)) else Qceiling (q - (1 # 2)).

(** What [v.solution_value()] returns for the variable [v] of the solver
    [s]: the value the engine left for it, rounded when the variable is
    integer-typed. *)
Definition read (s : Solver) (v : Var) : Q :=
  let raw := value_of (last s) v in
  if is_integer s v then inject_Z (round raw) else raw.

(** The notebook's mutable globals. *)
Record Env : Type := mkEnv {
  solver : Solver;
  x : gmap nat Var;
  intake : gmap nat Var;
  inv : gmap nat Var;
  lost : gmap nat Var
}.

Definition initial_env : Env :=
  {| solver := CreateSolver; x := ∅; intake := ∅; inv := ∅; lost := ∅ |}.

(** ** The problem data *)

(** The figures of the data cell, all of them integers. *)
Record Data : Type := mkData {
  stock_level : Z;
  selling_price : Z;
  number_of_days : Z;
  demand : list Z;
  moq : Z;
  delivery_cost : Z
}.

(** [inventory_holding_cost = selling_price * 0.01] *)
Definition inventory_holding_cost (d : Data) : Q :=
  (inject_Z (selling_price d) * 0.01)%Q.

(** [lost_sales_cost = selling_price] *)
Definition lost_sales_cost (d : Data) : Q := inject_Z (selling_price d).

(** The data of the notebook's second cell. *)
Definition notebook_data : Data :=
  {| stock_level := 4; selling_price := 10; number_of_days := 10;
     demand := [3; 5; 3; 5; 3; 5; 3; 5; 3; 5];
     moq := 10; delivery_cost := 1 |}.

(** ** State and exceptions *)

Inductive Exception : Type :=
| KeyError (k : nat)
| IndexError.

Definition M (A : Type) : Type := Env -> Exception + (A * Env).

Definition ret {A} (a : A) : M A := fun e => inr (a, e).

Definition bind {A B} (m : M A) (k : A -> M B) : M B :=
  fun e => match m e with
           | inl ex => inl ex
           | inr (a, e') => k a e'
           end.

Definition raise {A} (ex : Exception) : M A := fun _ => inl ex.

Notation "v <- m ;; k" := (bind m (fun v => k))
  (at level 100, m at next level, right associativity).
Notation "m ;; k" := (bind m (fun _ => k))
  (at level 100, right associativity).

(** [for i in l: body(i)] *)
Fixpoint for_ (l : list nat) (body : nat -> M unit) : M unit :=
  match l with
  | [] => ret tt
  | i :: l' => body i ;; for_ l' body
  end.

(** [[f(i) for i in l]] *)
Fixpoint mapM {A} (f : nat -> M A) (l : list nat) : M (list A) :=
  match l with
  | [] => ret []
  | i :: l' => a <- f i ;; r <- mapM f l' ;; ret (a :: r)
  end.

(** A loop that updates local accumulators. *)
Fixpoint foldM {A} (f : A -> nat -> M A) (acc : A) (l : list nat) : M A :=
  match l with
  | [] => ret acc
  | i :: l' => acc' <- f acc i ;; foldM f acc' l'
  end.

(** [range(n)]: empty when [n <= 0]. *)
Definition range (n : Z) : list nat := seq 0 (Z.to_nat n).

(** *** Environment access *)

Definition with_solver (f : Solver -> Solver) (e : Env) : Env :=
  {| solver := f (solver e); x := x e; intake := intake e; inv := inv e;
     lost := lost e |}.

Definition register (vd : VarDecl) (s : Solver) : Solver :=
  {| variables := variables s ++ [vd]; constraints := constraints s;
     objective := objective s; last := last s |}.

(** [solver.BoolVar(name)] *)
Definition BoolVar (v : Var) : M Var :=
  fun e => inr (v, with_solver (register (mkVar v true 0%Q (Some 1%Q))) e).

(** [solver.IntVar(lo, hi, name)] *)
Definition IntVar (lo : Q) (hi : option Q) (v : Var) : M Var :=
  fun e => inr (v, with_solver (register (mkVar v true lo hi)) e).

Definition infinity : option Q := None.

(** [solver.Add(c)] *)
Definition Add (c : Constraint) : M unit :=
  fun e => inr (tt, with_solver (fun s =>
    {| variables := variables s; constraints := constraints s ++ [c];
       objective := objective s; last := last s |}) e).

(** [solver.Minimize(expr)] *)
Definition Minimize (expr : LinExpr) : M unit :=
  fun e => inr (tt, with_solver (fun s =>
    {| variables := variables s; constraints := constraints s;
       objective := expr; last := last s |}) e).

(** [x = {}; intake = {}; inv = {}; lost = {}] *)
Definition reset_dicts : M unit :=
  fun e => inr (tt, {| solver := solver e; x := ∅; intake := ∅; inv := ∅;
                       lost := ∅ |}).

(** [x[i] = v] and its siblings *)
Definition set_x (i : nat) (v : Var) : M unit :=
  fun e => inr (tt, {| solver := solver e; x := <[i:=v]> (x e);
                       intake := intake e; inv := inv e; lost := lost e |}).
Definition set_intake (i : nat) (v : Var) : M unit :=
  fun e => inr (tt, {| solver := solver e; x := x e;
                       intake := <[i:=v]> (intake e); inv := inv e;
                       lost := lost e |}).
Definition set_inv (i : nat) (v : Var) : M unit :=
  fun e => inr (tt, {| solver := solver e; x := x e; intake := intake e;
                       inv := <[i:=v]> (inv e); lost := lost e |}).
Definition set_lost (i : nat) (v : Var) : M unit :=
  fun e => inr (tt, {| solver := solver e; x := x e; intake := intake e;
                       inv := inv e; lost := <[i:=v]> (lost e) |}).

(** [dict[i]]: [KeyError] when the key is absent. *)
Definition getitem (dict : Env -> gmap nat Var) (i : nat) : M Var :=
  fun e => match dict e !! i with
           | Some v => ret v e
           | None => raise (KeyError i) e
           end.

(** [demand[i]] for [i >= 0]: [IndexError] past the end of the list. *)
Definition demand_at (d : Data) (i : nat) : M Z :=
  fun e => match demand d !! i with
           | Some z => ret z e
           | None => raise IndexError e
           end.

(** ** The notebook's cells *)

(** Variables: one binary and three non-negative integer variables a day. *)
Definition declare_variables (d : Data) : M unit :=
  reset_dicts ;;
  for_ (range (number_of_days d)) (fun i =>
    v <- BoolVar (x_ i) ;; set_x i v ;;
    v <- IntVar 0%Q infinity (ord_ i) ;; set_intake i v ;;
    v <- IntVar 0%Q infinity (inv_ i) ;; set_inv i v ;;
    v <- IntVar 0%Q infinity (lost_ i) ;; set_lost i v).

(** [intake[i] <= 1000000 * x[i]] *)
Definition constraint_1 (intake_i x_i : Var) : Constraint :=
  c_le (V intake_i) (Prod 1000000%Q (V x_i)).

(** [intake[i] >= moq * x[i]] *)
Definition constraint_2 (d : Data) (intake_i x_i : Var) : Constraint :=
  c_ge (V intake_i) (Prod (inject_Z (moq d)) (V x_i)).

(** [stock_level + intake[i] - demand[i] + lost[i] == inv[i]] *)
Definition constraint_3_first (d : Data) (intake_i : Var) (demand_i : Z)
    (lost_i inv_i : Var) : Constraint :=
  c_eq (Sum (Diff (Sum (Cst (inject_Z (stock_level d))) (V intake_i))
                  (Cst (inject_Z demand_i)))
            (V lost_i))
       (V inv_i).

(** [inv[i-1] + intake[i] - demand[i] + lost[i] == inv[i]] *)
Definition constraint_3_next (inv_prev intake_i : Var) (demand_i : Z)
    (lost_i inv_i : Var) : Constraint :=
  c_eq (Sum (Diff (Sum (V inv_prev) (V intake_i)) (Cst (inject_Z demand_i)))
            (V lost_i))
       (V inv_i).

(** The body of the loop of constraint (3): the first day starts from
    [stock_level], every later day from [inv[i-1]]. *)
Definition dynamics_body (d : Data) (i : nat) : M unit :=
  if Nat.eqb i 0 then
    q <- getitem intake i ;; dm <- demand_at d i ;;
    l <- getitem lost i ;; s <- getitem inv i ;;
    Add (constraint_3_first d q dm l s)
  else
    p <- getitem inv (i - 1)%nat ;; q <- getitem intake i ;;
    dm <- demand_at d i ;; l <- getitem lost i ;; s <- getitem inv i ;;
    Add (constraint_3_next p q dm l s).

(** Constraints (1), (2) and (3), one loop each. *)
Definition add_constraints (d : Data) : M unit :=
  for_ (range (number_of_days d)) (fun i =>
    q <- getitem intake i ;; b <- getitem x i ;;
    Add (constraint_1 q b)) ;;
  for_ (range (number_of_days d)) (fun i =>
    q <- getitem intake i ;; b <- getitem x i ;;
    Add (constraint_2 d q b)) ;;
  for_ (range (number_of_days d)) (dynamics_body d).

(** [(delivery_cost * x[i]) + (inventory_holding_cost * inv[i])
     + (selling_price * lost[i])] *)
Definition cost_term (d : Data) (x_i inv_i lost_i : Var) : LinExpr :=
  Sum (Sum (Prod (inject_Z (delivery_cost d)) (V x_i))
           (Prod (inventory_holding_cost d) (V inv_i)))
      (Prod (inject_Z (selling_price d)) (V lost_i)).

(** Python's [sum] starts from [0] and adds the terms left to right. *)
Definition sum_ (terms : list LinExpr) : LinExpr :=
  fold_left Sum terms (Cst 0).

(** [solver.Minimize(sum(... for i in range(number_of_days)))] *)
Definition set_objective (d : Data) : M unit :=
  terms <- mapM (fun i =>
             b <- getitem x i ;; s <- getitem inv i ;; l <- getitem lost i ;;
             ret (cost_term d b s l)) (range (number_of_days d)) ;;
  Minimize (sum_ terms).

(** The model-building cells in order. *)
Definition build (d : Data) : M unit :=
  declare_variables d ;; add_constraints d ;; set_objective d.

(** The model a run of the building cells leaves in [solver]. *)
Definition model_of (d : Data) : Exception + Solver :=
  match build d initial_env with
  | inl ex => inl ex
  | inr (_, e) => inr (solver e)
  end.

(** *** Solving and reading the result *)

(** Python's [int] on a float: truncation towards zero. *)
Definition int (q : Q) : Z := Z.quot (Qnum q) (Z.pos (Qden q)).

(** [v.solution_value()] *)
Definition solution_value (v : Var) : M Q :=
  fun e => inr (read (solver e) v, e).

(** [solver.Objective().Value()] *)
Definition Objective_Value : M Q :=
  fun e => inr (objective_value (last (solver e)), e).

(** The running totals of the last cell. *)
Record Totals : Type := mkTotals {
  total_intake_qty : Q;
  total_inventory : Q;
  total_lost_sales_qty : Q
}.

(** What the last cell prints, as numbers. *)
Record Report : Type := mkReport {
  printed_status : Z;
  printed_objective : Q;
  printed_stock : Z;
  row_day : list Z;
  row_intake : list Z;
  row_demand : list Z;
  row_inv : list Z;
  row_lost : list Z;
  printed_total_intake : Z;
  printed_total_inventory : Z;
  printed_total_lost_sales : Z
}.

(** [str(int(dict[i].solution_value()))] for every day. *)
Definition row (dict : Env -> gmap nat Var) (d : Data) : M (list Z) :=
  mapM (fun i => v <- getitem dict i ;; q <- solution_value v ;; ret (int q))
       (range (number_of_days d)).

(** The three totals: all of them are accumulated under the test
    [x[i].solution_value() == 1]. *)
Definition totals (d : Data) : M Totals :=
  foldM (fun acc i =>
           b <- getitem x i ;; bv <- solution_value b ;;
           if Qeq_bool bv 1 then
             q <- getitem intake i ;; qv <- solution_value q ;;
             s <- getitem inv i ;; sv <- solution_value s ;;
             l <- getitem lost i ;; lv <- solution_value l ;;
             ret {| total_intake_qty := (total_intake_qty acc + qv)%Q;
                    total_inventory := (total_inventory acc + sv)%Q;
                    total_lost_sales_qty := (total_lost_sales_qty acc + lv)%Q |}
           else ret acc)
        {| total_intake_qty := 0; total_inventory := 0;
           total_lost_sales_qty := 0 |}
        (range (number_of_days d)).

(** Everything after [status = solver.Solve()]. *)
Definition report (d : Data) (st : Status) : M Report :=
  ov <- Objective_Value ;;
  r_intake <- row intake d ;;
  r_demand <- mapM (demand_at d) (range (number_of_days d)) ;;
  r_inv <- row inv d ;;
  r_lost <- row lost d ;;
  t <- totals d ;;
  ret {| printed_status := status_code st;
         printed_objective := ov;
         printed_stock := stock_level d;
         row_day := map (fun i => Z.of_nat i + 1) (range (number_of_days d));
         row_intake := r_intake;
         row_demand := r_demand;
         row_inv := r_inv;
         row_lost := r_lost;
         printed_total_intake := int (total_intake_qty t);
         printed_total_inventory := int (total_inventory t);
         printed_total_lost_sales := int (total_lost_sales_qty t) |}.

Section Engine.

(** The external mixed-integer engine behind [solver.Solve()]. *)
Variable engine : Solver -> Solution.

(** [status = solver.Solve()] *)
Definition Solve : M Status :=
  fun e =>
    let r := engine (solver e) in
    inr (status r, with_solver (fun s =>
      {| variables := variables s; constraints := constraints s;
         objective := objective s; last := r |}) e).

(** The whole notebook, top to bottom. *)
Definition notebook (d : Data) : M Report :=
  build d ;; st <- Solve ;; report d st.

Definition run (d : Data) : Exception + Report :=
  match notebook d initial_env with
  | inl ex => inl ex
  | inr (r, _) => inr r
  end.

End Engine.

(** ** What the model means *)

(** The value of a linear expression under a valuation of the variables. *)
Fixpoint eval (rho : Var -> Q) (e : LinExpr) : Q :=
  match e with
  | Cst c => c
  | V v => rho v
  | Sum a b => eval rho a + eval rho b
  | Diff a b => eval rho a - eval rho b
  | Prod c a => c * eval rho a
  end%Q.

Definition holds (rho : Var -> Q) (c : Constraint) : Prop :=
  match c with
  | c_le a b => (eval rho a <= eval rho b)%Q
  | c_ge a b => (eval rho b <= eval rho a)%Q
  | c_eq a b => (eval rho a == eval rho b)%Q
  end.

Definition holdsb (rho : Var -> Q) (c : Constraint) : bool :=
  match c with
  | c_le a b => Qle_bool (eval rho a) (eval rho b)
  | c_ge a b => Qle_bool (eval rho b) (eval rho a)
  | c_eq a b => Qeq_bool (eval rho a) (eval rho b)
  end.

(** Every variable of the notebook is integer-typed ([BoolVar], [IntVar]),
    so an assignment gives each variable an integer. *)
Definition Assignment : Type := Var -> Z.

Definition valuation (a : Assignment) : Var -> Q := fun v => inject_Z (a v).

(** The value lies within the declared bounds of the variable. *)
Definition in_domain (a : Assignment) (vd : VarDecl) : Prop :=
  (lb vd <= valuation a (name vd))%Q /\
  match ub vd with
  | Some u => (valuation a (name vd) <= u)%Q
  | None => True
  end.

Definition in_domainb (a : Assignment) (vd : VarDecl) : bool :=
  Qle_bool (lb vd) (valuation a (name vd)) &&
  match ub vd with
  | Some u => Qle_bool (valuation a (name vd)) u
  | None => true
  end.

Definition satisfies (m : Solver) (a : Assignment) : Prop :=
  Forall (holds (valuation a)) (constraints m).

Definition feasible (m : Solver) (a : Assignment) : Prop :=
  Forall (in_domain a) (variables m) /\ satisfies m a.

Definition feasibleb (m : Solver) (a : Assignment) : bool :=
  forallb (in_domainb a) (variables m) &&
  forallb (holdsb (valuation a)) (constraints m).

Definition cost (m : Solver) (a : Assignment) : Q :=
  eval (valuation a) (objective m).

(** The notebook minimizes. *)
Definition optimal (m : Solver) (a : Assignment) : Prop :=
  feasible m a /\ forall b, feasible m b -> (cost m a <= cost m b)%Q.

(** *** Periods 1..N

    The notebook counts days from 0; the planning periods are 1..N. *)

Definition periods (d : Data) : nat := Z.to_nat (number_of_days d).

Definition indicator (a : Assignment) (t : nat) : Z := a (x_ (t - 1)%nat).
Definition quantity (a : Assignment) (t : nat) : Z := a (ord_ (t - 1)%nat).
Definition lost_quantity (a : Assignment) (t : nat) : Z :=
  a (lost_ (t - 1)%nat).
Definition demand_of (d : Data) (t : nat) : Z :=
  nth (t - 1)%nat (demand d) 0.

(** [ending_level[0]] is the starting stock. *)
Definition ending_level (d : Data) (a : Assignment) (t : nat) : Z :=
  match t with
  | O => stock_level d
  | S i => a (inv_ i)
  end.

Definition BIG_M : Z := 1000000.

(** The sum of [f t] over the periods [1..n]. *)
Definition sum_periods {A} (zero : A) (plus : A -> A -> A) (n : nat)
    (f : nat -> A) : A :=
  fold_right (fun t acc => plus (f t) acc) zero (seq 1 n).

Definition sumZ (n : nat) (f : nat -> Z) : Z := sum_periods 0 Z.add n f.
Definition sumQ (n : nat) (f : nat -> Q) : Q := sum_periods 0%Q Qplus n f.

(** ** The model in closed form *)

(** The four variables registered for day [i]. *)
Definition declarations (i : nat) : list VarDecl :=
  [ mkVar (x_ i) true 0%Q (Some 1%Q);
    mkVar (ord_ i) true 0%Q infinity;
    mkVar (inv_ i) true 0%Q infinity;
    mkVar (lost_ i) true 0%Q infinity ].

(** The inventory-dynamics constraint of day [i]. *)
Definition constraint_3 (d : Data) (i : nat) : Constraint :=
  if Nat.eqb i 0 then
    constraint_3_first d (ord_ i) (nth i (demand d) 0) (lost_ i) (inv_ i)
  else
    constraint_3_next (inv_ (i - 1)%nat) (ord_ i) (nth i (demand d) 0)
                      (lost_ i) (inv_ i).

Definition the_model (d : Data) : Solver :=
  {| variables := flat_map declarations (range (number_of_days d));
     constraints :=
       map (fun i => constraint_1 (ord_ i) (x_ i)) (range (number_of_days d))
       ++ map (fun i => constraint_2 d (ord_ i) (x_ i))
              (range (number_of_days d))
       ++ map (constraint_3 d) (range (number_of_days d));
     objective :=
       sum_ (map (fun i => cost_term d (x_ i) (inv_ i) (lost_ i))
                 (range (number_of_days d)));
     last := last CreateSolver |}.

(** The dictionaries hold the variables of the days below [n]. *)
Definition declared (n : nat) (e : Env) : Prop :=
  forall i, (i < n)%nat ->
    x e !! i = Some (x_ i) /\ intake e !! i = Some (ord_ i) /\
    inv e !! i = Some (inv_ i) /\ lost e !! i = Some (lost_ i).

(** One turn of the declaration loop. *)
Definition declare_step (e : Env) (i : nat) : Env :=
  {| solver :=
       {| variables := variables (solver e) ++ declarations i;
          constraints := constraints (solver e);
          objective := objective (solver e);
          last := last (solver e) |};
     x := <[i:=x_ i]> (x e);
     intake := <[i:=ord_ i]> (intake e);
     inv := <[i:=inv_ i]> (inv e);
     lost := <[i:=lost_ i]> (lost e) |}.

(** The environment with more constraints added. *)
Definition add_all (cs : list Constraint) (e : Env) : Env :=
  {| solver :=
       {| variables := variables (solver e);
          constraints := constraints (solver e) ++ cs;
          objective := objective (solver e);
          last := last (solver e) |};
     x := x e; intake := intake e; inv := inv e; lost := lost e |}.

(** ** Closed forms of the loops *)

(** The environment the building cells end in. *)
Definition built_env (d : Data) : Env :=
  let e1 := fold_left declare_step (range (number_of_days d)) initial_env in
  {| solver := the_model d; x := x e1; intake := intake e1; inv := inv e1;
     lost := lost e1 |}.

(** A solution as [solution_value()] reads it when every variable is
    integer-typed, which all variables of the notebooks are. *)
Definition rounded (sol : Solution) : Solution :=
  {| status := status sol;
     value_of := fun v => inject_Z (round (value_of sol v));
     objective_value := objective_value sol |}.

(** The variables of the days below [n] are integer-typed. *)
Definition integer_typed (n : nat) (s : Solver) : Prop :=
  forall i, (i < n)%nat ->
    is_integer s (x_ i) = true /\ is_integer s (ord_ i) = true /\
    is_integer s (inv_ i) = true /\ is_integer s (lost_ i) = true.

Definition add_day (sol : Solution) (acc : Totals) (i : nat) : Totals :=
  if Qeq_bool (value_of sol (x_ i)) 1 then
    {| total_intake_qty := (total_intake_qty acc + value_of sol (ord_ i))%Q;
       total_inventory := (total_inventory acc + value_of sol (inv_ i))%Q;
       total_lost_sales_qty :=
         (total_lost_sales_qty acc + value_of sol (lost_ i))%Q |}
  else acc.

Definition totals_of (sol : Solution) (l : list nat) : Totals :=
  fold_left (add_day sol) l
    {| total_intake_qty := 0; total_inventory := 0;
       total_lost_sales_qty := 0 |}.

Definition report_of (d : Data) (sol : Solution) : Report :=
  let days := range (number_of_days d) in
  let t := totals_of sol days in
  {| printed_status := status_code (status sol);
     printed_objective := objective_value sol;
     printed_stock := stock_level d;
     row_day := map (fun i => Z.of_nat i + 1) days;
     row_intake := map (fun i => int (value_of sol (ord_ i))) days;
     row_demand := map (fun i => nth i (demand d) 0) days;
     row_inv := map (fun i => int (value_of sol (inv_ i))) days;
     row_lost := map (fun i => int (value_of sol (lost_ i))) days;
     printed_total_intake := int (total_intake_qty t);
     printed_total_inventory := int (total_inventory t);
     printed_total_lost_sales := int (total_lost_sales_qty t) |}.

(** ** Feasibility and cost, day by day *)

(** Everything the model asks of day [i]. *)
Definition period_ok (d : Data) (a : Assignment) (i : nat) : Prop :=
  (0 <= a (x_ i) <= 1 /\ 0 <= a (ord_ i) /\ 0 <= a (inv_ i) /\
   0 <= a (lost_ i)) /\
  a (ord_ i) <= BIG_M * a (x_ i) /\
  moq d * a (x_ i) <= a (ord_ i) /\
  ending_level d a i + a (ord_ i) - nth i (demand d) 0 + a (lost_ i)
  = a (inv_ i).

(** The cost of period [t] under a valuation. *)
Definition period_cost (d : Data) (rho : Var -> Q) (t : nat) : Q :=
  (inject_Z (delivery_cost d) * rho (x_ (t - 1)%nat)
   + inventory_holding_cost d * rho (inv_ (t - 1)%nat)
   + lost_sales_cost d * rho (lost_ (t - 1)%nat))%Q.

(** One hundred times the objective is an integer: the holding cost is a
    hundredth of the selling price. *)

Definition scaled_period_cost (d : Data) (a : Assignment) (t : nat) : Z :=
  100 * delivery_cost d * a (x_ (t - 1)%nat)
  + selling_price d * a (inv_ (t - 1)%nat)
  + 100 * selling_price d * a (lost_ (t - 1)%nat).

Definition scaled_cost (d : Data) (a : Assignment) : Z :=
  sumZ (periods d) (scaled_period_cost d a).

(** ** Instances, plans and engines *)

(** The plan printed in the notebook's stored output. *)
Definition recorded_plan : Assignment :=
  fun v =>
    match v with
    | x_ i => nth i [0; 1; 0; 0; 1; 0; 0; 1; 0; 0] 0
    | ord_ i => nth i [0; 12; 0; 0; 11; 0; 0; 13; 0; 0] 0
    | inv_ i => nth i [1; 8; 5; 0; 8; 3; 0; 8; 5; 0] 0
    | lost_ i => 0
    end.

(** An engine that returns a given plan as proven optimal. *)
Definition engine_returning (a : Assignment) (obj : Q) : Solver -> Solution :=
  fun _ => {| status := OPTIMAL; value_of := valuation a;
              objective_value := obj |}.

(** A day on which losing the sale is cheaper than an order: no stock, a
    demand of one unit, delivery at 20. *)
Definition short_data : Data :=
  {| stock_level := 0; selling_price := 10; number_of_days := 1;
     demand := [1]; moq := 10; delivery_cost := 20 |}.

(** No order, one lost sale. *)
Definition short_plan : Assignment :=
  fun v => match v with lost_ O => 1 | _ => 0 end.

(** A day with a demand of six units and no stock. *)
Definition noisy_data : Data :=
  {| stock_level := 0; selling_price := 10; number_of_days := 1;
     demand := [6]; moq := 1; delivery_cost := 1 |}.

(** The engine's answer for [noisy_data] with rounding noise on the order
    quantity. *)
Definition noisy_engine : Solver -> Solution :=
  fun _ =>
    {| status := OPTIMAL;
       value_of := fun v => match v with
                            | x_ O => 1
                            | ord_ O => 5.999999999
                            | _ => 0
                            end%Q;
       objective_value := 1 |}.

(** A negative selling price pays for lost sales: the objective has no
    finite minimum. *)
Definition unbounded_data : Data :=
  {| stock_level := 4; selling_price := -10; number_of_days := 1;
     demand := [3]; moq := 10; delivery_cost := 1 |}.

(** Lose [k] sales on the only day and keep the stock. *)
Definition losing_plan (k : Z) : Assignment :=
  fun v =>
    match v with
    | inv_ O => 1 + k
    | lost_ O => k
    | _ => 0
    end.

(** An engine that finds the objective unbounded; there is no solution and
    every value reads as [0]. *)
Definition unbounded_engine : Solver -> Solution :=
  fun _ => {| status := UNBOUNDED; value_of := fun _ => 0%Q;
              objective_value := 0 |}.

(** An engine that gives up and leaves arbitrary values behind. *)
Definition abnormal_engine : Solver -> Solution :=
  fun _ => {| status := ABNORMAL; value_of := fun _ => 7%Q;
              objective_value := 0 |}.

(** Negative demand, MOQ and delivery cost. *)
Definition negative_data : Data :=
  {| stock_level := 4; selling_price := 10; number_of_days := 1;
     demand := [-5]; moq := -1; delivery_cost := -1 |}.

(** No period at all. *)
Definition empty_horizon : Data :=
  {| stock_level := 4; selling_price := 10; number_of_days := 0;
     demand := []; moq := 10; delivery_cost := 1 |}.

(** One day whose demand the stock covers. *)
Definition one_day : Data :=
  {| stock_level := 4; selling_price := 10; number_of_days := 1;
     demand := [3]; moq := 10; delivery_cost := 1 |}.

(** Order nothing and keep what demand leaves of the stock. *)
Definition idle_plan (d : Data) : Assignment :=
  fun v =>
    match v with
    | inv_ O => stock_level d - nth 0 (demand d) 0
    | _ => 0
    end.

(** An engine is exact on a model when, the model having an optimum, it
    answers OPTIMAL and returns the values of an optimal assignment. *)
Definition exact_on (engine : Solver -> Solution) (m : Solver) : Prop :=
  (exists a, optimal m a) ->
  status (engine m) = OPTIMAL /\
  exists a, optimal m a /\ forall v, (value_of (engine m) v == valuation a v)%Q.

(** ** The specification's own notions *)


(** ** A lower bound for the notebook's instance

    A lower bound on the cost of every feasible plan of the notebook's
    instance, by backward induction over the days.  Costs are in hundredths:
    an order costs 100, a unit in stock 10 a day, a lost sale 1000.  A plan
    that loses a sale or ends a day with 68 units or more costs at least
    [dp_cap] on that day alone, so the table stops there. *)

Definition dp_cap : Z := 680.

Definition dp_levels : list Z := map Z.of_nat (seq 0 68).

(** From level [p] through a day of demand [dm] to level [p'] without a
    lost sale, then on as cheaply as the table [T] of the next day says. *)
Definition dp_move (dm p : Z) (T : list Z) (p' : Z) : Z :=
  let q := p' - p + dm in
  let rest := 10 * p' + nth (Z.to_nat p') T 0 in
  if q =? 0 then rest else if 10 <=? q then 100 + rest else dp_cap.

Definition dp_step (dm : Z) (T : list Z) (p : Z) : Z :=
  fold_right Z.min dp_cap (map (dp_move dm p T) dp_levels).

Fixpoint dp_table (ds : list Z) : list Z :=
  match ds with
  | [] => map (fun _ => 0) dp_levels
  | dm :: ds' => let T := dp_table ds' in map (dp_step dm T) dp_levels
  end.

Definition dp_bound (ds : list Z) (p : Z) : Z :=
  match ds with
  | [] => 0
  | dm :: ds' => dp_step dm (dp_table ds') p
  end.

(** The cost of day [j] and of the days [i .. i+n-1], in hundredths. *)
Definition day_cost (a : Assignment) (j : nat) : Z :=
  100 * a (x_ j) + 10 * a (inv_ j) + 1000 * a (lost_ j).

Definition cost_to_go (a : Assignment) (i n : nat) : Z :=
  fold_right (fun j r => day_cost a j + r) 0 (seq i n).

(** Day [i] of the instance, entered with [prev] units and facing demand
    [dm]. *)
Definition day_ok (a : Assignment) (i : nat) (prev dm : Z) : Prop :=
  0 <= a (x_ i) <= 1 /\ 0 <= a (ord_ i) /\ 0 <= a (inv_ i) /\
  0 <= a (lost_ i) /\
  a (ord_ i) <= BIG_M * a (x_ i) /\ 10 * a (x_ i) <= a (ord_ i) /\
  prev + a (ord_ i) - dm + a (lost_ i) = a (inv_ i).

Fixpoint chain (a : Assignment) (i : nat) (prev : Z) (ds : list Z) : Prop :=
  match ds with
  | [] => True
  | dm :: ds' => day_ok a i prev dm /\ chain a (S i) (a (inv_ i)) ds'
  end.

(** ** Plans built from other plans *)

(** The stock before day [i] when nothing is ever ordered and unmet demand
    is written off. *)
Fixpoint stock_after (d : Data) (i : nat) : Z :=
  match i with
  | O => stock_level d
  | S j => Z.max 0 (stock_after d j - nth j (demand d) 0)
  end.

(** Never order; lose what the stock does not cover. *)
Definition no_order_plan (d : Data) : Assignment :=
  fun v =>
    match v with
    | inv_ i => stock_after d (S i)
    | lost_ i => Z.max 0 (nth i (demand d) 0 - stock_after d i)
    | _ => 0
    end.

(** Raise the lost sales and the ending level of day [i] by [k] and take
    [k] off the lost sales of the next day, which then ends as before. *)
Definition adjust (a : Assignment) (i : nat) (k : Z) : Assignment :=
  fun v =>
    match v with
    | inv_ j => if Nat.eqb j i then a v + k else a v
    | lost_ j =>
        if Nat.eqb j i then a v + k
        else if Nat.eqb j (S i) then a v - k else a v
    | _ => a v
    end.

(** The cost of day [j], times one hundred. *)
Definition scaled_day_cost (d : Data) (a : Assignment) (j : nat) : Z :=
  100 * delivery_cost d * a (x_ j) + selling_price d * a (inv_ j)
  + 100 * selling_price d * a (lost_ j).

(** The sum of [g j] over the days [0 .. n-1]. *)
Definition sum_days (n : nat) (g : nat -> Z) : Z :=
  fold_right (fun j r => g j + r) 0 (seq 0 n).

(** An engine whose indicators carry rounding noise: 0.9999999 instead of
    1 on every day. *)
Definition near_one_engine : Solver -> Solution :=
  fun _ =>
    {| status := OPTIMAL;
       value_of := fun v => match v with
                            | x_ _ => 0.9999999
                            | ord_ _ => 12
                            | inv_ _ => 8
                            | lost_ _ => 0
                            end%Q;
       objective_value := 6.8 |}.

(** * The selection notebooks

    The knapsack and the purchase notebooks build one constraint and one
    objective to maximize over their own globals.  Their cells run in the
    same kind of state-and-exception monad, over an environment of their
    own. *)

Section World.

Variable W : Type.

Definition MW (A : Type) : Type := W -> Exception + (A * W).

Definition retW {A} (a : A) : MW A := fun w => inr (a, w).

Definition bindW {A B} (m : MW A) (k : A -> MW B) : MW B :=
  fun w => match m w with
           | inl ex => inl ex
           | inr (a, w') => k a w'
           end.

Fixpoint forW (l : list nat) (body : nat -> MW unit) : MW unit :=
  match l with
  | [] => retW tt
  | i :: l' => bindW (body i) (fun _ => forW l' body)
  end.

Fixpoint mapW {A} (f : nat -> MW A) (l : list nat) : MW (list A) :=
  match l with
  | [] => retW []
  | i :: l' =>
      bindW (f i) (fun a => bindW (mapW f l') (fun r => retW (a :: r)))
  end.

Fixpoint foldW {A} (f : A -> nat -> MW A) (acc : A) (l : list nat) : MW A :=
  match l with
  | [] => retW acc
  | i :: l' => bindW (f acc i) (fun acc' => foldW f acc' l')
  end.

End World.

Arguments retW {W A} a.
Arguments bindW {W A B} m k.
Arguments forW {W} l body.
Arguments mapW {W A} f l.
Arguments foldW {W A} f acc l.

Declare Scope world_scope.
Notation "v <- m ;; k" := (bindW m (fun v => k))
  (at level 100, m at next level, right associativity) : world_scope.
Notation "m ;; k" := (bindW m (fun _ => k))
  (at level 100, right associativity) : world_scope.

(** Maximization: no feasible assignment has a larger objective. *)
Definition best (m : Solver) (a : Assignment) : Prop :=
  feasible m a /\ forall b, feasible m b -> (cost m b <= cost m a)%Q.

(** The sum of [g i] over a list of indices. *)
Definition sum_over (l : list nat) (g : nat -> Z) : Z :=
  fold_right (fun i r => g i + r) 0 l.

(** ** The knapsack notebook *)

Module Knapsack.

Local Open Scope world_scope.

(** [{'value': ..., 'weight': ...}] *)
Record Item : Type := mkItem {
  value : Z;
  weight : Z
}.

(** The notebook's globals: the solver with the direction of its
    objective, the two dictionaries and the number of random draws made so
    far. *)
Record Env : Type := mkEnv {
  solver : Solver;
  maximization : bool;
  item : gmap nat Item;
  x : gmap nat Var;
  draws : nat
}.

Definition initial_env : Env :=
  {| solver := CreateSolver; maximization := false; item := ∅; x := ∅;
     draws := 0 |}.

Definition K (A : Type) : Type := MW Env A.

(** The problem data that is not drawn at random. *)
Record Data : Type := mkData {
  number_of_items : Z;
  max_weight : Z
}.

(** What the last cell prints. *)
Record Report : Type := mkReport {
  printed_status : Z;
  printed_objective : Q;
  number_of_items_packed : Z;
  total_weight_used : Z
}.

Section Notebook.

(** [random.randint]: the result of the [k]-th call, given its bounds. *)
Variable rand : nat -> Z -> Z -> Z.

(** The external engine: it sees the model and the direction. *)
Variable engine : Solver -> bool -> Solution.

(** [random.randint(lo, hi)] *)
Definition randint (lo hi : Z) : K Z :=
  fun e => inr (rand (draws e) lo hi,
                {| solver := solver e; maximization := maximization e;
                   item := item e; x := x e; draws := S (draws e) |}).

(** [item = {}] *)
Definition reset_item : K unit :=
  fun e => inr (tt, {| solver := solver e; maximization := maximization e;
                       item := ∅; x := x e; draws := draws e |}).

(** [item[i] = it] *)
Definition set_item (i : nat) (it : Item) : K unit :=
  fun e => inr (tt, {| solver := solver e; maximization := maximization e;
                       item := <[i:=it]> (item e); x := x e;
                       draws := draws e |}).

(** [item[i]] *)
Definition get_item (i : nat) : K Item :=
  fun e => match item e !! i with
           | Some it => inr (it, e)
           | None => inl (KeyError i)
           end.

(** [solver = pywraplp.Solver.CreateSolver('SCIP')] and [x = {}] *)
Definition new_solver : K unit :=
  fun e => inr (tt, {| solver := CreateSolver; maximization := false;
                       item := item e; x := ∅; draws := draws e |}).

Definition with_solver (f : Solver -> Solver) (e : Env) : Env :=
  {| solver := f (solver e); maximization := maximization e;
     item := item e; x := x e; draws := draws e |}.

(** [solver.BoolVar(name)] *)
Definition BoolVar (v : Var) : K Var :=
  fun e => inr (v, with_solver (register (mkVar v true 0%Q (Some 1%Q))) e).

(** [x[i] = v] *)
Definition set_x (i : nat) (v : Var) : K unit :=
  fun e => inr (tt, {| solver := solver e; maximization := maximization e;
                       item := item e; x := <[i:=v]> (x e);
                       draws := draws e |}).

(** [x[i]] *)
Definition get_x (i : nat) : K Var :=
  fun e => match x e !! i with
           | Some v => inr (v, e)
           | None => inl (KeyError i)
           end.

(** [solver.Add(c)] *)
Definition Add (c : Constraint) : K unit :=
  fun e => inr (tt, with_solver (fun s =>
    {| variables := variables s; constraints := constraints s ++ [c];
       objective := objective s; last := last s |}) e).

(** [solver.Maximize(expr)] *)
Definition Maximize (expr : LinExpr) : K unit :=
  fun e => inr (tt,
    {| solver := {| variables := variables (solver e);
                    constraints := constraints (solver e);
                    objective := expr; last := last (solver e) |};
       maximization := true; item := item e; x := x e; draws := draws e |}).

(** [status = solver.Solve()] *)
Definition Solve : K Status :=
  fun e =>
    let r := engine (solver e) (maximization e) in
    inr (status r, with_solver (fun s =>
      {| variables := variables s; constraints := constraints s;
         objective := objective s; last := r |}) e).

(** [x[i].solution_value()] *)
Definition solution_value (v : Var) : K Q :=
  fun e => inr (read (solver e) v, e).

(** [solver.Objective().Value()] *)
Definition Objective_Value : K Q :=
  fun e => inr (objective_value (last (solver e)), e).

(** The items cell: a value in 1..5 and a weight in 10..30 for each item,
    the value drawn first. *)
Definition make_items (d : Data) : K unit :=
  reset_item ;;
  forW (range (number_of_items d)) (fun i =>
    v <- randint 1 5 ;; w <- randint 10 30 ;;
    set_item i {| value := v; weight := w |}).

(** The variables cell. *)
Definition declare_variables (d : Data) : K unit :=
  new_solver ;;
  forW (range (number_of_items d)) (fun i =>
    v <- BoolVar (x_ i) ;; set_x i v).

(** [sum(item[i]['weight'] * x[i] for i in range(number_of_items))
     <= max_weight] *)
Definition add_constraint (d : Data) : K unit :=
  terms <- mapW (fun i =>
             it <- get_item i ;; v <- get_x i ;;
             retW (Prod (inject_Z (weight it)) (V v)))
           (range (number_of_items d)) ;;
  Add (c_le (sum_ terms) (Cst (inject_Z (max_weight d)))).

(** [solver.Maximize(sum(item[i]['value'] * x[i] for i in ...))] *)
Definition set_objective (d : Data) : K unit :=
  terms <- mapW (fun i =>
             it <- get_item i ;; v <- get_x i ;;
             retW (Prod (inject_Z (value it)) (V v)))
           (range (number_of_items d)) ;;
  Maximize (sum_ terms).

(** The loop of the last cell: the packed items are counted and their
    weights added up, an item being packed when its variable reads 1. *)
Definition tally (d : Data) : K (Z * Z) :=
  foldW (fun acc i =>
           v <- get_x i ;; q <- solution_value v ;;
           if Qeq_bool q 1 then
             it <- get_item i ;;
             retW (fst acc + 1, snd acc + weight it)
           else retW acc)
        (0, 0) (range (number_of_items d)).

Definition report (d : Data) (st : Status) : K Report :=
  ov <- Objective_Value ;;
  acc <- tally d ;;
  retW {| printed_status := status_code st; printed_objective := ov;
          number_of_items_packed := fst acc; total_weight_used := snd acc |}.

Definition build (d : Data) : K unit :=
  make_items d ;; declare_variables d ;; add_constraint d ;; set_objective d.

Definition notebook (d : Data) : K Report :=
  build d ;; st <- Solve ;; report d st.

Definition run (d : Data) : Exception + Report :=
  match notebook d initial_env with
  | inl ex => inl ex
  | inr (r, _) => inr r
  end.

(** The model the building cells leave in [solver], with the direction of
    its objective ([true]: maximize). *)
Definition model_of (d : Data) : Exception + Solver * bool :=
  match build d initial_env with
  | inl ex => inl ex
  | inr (_, e) => inr (solver e, maximization e)
  end.

(** *** Closed forms *)

(** The item drawn for index [i]: draws [2i] and [2i+1]. *)
Definition drawn (i : nat) : Item :=
  {| value := rand (2 * i) 1 5; weight := rand (2 * i + 1) 10 30 |}.

Definition the_model (d : Data) : Solver :=
  {| variables :=
       map (fun i => mkVar (x_ i) true 0%Q (Some 1%Q))
           (range (number_of_items d));
     constraints :=
       [c_le (sum_ (map (fun i => Prod (inject_Z (weight (drawn i))) (V (x_ i)))
                        (range (number_of_items d))))
             (Cst (inject_Z (max_weight d)))];
     objective :=
       sum_ (map (fun i => Prod (inject_Z (value (drawn i))) (V (x_ i)))
                 (range (number_of_items d)));
     last := last CreateSolver |}.

Definition tally_step (sol : Solution) (acc : Z * Z) (i : nat) : Z * Z :=
  if Qeq_bool (value_of sol (x_ i)) 1
  then (fst acc + 1, snd acc + weight (drawn i))
  else acc.

Definition report_of (d : Data) (sol : Solution) : Report :=
  let acc := fold_left (tally_step sol) (range (number_of_items d)) (0, 0) in
  {| printed_status := status_code (status sol);
     printed_objective := objective_value sol;
     number_of_items_packed := fst acc; total_weight_used := snd acc |}.

(** The weight and the value of what an assignment packs. *)
Definition packed_weight (d : Data) (a : Assignment) : Z :=
  sum_over (range (number_of_items d)) (fun i => weight (drawn i) * a (x_ i)).

Definition packed_value (d : Data) (a : Assignment) : Z :=
  sum_over (range (number_of_items d)) (fun i => value (drawn i) * a (x_ i)).

Definition packed_count (d : Data) (a : Assignment) : Z :=
  sum_over (range (number_of_items d)) (fun i => a (x_ i)).

(** Pack item [i] as well. *)
Definition also_pack (a : Assignment) (i : nat) : Assignment :=
  fun v => match v with
           | x_ j => if Nat.eqb j i then 1 else a v
           | _ => a v
           end.

(** The environment after the items and the variables cells. *)
Definition items_step (e : Env) (i : nat) : Env :=
  {| solver := solver e; maximization := maximization e;
     item := <[i := {| value := rand (draws e) 1 5;
                       weight := rand (S (draws e)) 10 30 |}]> (item e);
     x := x e; draws := S (S (draws e)) |}.

Definition declare_step (e : Env) (i : nat) : Env :=
  {| solver := register (mkVar (x_ i) true 0%Q (Some 1%Q)) (solver e);
     maximization := maximization e; item := item e;
     x := <[i := x_ i]> (x e); draws := draws e |}.

End Notebook.

(** The dictionaries hold the drawn items and the variables. *)
Definition ready (rand : nat -> Z -> Z -> Z) (d : Data) (e : Env) : Prop :=
  forall i, In i (range (number_of_items d)) ->
    item e !! i = Some (drawn rand i) /\ x e !! i = Some (x_ i).

(** [random.randint(lo, hi)] returns a number between its bounds. *)
Definition randint_ok (rand : nat -> Z -> Z -> Z) : Prop :=
  forall k lo hi, lo <= hi -> lo <= rand k lo hi <= hi.

(** A pseudo-random source: the [k]-th call walks through its range. *)
Definition walk (k : nat) (lo hi : Z) : Z :=
  lo + Z.of_nat k mod (hi - lo + 1).

(** Three items, of values 1, 3, 5 and weights 11, 13, 15 under [walk],
    and room for 25. *)
Definition small_data : Data := {| number_of_items := 3; max_weight := 25 |}.

(** Pack the third item only. *)
Definition small_pack : Assignment :=
  fun v => match v with x_ 2 => 1 | _ => 0 end.

(** An engine that returns a given pack as proven optimal. *)
Definition engine_packing (a : Assignment) (obj : Q)
  : Solver -> bool -> Solution :=
  fun _ _ => {| status := OPTIMAL; value_of := valuation a;
                objective_value := obj |}.

(** No room at all. *)
Definition no_room : Data := {| number_of_items := 3; max_weight := -1 |}.

End Knapsack.

(** ** The purchase notebook *)

Module Purchase.

Local Open Scope world_scope.

(** [{'p': price, 'f': PC1 per unit}] *)
Record Sku : Type := mkSku {
  p : Z;
  f : Q
}.

(** The notebook's globals. *)
Record Env : Type := mkEnv {
  solver : Solver;
  maximization : bool;
  SKU : gmap nat Sku;
  x : gmap nat Var;
  draws : nat
}.

Definition initial_env : Env :=
  {| solver := CreateSolver; maximization := false; SKU := ∅; x := ∅;
     draws := 0 |}.

Definition K (A : Type) : Type := MW Env A.

Record Data : Type := mkData {
  number_of_SKUs : Z;
  B : Z
}.

(** The running figures of the last cell. *)
Record Tally : Type := mkTally {
  total_budget_used : Q;
  number_of_SKUs_purchased : Z;
  number_of_units_purchased : Q
}.

(** What the last cell prints. *)
Record Report : Type := mkReport {
  printed_status : Z;
  printed_objective : Q;
  printed : Tally
}.

Section Notebook.

(** [random.randint]: the result of the [k]-th call, given its bounds. *)
Variable rand : nat -> Z -> Z -> Z.

(** The external engine: it sees the model and the direction. *)
Variable engine : Solver -> bool -> Solution.

(** [random.randint(lo, hi)] *)
Definition randint (lo hi : Z) : K Z :=
  fun e => inr (rand (draws e) lo hi,
                {| solver := solver e; maximization := maximization e;
                   SKU := SKU e; x := x e; draws := S (draws e) |}).

(** [SKU = {}] *)
Definition reset_SKU : K unit :=
  fun e => inr (tt, {| solver := solver e; maximization := maximization e;
                       SKU := ∅; x := x e; draws := draws e |}).

(** [SKU[i] = s] *)
Definition set_SKU (i : nat) (s : Sku) : K unit :=
  fun e => inr (tt, {| solver := solver e; maximization := maximization e;
                       SKU := <[i:=s]> (SKU e); x := x e;
                       draws := draws e |}).

(** [SKU[i]] *)
Definition get_SKU (i : nat) : K Sku :=
  fun e => match SKU e !! i with
           | Some s => inr (s, e)
           | None => inl (KeyError i)
           end.

(** [solver = pywraplp.Solver.CreateSolver('SCIP')] and [x = {}] *)
Definition new_solver : K unit :=
  fun e => inr (tt, {| solver := CreateSolver; maximization := false;
                       SKU := SKU e; x := ∅; draws := draws e |}).

Definition with_solver (g : Solver -> Solver) (e : Env) : Env :=
  {| solver := g (solver e); maximization := maximization e;
     SKU := SKU e; x := x e; draws := draws e |}.

(** [solver.IntVar(lo, hi, name)] *)
Definition IntVar (lo : Q) (hi : option Q) (v : Var) : K Var :=
  fun e => inr (v, with_solver (register (mkVar v true lo hi)) e).

(** [x[i] = v] *)
Definition set_x (i : nat) (v : Var) : K unit :=
  fun e => inr (tt, {| solver := solver e; maximization := maximization e;
                       SKU := SKU e; x := <[i:=v]> (x e);
                       draws := draws e |}).

(** [x[i]] *)
Definition get_x (i : nat) : K Var :=
  fun e => match x e !! i with
           | Some v => inr (v, e)
           | None => inl (KeyError i)
           end.

(** [solver.Add(c)] *)
Definition Add (c : Constraint) : K unit :=
  fun e => inr (tt, with_solver (fun s =>
    {| variables := variables s; constraints := constraints s ++ [c];
       objective := objective s; last := last s |}) e).

(** [solver.Maximize(expr)] *)
Definition Maximize (expr : LinExpr) : K unit :=
  fun e => inr (tt,
    {| solver := {| variables := variables (solver e);
                    constraints := constraints (solver e);
                    objective := expr; last := last (solver e) |};
       maximization := true; SKU := SKU e; x := x e; draws := draws e |}).

(** [status = solver.Solve()] *)
Definition Solve : K Status :=
  fun e =>
    let r := engine (solver e) (maximization e) in
    inr (status r, with_solver (fun s =>
      {| variables := variables s; constraints := constraints s;
         objective := objective s; last := r |}) e).

(** [x[i].solution_value()] *)
Definition solution_value (v : Var) : K Q :=
  fun e => inr (read (solver e) v, e).

(** [solver.Objective().Value()] *)
Definition Objective_Value : K Q :=
  fun e => inr (objective_value (last (solver e)), e).

(** The SKUs cell: a price in 20..200 and a PC1 per unit of 5 to 20
    percent of the price. *)
Definition make_SKUs (d : Data) : K unit :=
  reset_SKU ;;
  forW (range (number_of_SKUs d)) (fun i =>
    price <- randint 20 200 ;; k <- randint 5 20 ;;
    set_SKU i {| p := price; f := (inject_Z (price * k) / 100)%Q |}).

(** The variables cell. *)
Definition declare_variables (d : Data) : K unit :=
  new_solver ;;
  forW (range (number_of_SKUs d)) (fun i =>
    v <- IntVar 0%Q infinity (x_ i) ;; set_x i v).

(** [sum(SKU[i]['p'] * x[i] for i in range(number_of_SKUs)) <= B] *)
Definition add_constraint (d : Data) : K unit :=
  terms <- mapW (fun i =>
             s <- get_SKU i ;; v <- get_x i ;;
             retW (Prod (inject_Z (p s)) (V v)))
           (range (number_of_SKUs d)) ;;
  Add (c_le (sum_ terms) (Cst (inject_Z (B d)))).

(** [solver.Maximize(sum(SKU[i]['f'] * x[i] for i in ...))] *)
Definition set_objective (d : Data) : K unit :=
  terms <- mapW (fun i =>
             s <- get_SKU i ;; v <- get_x i ;;
             retW (Prod (f s) (V v)))
           (range (number_of_SKUs d)) ;;
  Maximize (sum_ terms).

(** The loop of the last cell: a SKU is purchased when its variable reads
    more than 0. *)
Definition tally (d : Data) : K Tally :=
  foldW (fun acc i =>
           v <- get_x i ;; q <- solution_value v ;;
           if negb (Qle_bool q 0) then
             s <- get_SKU i ;; v' <- get_x i ;; q' <- solution_value v' ;;
             v'' <- get_x i ;; q'' <- solution_value v'' ;;
             retW {| total_budget_used :=
                       (total_budget_used acc + inject_Z (p s) * q')%Q;
                     number_of_SKUs_purchased :=
                       number_of_SKUs_purchased acc + 1;
                     number_of_units_purchased :=
                       (number_of_units_purchased acc + q'')%Q |}
           else retW acc)
        {| total_budget_used := 0; number_of_SKUs_purchased := 0;
           number_of_units_purchased := 0 |}
        (range (number_of_SKUs d)).

Definition report (d : Data) (st : Status) : K Report :=
  ov <- Objective_Value ;;
  acc <- tally d ;;
  retW {| printed_status := status_code st; printed_objective := ov;
          printed := acc |}.

Definition build (d : Data) : K unit :=
  make_SKUs d ;; declare_variables d ;; add_constraint d ;; set_objective d.

Definition notebook (d : Data) : K Report :=
  build d ;; st <- Solve ;; report d st.

Definition run (d : Data) : Exception + Report :=
  match notebook d initial_env with
  | inl ex => inl ex
  | inr (r, _) => inr r
  end.

(** The model the building cells leave in [solver], with the direction of
    its objective ([true]: maximize). *)
Definition model_of (d : Data) : Exception + Solver * bool :=
  match build d initial_env with
  | inl ex => inl ex
  | inr (_, e) => inr (solver e, maximization e)
  end.

(** *** Closed forms *)

(** The price and the percentage drawn for index [i]: draws [2i] and
    [2i+1]. *)
Definition price (i : nat) : Z := rand (2 * i) 20 200.
Definition percent (i : nat) : Z := rand (2 * i + 1) 5 20.

Definition drawn (i : nat) : Sku :=
  {| p := price i; f := (inject_Z (price i * percent i) / 100)%Q |}.

Definition the_model (d : Data) : Solver :=
  {| variables :=
       map (fun i => mkVar (x_ i) true 0%Q infinity)
           (range (number_of_SKUs d));
     constraints :=
       [c_le (sum_ (map (fun i => Prod (inject_Z (p (drawn i))) (V (x_ i)))
                        (range (number_of_SKUs d))))
             (Cst (inject_Z (B d)))];
     objective :=
       sum_ (map (fun i => Prod (f (drawn i)) (V (x_ i)))
                 (range (number_of_SKUs d)));
     last := last CreateSolver |}.

Definition tally_step (sol : Solution) (acc : Tally) (i : nat) : Tally :=
  if negb (Qle_bool (value_of sol (x_ i)) 0)
  then {| total_budget_used :=
            (total_budget_used acc
             + inject_Z (p (drawn i)) * value_of sol (x_ i))%Q;
          number_of_SKUs_purchased := number_of_SKUs_purchased acc + 1;
          number_of_units_purchased :=
            (number_of_units_purchased acc + value_of sol (x_ i))%Q |}
  else acc.

Definition report_of (d : Data) (sol : Solution) : Report :=
  {| printed_status := status_code (status sol);
     printed_objective := objective_value sol;
     printed :=
       fold_left (tally_step sol) (range (number_of_SKUs d))
         {| total_budget_used := 0; number_of_SKUs_purchased := 0;
            number_of_units_purchased := 0 |} |}.

(** What an assignment spends, buys and earns (the PC1, in hundredths). *)
Definition spent (d : Data) (a : Assignment) : Z :=
  sum_over (range (number_of_SKUs d)) (fun i => price i * a (x_ i)).

Definition units (d : Data) (a : Assignment) : Z :=
  sum_over (range (number_of_SKUs d)) (fun i => a (x_ i)).

Definition lines (d : Data) (a : Assignment) : Z :=
  sum_over (range (number_of_SKUs d))
           (fun i => if 0 <? a (x_ i) then 1 else 0).

Definition scaled_gain (d : Data) (a : Assignment) : Z :=
  sum_over (range (number_of_SKUs d))
           (fun i => price i * percent i * a (x_ i)).

(** Buy one more unit of SKU [i]. *)
Definition one_more (a : Assignment) (i : nat) : Assignment :=
  fun v => match v with
           | x_ j => if Nat.eqb j i then a v + 1 else a v
           | _ => a v
           end.

Definition SKUs_step (e : Env) (i : nat) : Env :=
  {| solver := solver e; maximization := maximization e;
     SKU := <[i := {| p := rand (draws e) 20 200;
                      f := (inject_Z (rand (draws e) 20 200
                                      * rand (S (draws e)) 5 20) / 100)%Q |}]>
              (SKU e);
     x := x e; draws := S (S (draws e)) |}.

Definition declare_step (e : Env) (i : nat) : Env :=
  {| solver := register (mkVar (x_ i) true 0%Q infinity) (solver e);
     maximization := maximization e; SKU := SKU e;
     x := <[i := x_ i]> (x e); draws := draws e |}.

End Notebook.

(** The dictionaries hold the drawn SKUs and the variables. *)
Definition ready (rand : nat -> Z -> Z -> Z) (d : Data) (e : Env) : Prop :=
  forall i, In i (range (number_of_SKUs d)) ->
    SKU e !! i = Some (drawn rand i) /\ x e !! i = Some (x_ i).

(** Two SKUs under [Knapsack.walk]: prices 20 and 22, PC1 of 6 and 8
    percent, and a budget of 50. *)
Definition small_data : Data := {| number_of_SKUs := 2; B := 50 |}.

(** Two units of the second SKU. *)
Definition small_purchase : Assignment :=
  fun v => match v with x_ 1 => 2 | _ => 0 end.

End Purchase.

(** * Proofs *)

(** ** Loops *)

Lemma for_app (l1 l2 : list nat) (body : nat -> M unit) (e : Env) :
  for_ (l1 ++ l2) body e =
  match for_ l1 body e with
  | inl ex => inl ex
  | inr (_, e') => for_ l2 body e'
  end.
Proof.
  revert e. induction l1 as [|i l1 IH]; intros e; simpl.
  - reflexivity.
  - unfold bind. destruct (body i e) as [ex|[[] e1]].
    + reflexivity.
    + apply IH.
Qed.

Lemma for_declare (l : list nat) (e : Env) :
  for_ l (fun i =>
    v <- BoolVar (x_ i) ;; set_x i v ;;
    v <- IntVar 0%Q infinity (ord_ i) ;; set_intake i v ;;
    v <- IntVar 0%Q infinity (inv_ i) ;; set_inv i v ;;
    v <- IntVar 0%Q infinity (lost_ i) ;; set_lost i v) e
  = inr (tt, fold_left declare_step l e).
Proof.
  revert e. induction l as [|i l IH]; intros e; simpl.
  - reflexivity.
  - unfold bind at 1. simpl. rewrite IH. f_equal. f_equal. f_equal.
    unfold declare_step, with_solver, register. simpl.
    rewrite <- !app_assoc. reflexivity.
Qed.

Lemma fold_declare_solver (l : list nat) (e : Env) :
  solver (fold_left declare_step l e) =
  {| variables := variables (solver e) ++ flat_map declarations l;
     constraints := constraints (solver e);
     objective := objective (solver e);
     last := last (solver e) |}.
Proof.
  revert e. induction l as [|i l IH]; intros e; simpl.
  - rewrite app_nil_r. destruct (solver e); reflexivity.
  - rewrite IH. simpl. rewrite <- !app_assoc. reflexivity.
Qed.

Lemma fold_declare_lookup (l : list nat) (e : Env) (i : nat) :
  In i l \/
  (x e !! i = Some (x_ i) /\ intake e !! i = Some (ord_ i) /\
   inv e !! i = Some (inv_ i) /\ lost e !! i = Some (lost_ i)) ->
  let e' := fold_left declare_step l e in
  x e' !! i = Some (x_ i) /\ intake e' !! i = Some (ord_ i) /\
  inv e' !! i = Some (inv_ i) /\ lost e' !! i = Some (lost_ i).
Proof.
  revert e. induction l as [|j l IH]; intros e H; simpl.
  - destruct H as [[]|H]. exact H.
  - apply IH. destruct H as [[->|H]|H].
    + right. simpl. rewrite !lookup_insert_eq. auto.
    + left. exact H.
    + right. simpl. destruct (decide (j = i)) as [->|Hne].
      * rewrite !lookup_insert_eq. auto.
      * rewrite !lookup_insert_ne by exact Hne. exact H.
Qed.

Lemma declare_variables_run (d : Data) (e : Env) :
  declare_variables d e =
  inr (tt, fold_left declare_step (range (number_of_days d))
             {| solver := solver e; x := ∅; intake := ∅; inv := ∅;
                lost := ∅ |}).
Proof.
  unfold declare_variables, bind at 1. simpl. apply for_declare.
Qed.

Lemma declared_after (d : Data) (e : Env) :
  declared (periods d)
    (fold_left declare_step (range (number_of_days d)) e).
Proof.
  intros i Hi. apply fold_declare_lookup. left.
  unfold range. apply in_seq. unfold periods in Hi. lia.
Qed.

Lemma declared_add_all (n : nat) (cs : list Constraint) (e : Env) :
  declared n e -> declared n (add_all cs e).
Proof. intros H i Hi. exact (H i Hi). Qed.

(** A loop whose every turn adds one constraint. *)
Lemma for_add (P : Env -> Prop) (c : nat -> Constraint)
    (body : nat -> M unit) (l : list nat) (e : Env) :
  (forall e' cs, P e' -> P (add_all cs e')) ->
  (forall i e', In i l -> P e' -> body i e' = Add (c i) e') ->
  P e ->
  for_ l body e = inr (tt, add_all (map c l) e).
Proof.
  intros Hadd. revert e. induction l as [|i l IH]; intros e Hbody HP; simpl.
  - unfold ret, add_all. rewrite app_nil_r.
    destruct e as [[] ? ? ? ?]; reflexivity.
  - unfold bind. rewrite (Hbody i e) by (simpl; auto || exact HP).
    simpl. change (with_solver _ e) with (add_all [c i] e).
    rewrite IH.
    + unfold add_all. simpl. rewrite <- app_assoc. reflexivity.
    + intros j e' Hj HP'. apply Hbody; simpl; auto.
    + apply Hadd, HP.
Qed.

(** A comprehension whose element computations leave the state alone. *)
Lemma mapM_pure {A} (f : nat -> M A) (g : nat -> A) (l : list nat) (e : Env) :
  (forall i, In i l -> f i e = inr (g i, e)) ->
  mapM f l e = inr (map g l, e).
Proof.
  induction l as [|i l IH]; intros H; simpl.
  - reflexivity.
  - unfold bind. rewrite (H i) by (simpl; auto).
    rewrite IH by (intros j Hj; apply H; simpl; auto). reflexivity.
Qed.

(** ** Running the building cells *)

Lemma demand_lookup (d : Data) (i : nat) :
  (i < length (demand d))%nat ->
  demand d !! i = Some (nth i (demand d) 0).
Proof.
  intros Hi. destruct (lookup_lt_is_Some_2 (demand d) i Hi) as [z Hz].
  rewrite Hz. f_equal. symmetry. apply nth_lookup_Some with (d := 0) in Hz.
  exact Hz.
Qed.

(** Reading the dictionaries of an environment that holds day [i]. *)
Ltac day_facts H i :=
  let Hx := fresh "Hx" in
  let Hq := fresh "Hq" in
  let Hs := fresh "Hs" in
  let Hl := fresh "Hl" in
  destruct (H i) as (Hx & Hq & Hs & Hl); [lia|].

(** Run the reads of a loop body against the known lookups. *)
Ltac run_reads :=
  unfold bind, getitem, demand_at; cbv beta iota delta [ret raise];
  repeat (match goal with
          | H : ?m !! ?i = _ |- context [?m !! ?i] => rewrite H
          end; cbv beta iota delta [ret raise]).

Lemma constraint_1_loop (n : nat) (l : list nat) (e : Env) :
  declared n e -> (forall i, In i l -> (i < n)%nat) ->
  for_ l (fun i =>
    q <- getitem intake i ;; b <- getitem x i ;; Add (constraint_1 q b)) e
  = inr (tt, add_all (map (fun i => constraint_1 (ord_ i) (x_ i)) l) e).
Proof.
  intros He Hl.
  apply (for_add (declared n));
    [intros ? ?; apply declared_add_all| |exact He].
  intros i e' Hi He'. specialize (Hl i Hi). day_facts He' i. run_reads.
  reflexivity.
Qed.

Lemma constraint_2_loop (d : Data) (n : nat) (l : list nat) (e : Env) :
  declared n e -> (forall i, In i l -> (i < n)%nat) ->
  for_ l (fun i =>
    q <- getitem intake i ;; b <- getitem x i ;; Add (constraint_2 d q b)) e
  = inr (tt, add_all (map (fun i => constraint_2 d (ord_ i) (x_ i)) l) e).
Proof.
  intros He Hl.
  apply (for_add (declared n));
    [intros ? ?; apply declared_add_all| |exact He].
  intros i e' Hi He'. specialize (Hl i Hi). day_facts He' i. run_reads.
  reflexivity.
Qed.

Lemma dynamics_body_ok (d : Data) (n i : nat) (e : Env) :
  declared n e -> (i < n)%nat -> (i < length (demand d))%nat ->
  dynamics_body d i e = Add (constraint_3 d i) e.
Proof.
  intros He Hi Hd. unfold dynamics_body, constraint_3.
  apply demand_lookup in Hd.
  destruct (Nat.eqb i 0) eqn:E.
  - day_facts He i. run_reads. reflexivity.
  - apply Nat.eqb_neq in E.
    destruct (He (i - 1)%nat) as (_ & _ & Hp & _); [lia|].
    day_facts He i. run_reads. reflexivity.
Qed.

Lemma dynamics_body_raises (d : Data) (n i : nat) (e : Env) :
  declared n e -> (i < n)%nat -> (length (demand d) <= i)%nat ->
  dynamics_body d i e = inl IndexError.
Proof.
  intros He Hi Hd. unfold dynamics_body.
  assert (Hnone : demand d !! i = None) by (apply lookup_ge_None_2; lia).
  destruct (Nat.eqb i 0) eqn:E.
  - day_facts He i. run_reads. reflexivity.
  - apply Nat.eqb_neq in E.
    destruct (He (i - 1)%nat) as (_ & _ & Hp & _); [lia|].
    day_facts He i. run_reads. reflexivity.
Qed.

Lemma constraint_3_loop (d : Data) (n : nat) (l : list nat) (e : Env) :
  declared n e ->
  (forall i, In i l -> (i < n)%nat /\ (i < length (demand d))%nat) ->
  for_ l (dynamics_body d) e = inr (tt, add_all (map (constraint_3 d) l) e).
Proof.
  intros He Hl.
  apply (for_add (declared n));
    [intros ? ?; apply declared_add_all| |exact He].
  intros i e' Hi He'. destruct (Hl i Hi) as [H1 H2].
  apply (dynamics_body_ok d n); assumption.
Qed.

Lemma constraint_3_loop_raises (d : Data) (n : nat) (e : Env) :
  declared n e -> (length (demand d) < n)%nat ->
  for_ (seq 0 n) (dynamics_body d) e = inl IndexError.
Proof.
  intros He Hlen.
  replace n with (length (demand d) + S (n - S (length (demand d))))%nat
    at 1 by lia.
  rewrite seq_app, for_app.
  rewrite (constraint_3_loop d n).
  - simpl. unfold bind.
    rewrite (dynamics_body_raises d n); [reflexivity| |lia|lia].
    apply declared_add_all, He.
  - exact He.
  - intros i Hi. apply in_seq in Hi. lia.
Qed.

Lemma set_objective_run (d : Data) (e : Env) :
  declared (periods d) e ->
  set_objective d e =
  Minimize (sum_ (map (fun i => cost_term d (x_ i) (inv_ i) (lost_ i))
                      (range (number_of_days d)))) e.
Proof.
  intros He. unfold set_objective, bind at 1.
  rewrite (mapM_pure _ (fun i => cost_term d (x_ i) (inv_ i) (lost_ i))).
  - reflexivity.
  - intros i Hi. apply in_seq in Hi. unfold periods in He.
    day_facts He i. run_reads. reflexivity.
Qed.

Lemma range_lt (d : Data) (i : nat) :
  In i (range (number_of_days d)) <-> (i < periods d)%nat.
Proof. unfold range, periods. rewrite in_seq. lia. Qed.

Lemma declared_built (d : Data) : declared (periods d) (built_env d).
Proof. intros i Hi. apply (declared_after d initial_env i Hi). Qed.

Lemma build_ok (d : Data) :
  (periods d <= length (demand d))%nat ->
  build d initial_env = inr (tt, built_env d).
Proof.
  intros Hlen. unfold build, bind at 1.
  rewrite declare_variables_run.
  change (mkEnv (solver initial_env) ∅ ∅ ∅ ∅) with initial_env.
  set (e1 := fold_left declare_step (range (number_of_days d)) _).
  assert (He1 : declared (periods d) e1) by apply declared_after.
  unfold bind at 1. unfold add_constraints, bind at 1.
  rewrite (constraint_1_loop (periods d)) by
    (try exact He1; intros i Hi; apply range_lt; exact Hi).
  unfold bind at 1.
  rewrite (constraint_2_loop d (periods d)) by
    (try (apply declared_add_all; exact He1);
     intros i Hi; apply range_lt; exact Hi).
  rewrite (constraint_3_loop d (periods d)).
  - rewrite set_objective_run by (repeat apply declared_add_all; exact He1).
    unfold Minimize, built_env, the_model, with_solver, add_all. simpl.
    subst e1. rewrite (fold_declare_solver _ initial_env). simpl.
    rewrite <- app_assoc. reflexivity.
  - repeat apply declared_add_all. exact He1.
  - intros i Hi. apply range_lt in Hi. lia.
Qed.

Lemma build_raises (d : Data) :
  (length (demand d) < periods d)%nat ->
  build d initial_env = inl IndexError.
Proof.
  intros Hlen. unfold build, bind at 1.
  rewrite declare_variables_run.
  change (mkEnv (solver initial_env) ∅ ∅ ∅ ∅) with initial_env.
  set (e1 := fold_left declare_step (range (number_of_days d)) _).
  assert (He1 : declared (periods d) e1) by apply declared_after.
  unfold bind at 1. unfold add_constraints, bind at 1.
  rewrite (constraint_1_loop (periods d)) by
    (try exact He1; intros i Hi; apply range_lt; exact Hi).
  unfold bind at 1.
  rewrite (constraint_2_loop d (periods d)) by
    (try (apply declared_add_all; exact He1);
     intros i Hi; apply range_lt; exact Hi).
  unfold range. fold (periods d).
  rewrite (constraint_3_loop_raises d (periods d)); [reflexivity| |exact Hlen].
  repeat apply declared_add_all. exact He1.
Qed.

(** The building cells succeed exactly when [demand] has an entry for every
    day, and then leave [the_model] in [solver]. *)
Lemma model_of_ok (d : Data) :
  (periods d <= length (demand d))%nat -> model_of d = inr (the_model d).
Proof. intros H. unfold model_of. rewrite build_ok by exact H. reflexivity. Qed.

Lemma model_of_inv (d : Data) (m : Solver) :
  model_of d = inr m ->
  (periods d <= length (demand d))%nat /\ m = the_model d.
Proof.
  intros H. destruct (le_lt_dec (periods d) (length (demand d))) as [Hle|Hlt].
  - split; [exact Hle|]. rewrite (model_of_ok d Hle) in H. congruence.
  - unfold model_of in H. rewrite (build_raises d Hlt) in H. discriminate.
Qed.

(** ** The constraints over integer assignments *)

Lemma Q_of_big_M : 1000000%Q = inject_Z BIG_M.
Proof. reflexivity. Qed.

(** Bring a statement about injected integers back to [Z]. *)
Ltac to_Z :=
  unfold valuation; simpl eval;
  rewrite ?Q_of_big_M;
  unfold Qminus;
  rewrite <- ?inject_Z_opp, <- ?inject_Z_mult, <- ?inject_Z_plus,
          <- ?inject_Z_opp, <- ?inject_Z_plus;
  rewrite <- ?Zle_Qle, ?inject_Z_injective.

Lemma holds_constraint_1 (a : Assignment) (i : nat) :
  holds (valuation a) (constraint_1 (ord_ i) (x_ i)) <->
  a (ord_ i) <= BIG_M * a (x_ i).
Proof. unfold constraint_1, holds. to_Z. reflexivity. Qed.

Lemma holds_constraint_2 (d : Data) (a : Assignment) (i : nat) :
  holds (valuation a) (constraint_2 d (ord_ i) (x_ i)) <->
  moq d * a (x_ i) <= a (ord_ i).
Proof. unfold constraint_2, holds. to_Z. reflexivity. Qed.

Lemma holds_constraint_3 (d : Data) (a : Assignment) (i : nat) :
  holds (valuation a) (constraint_3 d i) <->
  ending_level d a i + a (ord_ i) - nth i (demand d) 0 + a (lost_ i)
  = a (inv_ i).
Proof.
  unfold constraint_3. destruct i as [|i]; simpl Nat.eqb; cbv iota.
  - unfold constraint_3_first, holds. to_Z. simpl ending_level.
    unfold Z.sub. reflexivity.
  - unfold constraint_3_next, holds. to_Z. simpl ending_level.
    rewrite Nat.sub_0_r. unfold Z.sub. reflexivity.
Qed.

Lemma in_domain_declarations (a : Assignment) (i : nat) :
  Forall (in_domain a) (declarations i) <->
  0 <= a (x_ i) <= 1 /\ 0 <= a (ord_ i) /\ 0 <= a (inv_ i) /\
  0 <= a (lost_ i).
Proof.
  unfold declarations, infinity. rewrite !Forall_cons_iff, Forall_nil_iff.
  unfold in_domain; simpl.
  change 0%Q with (inject_Z 0). change 1%Q with (inject_Z 1).
  unfold valuation. rewrite <- !Zle_Qle. tauto.
Qed.

Lemma Forall_flat_map {A B} (P : B -> Prop) (f : A -> list B) (l : list A) :
  Forall P (flat_map f l) <-> forall i, In i l -> Forall P (f i).
Proof.
  induction l as [|j l IH]; simpl.
  - split; [intros _ i []|constructor].
  - rewrite Forall_app, IH. split.
    + intros [H1 H2] i [<-|Hi]; auto.
    + intros H. split; [apply H; auto|intros i Hi; apply H; auto].
Qed.

Lemma Forall_map_iff {A B} (P : B -> Prop) (f : A -> B) (l : list A) :
  Forall P (map f l) <-> forall i, In i l -> P (f i).
Proof.
  induction l as [|j l IH]; simpl.
  - split; [intros _ i []|constructor].
  - rewrite Forall_cons_iff, IH. split.
    + intros [H1 H2] i [<-|Hi]; auto.
    + intros H. split; [apply H; auto|intros i Hi; apply H; auto].
Qed.

Lemma satisfies_the_model (d : Data) (a : Assignment) :
  satisfies (the_model d) a <->
  forall i, (i < periods d)%nat ->
    a (ord_ i) <= BIG_M * a (x_ i) /\
    moq d * a (x_ i) <= a (ord_ i) /\
    ending_level d a i + a (ord_ i) - nth i (demand d) 0 + a (lost_ i)
    = a (inv_ i).
Proof.
  unfold satisfies, the_model; simpl constraints.
  rewrite !Forall_app, !Forall_map_iff. split.
  - intros (H1 & H2 & H3) i Hi. apply range_lt in Hi.
    split; [apply holds_constraint_1, H1, Hi|].
    split; [apply (holds_constraint_2 d), H2, Hi|].
    apply holds_constraint_3, H3, Hi.
  - intros H. repeat split; intros i Hi; apply range_lt in Hi;
      destruct (H i Hi) as (H1 & H2 & H3).
    + apply holds_constraint_1, H1.
    + apply holds_constraint_2, H2.
    + apply holds_constraint_3, H3.
Qed.

Lemma feasible_the_model (d : Data) (a : Assignment) :
  feasible (the_model d) a <->
  forall i, (i < periods d)%nat -> period_ok d a i.
Proof.
  unfold feasible. rewrite satisfies_the_model.
  unfold the_model; simpl variables. rewrite Forall_flat_map.
  unfold period_ok. split.
  - intros [H1 H2] i Hi. split; [|apply H2, Hi].
    apply in_domain_declarations, H1, range_lt, Hi.
  - intros H. split; intros i Hi.
    + apply range_lt in Hi. apply in_domain_declarations, (H i Hi).
    + apply (H i Hi).
Qed.

(** The boolean checks decide the propositions. *)
Lemma holdsb_spec (rho : Var -> Q) (c : Constraint) :
  holdsb rho c = true <-> holds rho c.
Proof.
  destruct c; simpl; [apply Qle_bool_iff|apply Qle_bool_iff|apply Qeq_bool_iff].
Qed.

Lemma in_domainb_spec (a : Assignment) (vd : VarDecl) :
  in_domainb a vd = true <-> in_domain a vd.
Proof.
  unfold in_domainb, in_domain. rewrite andb_true_iff, Qle_bool_iff.
  destruct (ub vd); [rewrite Qle_bool_iff|]; tauto.
Qed.

Lemma feasibleb_spec (m : Solver) (a : Assignment) :
  feasibleb m a = true <-> feasible m a.
Proof.
  unfold feasibleb, feasible, satisfies.
  rewrite andb_true_iff, !forallb_forall, !List.Forall_forall.
  split; intros [H1 H2]; split; intros v Hv.
  - apply in_domainb_spec, H1, Hv.
  - apply holdsb_spec, H2, Hv.
  - apply in_domainb_spec, H1, Hv.
  - apply holdsb_spec, H2, Hv.
Qed.

(** ** The objective *)

Lemma eval_fold_Sum (rho : Var -> Q) (l : list LinExpr) (acc : LinExpr) :
  (eval rho (fold_left Sum l acc) ==
   eval rho acc + fold_right (fun e r => eval rho e + r) 0 l)%Q.
Proof.
  revert acc. induction l as [|e l IH]; intros acc; simpl.
  - ring.
  - rewrite IH. simpl. ring.
Qed.

Lemma sumQ_shift (f : nat -> Q) (n : nat) :
  sumQ n f = fold_right (fun i r => (f (S i) + r)%Q) 0%Q (seq 0 n).
Proof.
  unfold sumQ, sum_periods. rewrite <- seq_shift.
  induction (seq 0 n) as [|i l IH]; simpl; [reflexivity|].
  rewrite IH. reflexivity.
Qed.

Lemma eval_objective (d : Data) (rho : Var -> Q) :
  (eval rho (objective (the_model d)) == sumQ (periods d) (period_cost d rho))%Q.
Proof.
  unfold the_model; simpl objective. unfold sum_.
  rewrite eval_fold_Sum, sumQ_shift. simpl eval. rewrite Qplus_0_l.
  unfold range. fold (periods d).
  induction (seq 0 (periods d)) as [|i l IH]; simpl.
  - reflexivity.
  - rewrite IH. unfold period_cost, lost_sales_cost.
    replace (S i - 1)%nat with i by lia. reflexivity.
Qed.

Lemma notebook_model : model_of notebook_data = inr (the_model notebook_data).
Proof. apply model_of_ok. vm_compute. lia. Qed.

Lemma recorded_plan_feasible : feasible (the_model notebook_data) recorded_plan.
Proof. apply feasibleb_spec. vm_compute. reflexivity. Qed.

(** ** Inventory balance *)

(** C1. For every period [t] in [1..N], every assignment that satisfies the
    generated constraints satisfies
    [ending_level[t-1] + quantity[t] - demand[t] + lost[t] = ending_level[t]]
    exactly over the integers, where [ending_level[0]] is the starting
    stock. *)
Theorem inventory_balance (d : Data) (m : Solver) (a : Assignment) (t : nat) :
  model_of d = inr m ->
  satisfies m a ->
  (1 <= t <= periods d)%nat ->
  ending_level d a (t - 1) + quantity a t - demand_of d t + lost_quantity a t
  = ending_level d a t.
Proof.
  intros Hm Hsat Ht. apply model_of_inv in Hm as [_ ->].
  destruct t as [|i]; [lia|].
  destruct (proj1 (satisfies_the_model d a) Hsat i) as (_ & _ & H); [lia|].
  unfold quantity, lost_quantity, demand_of.
  replace (S i - 1)%nat with i by lia. exact H.
Qed.

Lemma inventory_balance_witness :
  ending_level notebook_data recorded_plan 1 + quantity recorded_plan 2
  - demand_of notebook_data 2 + lost_quantity recorded_plan 2
  = ending_level notebook_data recorded_plan 2.
Proof.
  apply (inventory_balance notebook_data (the_model notebook_data)
           recorded_plan 2).
  - vm_compute. reflexivity.
  - apply recorded_plan_feasible.
  - vm_compute. lia.
Defined.

(** The first period starts from the given stock. *)
Lemma inventory_balance_first (d : Data) (m : Solver) (a : Assignment) :
  model_of d = inr m -> satisfies m a -> (1 <= periods d)%nat ->
  stock_level d + quantity a 1 - demand_of d 1 + lost_quantity a 1
  = ending_level d a 1.
Proof.
  intros Hm Hsat Hn.
  apply model_of_inv in Hm as [_ ->].
  destruct (proj1 (satisfies_the_model d a) Hsat 0%nat) as (_ & _ & H); [lia|].
  exact H.
Qed.

(** ** Indicator linkage *)

Lemma linking_generated (d : Data) (i : nat) :
  (i < periods d)%nat ->
  In (constraint_1 (ord_ i) (x_ i)) (constraints (the_model d)) /\
  In (constraint_2 d (ord_ i) (x_ i)) (constraints (the_model d)).
Proof.
  intros Hi. apply range_lt in Hi. unfold the_model; simpl constraints.
  split.
  - apply in_or_app. left.
    apply (in_map (fun i => constraint_1 (ord_ i) (x_ i))), Hi.
  - apply in_or_app. right. apply in_or_app. left.
    apply (in_map (fun i => constraint_2 d (ord_ i) (x_ i))), Hi.
Qed.

(** C2. For every period [t], an assignment with [indicator[t]] in {0,1}
    and [quantity[t] >= 0] that satisfies the two generated linking
    constraints of the period, [quantity[t] <= BIG_M * indicator[t]] and
    [quantity[t] >= MOQ * indicator[t]], has [quantity[t] = 0] when
    [indicator[t] = 0], [quantity[t] >= MOQ] when [indicator[t] = 1], and
    [indicator[t] = 1] when [quantity[t] > 0]: [quantity[t]] lies in
    {0} ∪ [MOQ, BIG_M]. *)
Theorem indicator_linkage (d : Data) (m : Solver) (a : Assignment) (t : nat) :
  model_of d = inr m ->
  (1 <= t <= periods d)%nat ->
  indicator a t = 0 \/ indicator a t = 1 ->
  0 <= quantity a t ->
  (forall c, In c (constraints m) ->
     c = constraint_1 (ord_ (t - 1)) (x_ (t - 1)) \/
     c = constraint_2 d (ord_ (t - 1)) (x_ (t - 1)) ->
     holds (valuation a) c) ->
  (indicator a t = 0 -> quantity a t = 0) /\
  (indicator a t = 1 -> moq d <= quantity a t) /\
  (0 < quantity a t -> indicator a t = 1) /\
  (quantity a t = 0 \/ moq d <= quantity a t <= BIG_M).
Proof.
  intros Hm Ht Hind Hq Hc. apply model_of_inv in Hm as [_ ->].
  destruct (linking_generated d (t - 1)) as [In1 In2]; [lia|].
  pose proof (proj1 (holds_constraint_1 a (t - 1)) (Hc _ In1 (or_introl eq_refl)))
    as H1.
  pose proof (proj1 (holds_constraint_2 d a (t - 1))
                (Hc _ In2 (or_intror eq_refl))) as H2.
  unfold indicator, quantity, BIG_M in *.
  destruct Hind as [E|E]; rewrite E in *; lia.
Qed.

Lemma indicator_linkage_witness :
  (indicator recorded_plan 2 = 0 -> quantity recorded_plan 2 = 0) /\
  (indicator recorded_plan 2 = 1 -> moq notebook_data <= quantity recorded_plan 2) /\
  (0 < quantity recorded_plan 2 -> indicator recorded_plan 2 = 1) /\
  (quantity recorded_plan 2 = 0 \/
   moq notebook_data <= quantity recorded_plan 2 <= BIG_M).
Proof.
  apply (indicator_linkage notebook_data (the_model notebook_data)
           recorded_plan 2).
  - vm_compute. reflexivity.
  - vm_compute. lia.
  - right. reflexivity.
  - vm_compute. discriminate.
  - intros c Hin _.
    exact (proj1 (List.Forall_forall _ _)
             (proj2 recorded_plan_feasible) c Hin).
Defined.

(** ** Reading the solution *)

Lemma round_bounds (q : Q) :
  (q - (1 # 2) <= inject_Z (round q))%Q /\
  (inject_Z (round q) <= q + (1 # 2))%Q.
Proof.
  unfold round. destruct (Qle_bool 0 q).
  - pose proof (Qfloor_le (q + (1 # 2))) as H1.
    pose proof (Qlt_floor (q + (1 # 2))) as H2.
    rewrite inject_Z_plus in H2. change (inject_Z 1) with 1%Q in H2.
    split; lra.
  - pose proof (Qle_ceiling (q - (1 # 2))) as H1.
    pose proof (Qceiling_lt (q - (1 # 2))) as H2.
    unfold Z.sub in H2. rewrite inject_Z_plus in H2.
    change (inject_Z (- (1))) with (- (1))%Q in H2.
    split; lra.
Qed.

(** No integer is nearer to [q] than [round q]. *)
Lemma round_nearest (q : Q) (z : Z) :
  (Qabs (q - inject_Z (round q)) <= Qabs (q - inject_Z z))%Q.
Proof.
  destruct (round_bounds q) as [H1 H2].
  destruct (Z.eq_dec z (round q)) as [->|Hne]; [apply Qle_refl|].
  assert ((inject_Z z <= inject_Z (round q) - 1)%Q \/
          (inject_Z (round q) + 1 <= inject_Z z)%Q) as [L|L].
  { destruct (Z_lt_le_dec z (round q)) as [L|L].
    - left. assert (z <= round q - 1) as L' by lia.
      rewrite Zle_Qle in L'. unfold Z.sub in L'.
      rewrite inject_Z_plus in L'. exact L'.
    - right. assert (round q + 1 <= z) as L' by lia.
      rewrite Zle_Qle in L'. rewrite inject_Z_plus in L'. exact L'. }
  - apply Qabs_case; intros S1; apply Qabs_case; intros S2; lra.
  - apply Qabs_case; intros S1; apply Qabs_case; intros S2; lra.
Qed.

(** Rounding leaves an integer as it is. *)
Lemma round_inject_Z (q : Q) (z : Z) : (q == inject_Z z)%Q -> round q = z.
Proof.
  intros H. destruct (round_bounds q) as [H1 H2].
  assert ((inject_Z z - 1 < inject_Z (round q))%Q) as A by lra.
  assert ((inject_Z (round q) < inject_Z z + 1)%Q) as B by lra.
  change 1%Q with (inject_Z 1) in A, B.
  unfold Qminus in A. change (- inject_Z 1)%Q with (inject_Z (-1)) in A.
  rewrite <- inject_Z_plus in A, B. rewrite <- Zlt_Qlt in A, B. lia.
Qed.

(** An engine that returns integers is read as it answers. *)
Lemma rounded_integral (sol : Solution) (a : Assignment) :
  (forall v, value_of sol v == valuation a v)%Q ->
  forall v, value_of (rounded sol) v = valuation a v.
Proof.
  intros H v. unfold rounded, valuation. cbn [value_of].
  rewrite (round_inject_Z _ (a v)) by apply H. reflexivity.
Qed.

Lemma Var_eqb_refl (v : Var) : Var_eqb v v = true.
Proof. destruct v; apply Nat.eqb_refl. Qed.

Lemma is_integer_declared (s : Solver) (v : Var) :
  Forall (fun vd => integer vd = true) (variables s) ->
  In v (map name (variables s)) ->
  is_integer s v = true.
Proof.
  intros Hall Hin. unfold is_integer.
  destruct (find (fun vd => Var_eqb (name vd) v) (variables s)) as [vd|] eqn:F.
  - apply find_some in F as [Hvd _].
    exact (proj1 (List.Forall_forall _ _) Hall vd Hvd).
  - apply in_map_iff in Hin as (vd & <- & Hvd).
    pose proof (find_none _ _ F vd Hvd) as N. cbv beta in N.
    rewrite Var_eqb_refl in N. discriminate.
Qed.

Lemma read_integer (s : Solver) (v : Var) :
  is_integer s v = true -> read s v = value_of (rounded (last s)) v.
Proof. intros H. unfold read. rewrite H. reflexivity. Qed.

(** The variables of the built model are integer-typed, whatever was solved
    last. *)
Lemma integer_typed_built (d : Data) (s : Solver) :
  variables s = variables (the_model d) -> integer_typed (periods d) s.
Proof.
  intros Hv i Hi.
  assert (Hall : Forall (fun vd => integer vd = true) (variables s)).
  { rewrite Hv. cbn [variables the_model]. apply Forall_flat_map.
    intros j _. repeat constructor. }
  assert (Hin : forall v, In v (map name (declarations i)) ->
                          In v (map name (variables s))).
  { intros v Hvin. rewrite Hv. cbn [variables the_model].
    apply in_map_iff in Hvin as (vd & <- & Hvd). apply in_map.
    apply in_flat_map. exists i. split; [apply range_lt, Hi|exact Hvd]. }
  repeat split; apply is_integer_declared; try exact Hall; apply Hin;
    simpl; tauto.
Qed.

(** ** The report in closed form *)

Lemma foldM_pure {A} (f : A -> nat -> M A) (g : A -> nat -> A)
    (l : list nat) (acc : A) (e : Env) :
  (forall acc' i, In i l -> f acc' i e = inr (g acc' i, e)) ->
  foldM f acc l e = inr (fold_left g l acc, e).
Proof.
  revert acc. induction l as [|i l IH]; intros acc H; simpl.
  - reflexivity.
  - unfold bind. rewrite (H acc i) by (simpl; auto).
    apply IH. intros acc' j Hj. apply H. simpl. auto.
Qed.

Lemma totals_run (d : Data) (e : Env) :
  declared (periods d) e ->
  integer_typed (periods d) (solver e) ->
  totals d e
  = inr (totals_of (rounded (last (solver e))) (range (number_of_days d)), e).
Proof.
  intros He Ht. unfold totals, totals_of. apply foldM_pure.
  intros acc i Hi. apply range_lt in Hi. day_facts He i.
  destruct (Ht i Hi) as (Tx & Tq & Ts & Tl). run_reads.
  unfold solution_value, add_day. cbn beta iota.
  rewrite (read_integer _ _ Tx).
  destruct (Qeq_bool (value_of (rounded (last (solver e))) (x_ i)) 1);
    run_reads; [|reflexivity].
  rewrite (read_integer _ _ Tq), (read_integer _ _ Ts), (read_integer _ _ Tl).
  reflexivity.
Qed.

Lemma row_run (dict : Env -> gmap nat Var) (mk : nat -> Var) (d : Data)
    (e : Env) :
  (forall i, (i < periods d)%nat -> dict e !! i = Some (mk i)) ->
  (forall i, (i < periods d)%nat -> is_integer (solver e) (mk i) = true) ->
  row dict d e =
  inr (map (fun i => int (value_of (rounded (last (solver e))) (mk i)))
           (range (number_of_days d)), e).
Proof.
  intros H Ht. unfold row. apply mapM_pure. intros i Hi.
  apply range_lt in Hi.
  unfold bind, getitem. rewrite (H i Hi).
  unfold ret, solution_value. rewrite (read_integer _ _ (Ht i Hi)).
  reflexivity.
Qed.

Lemma report_run (d : Data) (st : Status) (e : Env) :
  declared (periods d) e ->
  integer_typed (periods d) (solver e) ->
  (periods d <= length (demand d))%nat ->
  status (last (solver e)) = st ->
  report d st e = inr (report_of d (rounded (last (solver e))), e).
Proof.
  intros He Ht Hlen <-. unfold report, bind. simpl.
  rewrite (row_run intake ord_)
    by (intros i Hi; first [apply (He i Hi)|apply (Ht i Hi)]).
  rewrite (mapM_pure _ (fun i => nth i (demand d) 0)).
  - rewrite (row_run inv inv_)
      by (intros i Hi; first [apply (He i Hi)|apply (Ht i Hi)]).
    rewrite (row_run lost lost_)
      by (intros i Hi; first [apply (He i Hi)|apply (Ht i Hi)]).
    rewrite totals_run by assumption. reflexivity.
  - intros i Hi. apply range_lt in Hi. unfold demand_at.
    rewrite demand_lookup by lia. reflexivity.
Qed.

Lemma run_ok (engine : Solver -> Solution) (d : Data) :
  (periods d <= length (demand d))%nat ->
  run engine d = inr (report_of d (rounded (engine (the_model d)))).
Proof.
  intros Hlen. unfold run, notebook, bind.
  rewrite build_ok by exact Hlen. unfold Solve.
  rewrite report_run; [reflexivity| | |exact Hlen|reflexivity].
  - intros i Hi. apply (declared_built d i Hi).
  - apply integer_typed_built. reflexivity.
Qed.

Lemma run_raises (engine : Solver -> Solution) (d : Data) :
  (length (demand d) < periods d)%nat -> run engine d = inl IndexError.
Proof.
  intros Hlen. unfold run, notebook, bind.
  rewrite build_raises by exact Hlen. reflexivity.
Qed.

(** [int] of a float that holds an integer is that integer. *)
Lemma int_inject_Z (q : Q) (z : Z) : (q == inject_Z z)%Q -> int q = z.
Proof.
  unfold Qeq, int. simpl. rewrite Z.mul_1_r. intros ->.
  apply Z.quot_mul. discriminate.
Qed.

(** ** Totals *)

Lemma sumZ_shift (f : nat -> Z) (n : nat) :
  sumZ n f = fold_right (fun i r => f (S i) + r) 0 (seq 0 n).
Proof.
  unfold sumZ, sum_periods. rewrite <- seq_shift.
  induction (seq 0 n) as [|i l IH]; simpl; [reflexivity|].
  rewrite IH. reflexivity.
Qed.

(** C3. On the plan of the notebook's stored output the reported total
    order quantity is the sum of the order quantities over all periods,
    but the reported total ending inventory is 24 while the ending levels
    of the ten periods add up to 38: the inventory (and lost-sales) totals
    are accumulated only on the days with an order. *)
Theorem totals_on_recorded_plan :
  exists r,
    run (engine_returning recorded_plan 6.8) notebook_data = inr r /\
    row_intake r = [0; 12; 0; 0; 11; 0; 0; 13; 0; 0] /\
    row_inv r = [1; 8; 5; 0; 8; 3; 0; 8; 5; 0] /\
    printed_total_intake r = 36 /\
    sumZ 10 (quantity recorded_plan) = 36 /\
    printed_total_inventory r = 24 /\
    sumZ 10 (fun t => ending_level notebook_data recorded_plan t) = 38.
Proof.
  eexists. split.
  - vm_compute. reflexivity.
  - vm_compute. repeat split; reflexivity.
Qed.

(** The lost sale of a day without an order is left out of the printed
    total. *)
Lemma lost_sales_total_skipped :
  feasible (the_model short_data) short_plan /\
  exists r,
    run (engine_returning short_plan 10) short_data = inr r /\
    row_lost r = [1] /\
    printed_total_lost_sales r = 0 /\
    sumZ 1 (lost_quantity short_plan) = 1.
Proof.
  split.
  - apply feasibleb_spec. vm_compute. reflexivity.
  - eexists. split.
    + vm_compute. reflexivity.
    + vm_compute. repeat split; reflexivity.
Qed.

(** ** Reading integer variables *)

(** C4. Every variable of the model is integer-typed, and what the notebook
    prints for one is the integer nearest to the value the engine returned:
    [solution_value()] rounds the value of an integer variable and [int]
    leaves the rounded value as it is.  No integer is nearer to the
    returned value than the one read, and 5.999999999 is read as 6. *)
Theorem reads_nearest_integer (engine : Solver -> Solution) (d : Data)
    (m : Solver) :
  model_of d = inr m ->
  exists r,
    run engine d = inr r /\
    row_intake r =
      map (fun i => round (value_of (engine m) (ord_ i)))
          (range (number_of_days d)) /\
    row_inv r =
      map (fun i => round (value_of (engine m) (inv_ i)))
          (range (number_of_days d)) /\
    row_lost r =
      map (fun i => round (value_of (engine m) (lost_ i)))
          (range (number_of_days d)) /\
    (forall v z,
       (Qabs (value_of (engine m) v - inject_Z (round (value_of (engine m) v)))
        <= Qabs (value_of (engine m) v - inject_Z z))%Q) /\
    round 5.999999999 = 6.
Proof.
  intros Hm. apply model_of_inv in Hm as [Hlen ->].
  exists (report_of d (rounded (engine (the_model d)))).
  split; [apply run_ok, Hlen|].
  unfold report_of, rounded.
  cbn [row_intake row_inv row_lost value_of].
  repeat split;
    try (apply map_ext; intros i; apply int_inject_Z; reflexivity).
  intros v z. apply round_nearest.
Qed.

Lemma reads_nearest_integer_witness :
  exists r,
    run noisy_engine noisy_data = inr r /\
    row_intake r = [6] /\
    printed_total_intake r = 6.
Proof.
  destruct (reads_nearest_integer noisy_engine noisy_data
              (the_model noisy_data)) as (r & Hr & Hi & _).
  { vm_compute. reflexivity. }
  exists r. split; [exact Hr|]. split.
  - rewrite Hi. reflexivity.
  - rewrite run_ok in Hr by (vm_compute; lia).
    injection Hr as <-. vm_compute. reflexivity.
Defined.

(** ** Extraction and the solver status *)

(** The model of [unbounded_data] has feasible plans of arbitrarily low
    cost. *)
Lemma unbounded_data_unbounded (bound : Z) :
  exists a, feasible (the_model unbounded_data) a /\
            scaled_cost unbounded_data a <= bound.
Proof.
  exists (losing_plan (Z.max 0 (- bound))). split.
  - apply feasible_the_model. intros i Hi.
    assert (i = 0%nat) as -> by (change (periods unbounded_data) with 1%nat in Hi; lia).
    unfold period_ok, losing_plan, BIG_M. simpl. lia.
  - unfold scaled_cost, sumZ, sum_periods, scaled_period_cost, losing_plan.
    simpl. lia.
Qed.

(** C5, as stated, fails: with status UNBOUNDED the notebook still reads
    every variable and prints a plan with its totals. *)
Lemma plan_without_success :
  status (unbounded_engine (the_model unbounded_data)) = UNBOUNDED /\
  exists r,
    run unbounded_engine unbounded_data = inr r /\
    printed_status r = 3 /\
    row_intake r = [0] /\ row_inv r = [0] /\ row_lost r = [0] /\
    printed_total_intake r = 0 /\
    printed_total_inventory r = 0 /\
    printed_total_lost_sales r = 0.
Proof.
  split; [reflexivity|]. eexists. split.
  - vm_compute. reflexivity.
  - vm_compute. repeat split; reflexivity.
Qed.

(** C5, amended. Extraction is unconditional: whatever status the engine
    returns, once the model is built the notebook prints the status code,
    reads the value of every variable of every day and derives the rows
    and totals from them. *)
Theorem extraction_unconditional (engine : Solver -> Solution) (d : Data)
    (m : Solver) :
  model_of d = inr m ->
  exists r,
    run engine d = inr r /\
    r = report_of d (rounded (engine m)) /\
    printed_status r = status_code (status (engine m)) /\
    row_intake r =
      map (fun i => int (value_of (rounded (engine m)) (ord_ i))) (range (number_of_days d)) /\
    row_inv r =
      map (fun i => int (value_of (rounded (engine m)) (inv_ i))) (range (number_of_days d)) /\
    row_lost r =
      map (fun i => int (value_of (rounded (engine m)) (lost_ i))) (range (number_of_days d)).
Proof.
  intros Hm. apply model_of_inv in Hm as [Hlen ->].
  exists (report_of d (rounded (engine (the_model d)))).
  split; [apply run_ok, Hlen|]. repeat split; reflexivity.
Qed.

Lemma extraction_unconditional_witness :
  exists r,
    run abnormal_engine noisy_data = inr r /\
    r = report_of noisy_data
          (rounded (abnormal_engine (the_model noisy_data))) /\
    printed_status r = status_code (status (abnormal_engine (the_model noisy_data))) /\
    row_intake r =
      map (fun i => int (value_of (rounded (abnormal_engine (the_model noisy_data))) (ord_ i)))
          (range (number_of_days noisy_data)) /\
    row_inv r =
      map (fun i => int (value_of (rounded (abnormal_engine (the_model noisy_data))) (inv_ i)))
          (range (number_of_days noisy_data)) /\
    row_lost r =
      map (fun i => int (value_of (rounded (abnormal_engine (the_model noisy_data))) (lost_ i)))
          (range (number_of_days noisy_data)).
Proof.
  apply (extraction_unconditional abnormal_engine noisy_data
           (the_model noisy_data)).
  vm_compute. reflexivity.
Defined.

(** ** Input validation *)


Lemma length_declarations (s n : nat) :
  length (flat_map declarations (seq s n)) = (4 * n)%nat.
Proof.
  revert s. induction n as [|n IH]; intros s; simpl.
  - reflexivity.
  - rewrite IH. lia.
Qed.


(** ** Objective composition *)

(** C7. The minimized objective is the sum over the periods [1..N] of
    [delivery_cost * indicator[t] + holding_cost_rate * ending_level[t]
     + lost_sales_unit_cost * lost[t]], with
    [holding_cost_rate = selling_price * 0.01] and
    [lost_sales_unit_cost = selling_price]; the two constants are computed
    once, and every term of the expression carries the same values. *)
Theorem objective_composition (d : Data) (m : Solver) :
  model_of d = inr m ->
  objective m =
    sum_ (map (fun i =>
                 Sum (Sum (Prod (inject_Z (delivery_cost d)) (V (x_ i)))
                          (Prod (inventory_holding_cost d) (V (inv_ i))))
                     (Prod (lost_sales_cost d) (V (lost_ i))))
              (range (number_of_days d))) /\
  (forall rho : Var -> Q,
     eval rho (objective m) ==
     sumQ (periods d) (fun t =>
       inject_Z (delivery_cost d) * rho (x_ (t - 1)%nat)
       + inventory_holding_cost d * rho (inv_ (t - 1)%nat)
       + lost_sales_cost d * rho (lost_ (t - 1)%nat)))%Q /\
  (inventory_holding_cost d == inject_Z (selling_price d) * 0.01)%Q /\
  lost_sales_cost d = inject_Z (selling_price d).
Proof.
  intros Hm. apply model_of_inv in Hm as [_ ->].
  split; [reflexivity|]. split; [|split; reflexivity].
  intros rho. apply eval_objective.
Qed.

Lemma objective_composition_witness :
  (cost (the_model notebook_data) recorded_plan ==
   sumQ 10 (fun t =>
     1 * inject_Z (indicator recorded_plan t)
     + 0.1 * inject_Z (ending_level notebook_data recorded_plan t)
     + 10 * inject_Z (lost_quantity recorded_plan t)))%Q.
Proof.
  destruct (objective_composition notebook_data (the_model notebook_data))
    as (_ & H & _ & _).
  - vm_compute. reflexivity.
  - rewrite (H (valuation recorded_plan)). vm_compute. reflexivity.
Defined.

(** ** The filtered order total *)

Lemma add_day_intake (a : Assignment) (sol : Solution) (acc : Totals)
    (i : nat) :
  (forall v, value_of sol v == valuation a v)%Q ->
  0 <= a (x_ i) <= 1 -> 0 <= a (ord_ i) -> a (ord_ i) <= BIG_M * a (x_ i) ->
  (total_intake_qty (add_day sol acc i) ==
   total_intake_qty acc + inject_Z (a (ord_ i)))%Q.
Proof.
  intros Hv Hx H0 H1. unfold add_day.
  destruct (Qeq_bool (value_of sol (x_ i)) 1) eqn:E.
  - simpl. rewrite (Hv (ord_ i)). reflexivity.
  - assert (Hne : a (x_ i) <> 1).
    { intros Heq. apply Qeq_bool_neq in E. apply E.
      rewrite (Hv (x_ i)). unfold valuation. rewrite Heq. reflexivity. }
    assert (Hz : a (ord_ i) = 0) by (unfold BIG_M in H1; lia).
    rewrite Hz. unfold inject_Z. ring.
Qed.

Lemma totals_of_intake (a : Assignment) (sol : Solution) (l : list nat)
    (acc : Totals) :
  (forall v, value_of sol v == valuation a v)%Q ->
  (forall i, In i l ->
     0 <= a (x_ i) <= 1 /\ 0 <= a (ord_ i) /\
     a (ord_ i) <= BIG_M * a (x_ i)) ->
  (total_intake_qty (fold_left (add_day sol) l acc) ==
   total_intake_qty acc
   + inject_Z (fold_right (fun i r => (a (ord_ i) + r)%Z) 0%Z l))%Q.
Proof.
  intros Hv. revert acc. induction l as [|i l IH]; intros acc H; simpl.
  - unfold inject_Z. ring.
  - rewrite IH by (intros j Hj; apply H; simpl; auto).
    destruct (H i) as (Hx & H0 & H1); [simpl; auto|].
    rewrite (add_day_intake a) by assumption.
    rewrite inject_Z_plus. ring.
Qed.

(** C10. When the engine returns an assignment that lies within the
    declared domains of the variables and satisfies the indicator
    upper-bound constraint [quantity[t] <= 1000000 * indicator[t]] of every
    period, the printed total order quantity, summed only over the days
    whose indicator reads 1, equals the sum of [quantity[t]] over all
    periods [1..N]. *)
Theorem filtered_intake_total (engine : Solver -> Solution) (d : Data)
    (m : Solver) (a : Assignment) :
  model_of d = inr m ->
  (forall v, value_of (engine m) v == valuation a v)%Q ->
  Forall (in_domain a) (variables m) ->
  (forall t, (1 <= t <= periods d)%nat ->
     holds (valuation a) (constraint_1 (ord_ (t - 1)) (x_ (t - 1)))) ->
  exists r,
    run engine d = inr r /\
    printed_total_intake r = sumZ (periods d) (quantity a).
Proof.
  intros Hm Hv Hdom Hc. apply model_of_inv in Hm as [Hlen ->].
  assert (Hr : forall v, (value_of (rounded (engine (the_model d))) v
                          == valuation a v)%Q)
    by (intros v; rewrite (rounded_integral _ a Hv v); reflexivity).
  eexists. split; [apply run_ok, Hlen|].
  unfold report_of; simpl printed_total_intake.
  apply int_inject_Z. unfold totals_of.
  rewrite (totals_of_intake a) by
    (try exact Hr; intros i Hi; apply range_lt in Hi;
     unfold the_model in Hdom; simpl variables in Hdom;
     rewrite Forall_flat_map in Hdom;
     assert (Hd := proj1 (in_domain_declarations a i)
                     (Hdom i (proj2 (range_lt d i) Hi)));
     assert (H1 := proj1 (holds_constraint_1 a i));
     specialize (Hc (S i)); replace (S i - 1)%nat with i in Hc by lia;
     specialize (H1 (Hc ltac:(lia))); tauto).
  simpl total_intake_qty. rewrite Qplus_0_l.
  rewrite sumZ_shift. unfold range. fold (periods d). unfold quantity.
  apply inject_Z_injective.
  induction (seq 0 (periods d)) as [|i l IH]; cbn [fold_right];
    [reflexivity|].
  replace (S i - 1)%nat with i by lia. rewrite IH. reflexivity.
Qed.

Lemma filtered_intake_total_witness :
  exists r,
    run (engine_returning recorded_plan 6.8) notebook_data = inr r /\
    printed_total_intake r = sumZ (periods notebook_data) (quantity recorded_plan).
Proof.
  apply (filtered_intake_total (engine_returning recorded_plan 6.8)
           notebook_data (the_model notebook_data) recorded_plan).
  - vm_compute. reflexivity.
  - intros v. reflexivity.
  - apply recorded_plan_feasible.
  - intros t Ht.
    apply (proj1 (List.Forall_forall _ _) (proj2 recorded_plan_feasible)).
    apply (linking_generated notebook_data (t - 1)). lia.
Defined.

(** ** Costs over the integers *)

Lemma period_cost_scaled (d : Data) (a : Assignment) (t : nat) :
  (100 * period_cost d (valuation a) t ==
   inject_Z (scaled_period_cost d a t))%Q.
Proof.
  unfold period_cost, scaled_period_cost, inventory_holding_cost,
    lost_sales_cost, valuation.
  rewrite !inject_Z_plus, !inject_Z_mult.
  change (inject_Z 100) with 100%Q. field.
Qed.

Lemma cost_scaled (d : Data) (a : Assignment) :
  (100 * cost (the_model d) a == inject_Z (scaled_cost d a))%Q.
Proof.
  unfold cost. rewrite eval_objective.
  unfold scaled_cost, sumQ, sumZ, sum_periods.
  induction (seq 1 (periods d)) as [|t l IH]; cbn [fold_right].
  - reflexivity.
  - rewrite inject_Z_plus, <- IH, <- period_cost_scaled. ring.
Qed.

Lemma cost_le_scaled (d : Data) (a b : Assignment) :
  (cost (the_model d) a <= cost (the_model d) b)%Q <->
  scaled_cost d a <= scaled_cost d b.
Proof.
  rewrite Zle_Qle, <- !cost_scaled.
  symmetry. apply Qmult_le_l. reflexivity.
Qed.

(** On [short_data] losing the sale is optimal: an order costs 20, the
    lost sale 10. *)
Lemma short_plan_optimal : optimal (the_model short_data) short_plan.
Proof.
  split.
  - apply feasibleb_spec. vm_compute. reflexivity.
  - intros b Hb. apply cost_le_scaled.
    destruct (proj1 (feasible_the_model short_data b) Hb 0%nat)
      as ((Hx & Hq & Hi & Hl) & H1 & H2 & Hbal); [vm_compute; lia|].
    simpl in H1, H2, Hbal. unfold BIG_M in H1.
    unfold scaled_cost, sumZ, sum_periods, scaled_period_cost, short_plan.
    simpl. lia.
Qed.

(** ** Degenerate horizon *)

Lemma idle_plan_feasible (d : Data) :
  periods d = 1%nat -> nth 0 (demand d) 0 <= stock_level d ->
  feasible (the_model d) (idle_plan d).
Proof.
  intros Hn Hd. apply feasible_the_model. intros i Hi.
  assert (i = 0%nat) as -> by lia.
  unfold period_ok, idle_plan, BIG_M. simpl. lia.
Qed.

(** C8. For [N = 1] with [demand[1] <= starting_stock], a positive
    delivery cost and a positive selling price, every optimal solution of
    the constructed model orders nothing, loses no sale and ends with
    [starting_stock - demand[1]]. *)
Theorem degenerate_horizon (d : Data) (m : Solver) (a : Assignment) :
  model_of d = inr m ->
  number_of_days d = 1 ->
  demand_of d 1 <= stock_level d ->
  0 < delivery_cost d ->
  0 < selling_price d ->
  optimal m a ->
  quantity a 1 = 0 /\ lost_quantity a 1 = 0 /\
  ending_level d a 1 = stock_level d - demand_of d 1.
Proof.
  intros Hm HN Hdem Hdc Hsp [Hfeas Hopt].
  apply model_of_inv in Hm as [_ ->].
  assert (Hn : periods d = 1%nat) by (unfold periods; rewrite HN; reflexivity).
  unfold demand_of in *. simpl Nat.sub in *.
  specialize (Hopt (idle_plan d) (idle_plan_feasible d Hn Hdem)).
  apply cost_le_scaled in Hopt.
  unfold scaled_cost, sumZ, sum_periods in Hopt. rewrite Hn in Hopt.
  unfold scaled_period_cost, idle_plan in Hopt. simpl in Hopt.
  destruct (proj1 (feasible_the_model d a) Hfeas 0%nat)
    as ((Hx & Hq & Hi & Hl) & _ & _ & Hbal); [lia|].
  simpl in Hbal. unfold quantity, lost_quantity. simpl.
  set (X := a (x_ 0)) in *. set (Q := a (ord_ 0)) in *.
  set (I := a (inv_ 0)) in *. set (L := a (lost_ 0)) in *.
  set (s := stock_level d) in *. set (dm := nth 0 (demand d) 0) in *.
  set (sp := selling_price d) in *. set (dc := delivery_cost d) in *.
  assert (E : sp * I = sp * (s - dm) + sp * Q + sp * L)
    by (rewrite <- Hbal; ring).
  assert (HX : 0 <= dc * X) by (apply Z.mul_nonneg_nonneg; lia).
  assert (HQ : 0 <= sp * Q) by (apply Z.mul_nonneg_nonneg; lia).
  assert (HL : 0 <= sp * L) by (apply Z.mul_nonneg_nonneg; lia).
  assert (HQ0 : sp * Q = 0) by lia.
  assert (HL0 : sp * L = 0) by lia.
  apply Z.mul_eq_0 in HQ0 as [?|HQ0]; [lia|].
  apply Z.mul_eq_0 in HL0 as [?|HL0]; [lia|].
  lia.
Qed.

Lemma idle_plan_optimal : optimal (the_model one_day) (idle_plan one_day).
Proof.
  split.
  - apply idle_plan_feasible; [reflexivity|simpl; lia].
  - intros b Hb. apply cost_le_scaled.
    destruct (proj1 (feasible_the_model one_day b) Hb 0%nat)
      as ((Hx & Hq & Hi & Hl) & _ & _ & Hbal); [vm_compute; lia|].
    simpl in Hbal.
    unfold scaled_cost, sumZ, sum_periods, scaled_period_cost, idle_plan.
    simpl. lia.
Qed.

Lemma degenerate_horizon_witness :
  quantity (idle_plan one_day) 1 = 0 /\
  lost_quantity (idle_plan one_day) 1 = 0 /\
  ending_level one_day (idle_plan one_day) 1
  = stock_level one_day - demand_of one_day 1.
Proof.
  apply (degenerate_horizon one_day (the_model one_day) (idle_plan one_day)).
  - vm_compute. reflexivity.
  - reflexivity.
  - vm_compute. discriminate.
  - reflexivity.
  - reflexivity.
  - apply idle_plan_optimal.
Defined.

(** ** The forced order scenario *)

Lemma fold_min_le_cap (c : Z) (l : list Z) : fold_right Z.min c l <= c.
Proof. induction l as [|v l IH]; simpl; lia. Qed.

Lemma fold_min_le_in (c v : Z) (l : list Z) :
  In v l -> fold_right Z.min c l <= v.
Proof.
  induction l as [|w l IH]; simpl; [intros []|].
  intros [->|H]; [lia|]. specialize (IH H). lia.
Qed.

Lemma fold_min_ge (k c : Z) (l : list Z) :
  k <= c -> (forall v, In v l -> k <= v) -> k <= fold_right Z.min c l.
Proof.
  intros Hc. induction l as [|w l IH]; simpl; intros H; [exact Hc|].
  assert (k <= w) by (apply H; auto).
  assert (k <= fold_right Z.min c l) by (apply IH; intros v Hv; apply H; auto).
  lia.
Qed.

Lemma nth_nonneg (T : list Z) (n : nat) :
  Forall (fun v => 0 <= v) T -> 0 <= nth n T 0.
Proof.
  intros H. revert n. induction H as [|v T Hv _ IH]; intros [|n]; simpl;
    try lia; auto.
Qed.

Lemma dp_levels_nonneg (p : Z) : In p dp_levels -> 0 <= p.
Proof.
  unfold dp_levels. rewrite in_map_iff. intros (n & <- & _). lia.
Qed.

Lemma dp_levels_in (p : Z) : 0 <= p < 68 -> In p dp_levels.
Proof.
  intros Hp. unfold dp_levels. apply in_map_iff. exists (Z.to_nat p).
  split; [lia|]. apply in_seq. lia.
Qed.

Lemma dp_step_nonneg (dm : Z) (T : list Z) (p : Z) :
  Forall (fun v => 0 <= v) T -> 0 <= dp_step dm T p.
Proof.
  intros HT. unfold dp_step. apply fold_min_ge; [unfold dp_cap; lia|].
  intros v Hv. apply in_map_iff in Hv as (p' & <- & Hp').
  apply dp_levels_nonneg in Hp'.
  pose proof (nth_nonneg T (Z.to_nat p') HT) as Hn.
  unfold dp_move, dp_cap.
  destruct (p' - p + dm =? 0); [lia|].
  destruct (10 <=? p' - p + dm); lia.
Qed.

Lemma dp_table_nonneg (ds : list Z) : Forall (fun v => 0 <= v) (dp_table ds).
Proof.
  induction ds as [|dm ds IH]; cbn [dp_table].
  - apply Forall_map_iff. intros; lia.
  - apply Forall_map_iff. intros p _. apply dp_step_nonneg, IH.
Qed.

Lemma dp_bound_nonneg (ds : list Z) (p : Z) : 0 <= dp_bound ds p.
Proof.
  destruct ds as [|dm ds]; cbn [dp_bound]; [lia|].
  apply dp_step_nonneg, dp_table_nonneg.
Qed.

Lemma nth_dp_levels (n : nat) : (n < 68)%nat -> nth n dp_levels 0 = Z.of_nat n.
Proof.
  intros Hn. unfold dp_levels.
  change 0 with (Z.of_nat 0). rewrite map_nth, seq_nth by lia. reflexivity.
Qed.

Lemma nth_map_levels (f : Z -> Z) (n : nat) :
  (n < 68)%nat -> nth n (map f dp_levels) 0 = f (Z.of_nat n).
Proof.
  intros Hn.
  rewrite (nth_indep _ 0 (f 0)) by
    (rewrite length_map; unfold dp_levels; rewrite length_map, length_seq; lia).
  rewrite map_nth, nth_dp_levels by lia. reflexivity.
Qed.

Lemma dp_table_nth (ds : list Z) (p : Z) :
  0 <= p < 68 -> nth (Z.to_nat p) (dp_table ds) 0 = dp_bound ds p.
Proof.
  intros Hp. destruct ds as [|dm ds]; cbn [dp_table dp_bound].
  - rewrite nth_map_levels by lia. reflexivity.
  - rewrite nth_map_levels by lia. rewrite Z2Nat.id by lia. reflexivity.
Qed.

(** One day costs at least what the table allows for it. *)
Lemma dp_step_sound (a : Assignment) (i : nat) (prev dm : Z) (ds : list Z) :
  day_ok a i prev dm ->
  dp_step dm (dp_table ds) prev <= day_cost a i + dp_bound ds (a (inv_ i)).
Proof.
  intros (Hx & Hq & Hi & Hl & H1 & H2 & Hbal).
  pose proof (dp_bound_nonneg ds (a (inv_ i))) as Hb.
  pose proof (fold_min_le_cap dp_cap
                (map (dp_move dm prev (dp_table ds)) dp_levels)) as Hcap.
  fold (dp_step dm (dp_table ds) prev) in Hcap.
  unfold day_cost, dp_cap, BIG_M in *.
  destruct (Z_lt_le_dec 0 (a (lost_ i))) as [Hlost|Hlost]; [lia|].
  destruct (Z_lt_le_dec (a (inv_ i)) 68) as [Hlow|Hhigh]; [|lia].
  assert (Hin : In (dp_move dm prev (dp_table ds) (a (inv_ i)))
                   (map (dp_move dm prev (dp_table ds)) dp_levels)).
  { apply in_map, dp_levels_in. lia. }
  apply (fold_min_le_in dp_cap) in Hin.
  fold (dp_step dm (dp_table ds) prev) in Hin.
  unfold dp_move in Hin. rewrite dp_table_nth in Hin by lia.
  destruct (Z.eqb_spec (a (inv_ i) - prev + dm) 0) as [E|E].
  - lia.
  - destruct (Z.leb_spec 10 (a (inv_ i) - prev + dm)); lia.
Qed.

Lemma dp_sound (a : Assignment) (ds : list Z) (i : nat) (prev : Z) :
  chain a i prev ds -> dp_bound ds prev <= cost_to_go a i (length ds).
Proof.
  revert i prev.
  induction ds as [|dm ds IH]; intros i prev; cbn [chain dp_bound length].
  - intros _. unfold cost_to_go. cbn [seq fold_right]. lia.
  - intros [Hday Hrest]. specialize (IH _ _ Hrest).
    pose proof (dp_step_sound a i prev dm ds Hday) as Hs.
    unfold cost_to_go in *. cbn [seq fold_right]. lia.
Qed.

Lemma notebook_day_ok (a : Assignment) (i : nat) :
  feasible (the_model notebook_data) a -> (i < 10)%nat ->
  day_ok a i (ending_level notebook_data a i) (nth i (demand notebook_data) 0).
Proof.
  intros Hf Hi.
  destruct (proj1 (feasible_the_model notebook_data a) Hf i)
    as ((Hx & Hq & Hs & Hl) & H1 & H2 & Hbal); [exact Hi|].
  unfold day_ok. change (moq notebook_data) with 10 in H2. tauto.
Qed.

Lemma feasible_chain (a : Assignment) :
  feasible (the_model notebook_data) a ->
  chain a 0 4 (demand notebook_data).
Proof.
  intros Hf. cbn [chain demand notebook_data].
  repeat match goal with
         | |- day_ok a ?i _ _ /\ _ =>
             split; [apply (notebook_day_ok a i Hf); lia|]
         end.
  exact I.
Qed.

Lemma scaled_cost_to_go (a : Assignment) :
  scaled_cost notebook_data a = cost_to_go a 0 10.
Proof.
  unfold scaled_cost, cost_to_go, sumZ, sum_periods, scaled_period_cost,
    day_cost.
  change (periods notebook_data) with 10%nat.
  cbn [seq fold_right Nat.sub delivery_cost selling_price notebook_data].
  lia.
Qed.

Lemma dp_bound_notebook : dp_bound (demand notebook_data) 4 = 680.
Proof. vm_compute. reflexivity. Qed.

Lemma scaled_cost_recorded : scaled_cost notebook_data recorded_plan = 680.
Proof. vm_compute. reflexivity. Qed.

(** No feasible plan of the notebook's instance costs less than 6.8. *)
Lemma notebook_lower_bound (a : Assignment) :
  feasible (the_model notebook_data) a -> 680 <= scaled_cost notebook_data a.
Proof.
  intros Hf. rewrite scaled_cost_to_go, <- dp_bound_notebook.
  apply (dp_sound a (demand notebook_data) 0 4), feasible_chain, Hf.
Qed.

Lemma recorded_plan_optimal : optimal (the_model notebook_data) recorded_plan.
Proof.
  split; [apply recorded_plan_feasible|].
  intros b Hb. apply cost_le_scaled. rewrite scaled_cost_recorded.
  apply notebook_lower_bound, Hb.
Qed.

(** The cost of a plan bounds the lost sales of each of its days. *)
Lemma lost_sales_bounded (a : Assignment) (i : nat) :
  feasible (the_model notebook_data) a -> (i < 10)%nat ->
  1000 * a (lost_ i) <= scaled_cost notebook_data a.
Proof.
  intros Hf Hi. rewrite scaled_cost_to_go.
  pose proof (notebook_day_ok a 0 Hf ltac:(lia)) as (? & ? & ? & ? & _).
  pose proof (notebook_day_ok a 1 Hf ltac:(lia)) as (? & ? & ? & ? & _).
  pose proof (notebook_day_ok a 2 Hf ltac:(lia)) as (? & ? & ? & ? & _).
  pose proof (notebook_day_ok a 3 Hf ltac:(lia)) as (? & ? & ? & ? & _).
  pose proof (notebook_day_ok a 4 Hf ltac:(lia)) as (? & ? & ? & ? & _).
  pose proof (notebook_day_ok a 5 Hf ltac:(lia)) as (? & ? & ? & ? & _).
  pose proof (notebook_day_ok a 6 Hf ltac:(lia)) as (? & ? & ? & ? & _).
  pose proof (notebook_day_ok a 7 Hf ltac:(lia)) as (? & ? & ? & ? & _).
  pose proof (notebook_day_ok a 8 Hf ltac:(lia)) as (? & ? & ? & ? & _).
  pose proof (notebook_day_ok a 9 Hf ltac:(lia)) as (? & ? & ? & ? & _).
  unfold cost_to_go, day_cost. cbn [seq fold_right].
  do 10 (destruct i as [|i]; [lia|]). lia.
Qed.

Lemma exact_on_recorded :
  exact_on (engine_returning recorded_plan 6.8) (the_model notebook_data).
Proof.
  intros _. split; [reflexivity|].
  exists recorded_plan. split; [apply recorded_plan_optimal|].
  intros v. reflexivity.
Qed.

Lemma optimal_notebook_plan (a : Assignment) (i : nat) :
  optimal (the_model notebook_data) a -> (i < 10)%nat ->
  a (lost_ i) = 0 /\ (a (ord_ i) = 0 \/ 10 <= a (ord_ i)).
Proof.
  intros [Hf Hopt] Hi.
  specialize (Hopt recorded_plan recorded_plan_feasible).
  apply cost_le_scaled in Hopt. rewrite scaled_cost_recorded in Hopt.
  pose proof (lost_sales_bounded a i Hf Hi) as Hl.
  pose proof (notebook_day_ok a i Hf Hi) as (Hx & Hq & _ & Hl0 & H1 & H2 & _).
  unfold BIG_M in *. lia.
Qed.

(** C9. For the notebook's instance (starting stock 4, demand
    [3,5,3,5,3,5,3,5,3,5], MOQ 10, delivery cost 1, selling price 10) the
    model is built and feasible and has an optimum, the recorded plan of
    cost 6.8; every optimal solution loses no sale in any of the ten
    periods, and every non-zero order quantity of an optimal solution is at
    least 10.  With an engine that is exact on the model the notebook
    prints status 0 (OPTIMAL), a row of zero lost sales and order
    quantities that are 0 or at least 10. *)
Theorem forced_order_scenario :
  model_of notebook_data = inr (the_model notebook_data) /\
  feasible (the_model notebook_data) recorded_plan /\
  optimal (the_model notebook_data) recorded_plan /\
  (cost (the_model notebook_data) recorded_plan == 6.8)%Q /\
  (forall a, optimal (the_model notebook_data) a ->
     forall t, (1 <= t <= 10)%nat ->
       lost_quantity a t = 0 /\
       (quantity a t <> 0 -> 10 <= quantity a t)) /\
  (forall engine, exact_on engine (the_model notebook_data) ->
     exists r,
       run engine notebook_data = inr r /\
       printed_status r = status_code OPTIMAL /\
       row_lost r = [0; 0; 0; 0; 0; 0; 0; 0; 0; 0] /\
       Forall (fun q => q = 0 \/ 10 <= q) (row_intake r)).
Proof.
  split; [apply notebook_model|].
  split; [apply recorded_plan_feasible|].
  split; [apply recorded_plan_optimal|].
  split; [vm_compute; reflexivity|].
  split.
  - intros a Ha t Ht.
    destruct (optimal_notebook_plan a (t - 1) Ha) as [Hl Hq]; [lia|].
    unfold lost_quantity, quantity. split; lia.
  - intros engine Hex.
    destruct Hex as (Hst & a & Ha & Hv);
      [exists recorded_plan; apply recorded_plan_optimal|].
    assert (Hr : forall v,
               (value_of (rounded (engine (the_model notebook_data))) v
                == valuation a v)%Q)
      by (intros v; rewrite (rounded_integral _ a Hv v); reflexivity).
    exists (report_of notebook_data
              (rounded (engine (the_model notebook_data)))).
    split; [apply run_ok; vm_compute; lia|].
    unfold report_of. cbn [printed_status row_lost row_intake].
    change (status (rounded (engine (the_model notebook_data))))
      with (status (engine (the_model notebook_data))).
    rewrite Hst. split; [reflexivity|].
    change (range (number_of_days notebook_data))
      with [0; 1; 2; 3; 4; 5; 6; 7; 8; 9]%nat.
    split.
    + cbn [map].
      rewrite !(int_inject_Z _ 0)
        by (rewrite Hr; unfold valuation;
            match goal with
            | |- (inject_Z (a (lost_ ?i)) == _)%Q =>
                rewrite (proj1 (optimal_notebook_plan a i Ha ltac:(lia)))
            end; reflexivity).
      reflexivity.
    + apply Forall_map_iff. intros i Hi.
      rewrite (int_inject_Z _ (a (ord_ i))) by apply Hr.
      apply (optimal_notebook_plan a i Ha).
      simpl in Hi. lia.
Qed.

(** * Further properties of the notebook *)

(** ** Sums over the days *)

Lemma sumZ_days (n : nat) (f : nat -> Z) :
  sumZ n f = sum_days n (fun j => f (S j)).
Proof. apply sumZ_shift. Qed.

Lemma fold_seq_ext (g h : nat -> Z) (s n : nat) :
  (forall j, (s <= j < s + n)%nat -> g j = h j) ->
  fold_right (fun j r => g j + r) 0 (seq s n)
  = fold_right (fun j r => h j + r) 0 (seq s n).
Proof.
  revert s. induction n as [|n IH]; intros s H; cbn [seq fold_right].
  - reflexivity.
  - rewrite (H s) by lia. rewrite (IH (S s)) by (intros j Hj; apply H; lia).
    reflexivity.
Qed.

Lemma sum_days_ext (n : nat) (g h : nat -> Z) :
  (forall j, (j < n)%nat -> g j = h j) -> sum_days n g = sum_days n h.
Proof. intros H. apply fold_seq_ext. intros j Hj. apply H. lia. Qed.

Lemma sum_days_S (n : nat) (g : nat -> Z) :
  sum_days (S n) g = sum_days n g + g n.
Proof.
  unfold sum_days. rewrite seq_S, fold_right_app. cbn [fold_right Nat.add].
  generalize (seq 0 n). intros l. induction l as [|j l IH]; cbn [fold_right].
  - lia.
  - rewrite IH. lia.
Qed.

Lemma sum_days_plus (n : nat) (g h : nat -> Z) :
  sum_days n (fun j => g j + h j) = sum_days n g + sum_days n h.
Proof.
  induction n as [|n IH]; [reflexivity|]. rewrite !sum_days_S, IH. lia.
Qed.

Lemma sum_days_nonneg (n : nat) (g : nat -> Z) :
  (forall j, (j < n)%nat -> 0 <= g j) -> 0 <= sum_days n g.
Proof.
  induction n as [|n IH]; intros H.
  - unfold sum_days. simpl. lia.
  - rewrite sum_days_S.
    assert (0 <= sum_days n g) by (apply IH; intros j Hj; apply H; lia).
    assert (0 <= g n) by (apply H; lia). lia.
Qed.

(** A sum with a single non-zero day. *)
Lemma sum_days_point (n i : nat) (c : Z) :
  sum_days n (fun j => if Nat.eqb j i then c else 0)
  = if Nat.ltb i n then c else 0.
Proof.
  induction n as [|n IH]; [reflexivity|]. rewrite sum_days_S, IH.
  destruct (Nat.eqb_spec n i) as [->|Hne].
  - rewrite Nat.ltb_irrefl.
    replace (i <? S i)%nat with true by (symmetry; apply Nat.ltb_lt; lia).
    lia.
  - destruct (Nat.ltb_spec i n) as [Hlt|Hge].
    + replace (i <? S n)%nat with true by (symmetry; apply Nat.ltb_lt; lia).
      lia.
    + replace (i <? S n)%nat with false by (symmetry; apply Nat.ltb_ge; lia).
      lia.
Qed.

Lemma scaled_cost_days (d : Data) (a : Assignment) :
  scaled_cost d a = sum_days (periods d) (scaled_day_cost d a).
Proof.
  unfold scaled_cost. rewrite sumZ_days. apply sum_days_ext. intros j _.
  unfold scaled_period_cost, scaled_day_cost.
  replace (S j - 1)%nat with j by lia. reflexivity.
Qed.

(** ** When the notebook fails *)

Lemma length_the_model (d : Data) :
  length (variables (the_model d)) = (4 * periods d)%nat /\
  length (constraints (the_model d)) = (3 * periods d)%nat.
Proof.
  unfold the_model, range. fold (periods d). simpl variables. simpl constraints.
  split; [apply length_declarations|].
  rewrite !length_app, !length_map, !length_seq. lia.
Qed.

(** X1. The building cells raise [IndexError], and nothing else, exactly
    when [demand] has fewer entries than there are days; the notebook then
    stops before the engine is called.  Otherwise they leave a model of
    four variables and three constraints a day and the notebook prints its
    report. *)
Theorem build_outcome (d : Data) :
  ((length (demand d) < periods d)%nat ->
     model_of d = inl IndexError /\
     forall engine, run engine d = inl IndexError) /\
  ((periods d <= length (demand d))%nat ->
     exists m,
       model_of d = inr m /\
       length (variables m) = (4 * periods d)%nat /\
       length (constraints m) = (3 * periods d)%nat /\
       forall engine, exists r, run engine d = inr r).
Proof.
  split.
  - intros H. split.
    + unfold model_of. rewrite build_raises by exact H. reflexivity.
    + intros engine. apply run_raises, H.
  - intros H. exists (the_model d).
    split; [apply model_of_ok, H|].
    destruct (length_the_model d) as [Hv Hc].
    split; [exact Hv|]. split; [exact Hc|].
    intros engine. eexists. apply run_ok, H.
Qed.

(** ** Domains *)

(** X2. In every assignment that respects the declared domains of the
    built model the indicator of each period is 0 or 1 and the order
    quantity, the ending level and the lost sales are non-negative. *)
Theorem non_negativity (d : Data) (m : Solver) (a : Assignment) (t : nat) :
  model_of d = inr m ->
  Forall (in_domain a) (variables m) ->
  (1 <= t <= periods d)%nat ->
  (indicator a t = 0 \/ indicator a t = 1) /\
  0 <= quantity a t /\ 0 <= ending_level d a t /\ 0 <= lost_quantity a t.
Proof.
  intros Hm Hdom Ht. apply model_of_inv in Hm as [_ ->].
  unfold the_model in Hdom; simpl variables in Hdom.
  rewrite Forall_flat_map in Hdom.
  destruct t as [|i]; [lia|].
  assert (Hi : In i (range (number_of_days d))) by (apply range_lt; lia).
  apply Hdom, in_domain_declarations in Hi.
  unfold indicator, quantity, lost_quantity. cbn [ending_level].
  replace (S i - 1)%nat with i by lia. lia.
Qed.

Lemma non_negativity_witness :
  (indicator recorded_plan 5 = 0 \/ indicator recorded_plan 5 = 1) /\
  0 <= quantity recorded_plan 5 /\
  0 <= ending_level notebook_data recorded_plan 5 /\
  0 <= lost_quantity recorded_plan 5.
Proof.
  apply (non_negativity notebook_data (the_model notebook_data)
           recorded_plan 5).
  - vm_compute. reflexivity.
  - apply recorded_plan_feasible.
  - vm_compute. lia.
Defined.

(** X8. The literal 1000000 caps every order: a feasible plan never
    orders more than 1000000 units in a period, and when the minimum order
    quantity exceeds 1000000 it never orders at all. *)
Theorem big_M_caps_orders (d : Data) (m : Solver) (a : Assignment) (t : nat) :
  model_of d = inr m ->
  feasible m a ->
  (1 <= t <= periods d)%nat ->
  quantity a t <= 1000000 /\
  (1000000 < moq d -> indicator a t = 0 /\ quantity a t = 0).
Proof.
  intros Hm Hf Ht. apply model_of_inv in Hm as [_ ->].
  destruct (proj1 (feasible_the_model d a) Hf (t - 1)%nat)
    as ((Hx & Hq & _) & H1 & H2 & _); [lia|].
  unfold indicator, quantity, BIG_M in *.
  split; [lia|]. intros Hmoq.
  assert (a (x_ (t - 1)) = 0 \/ a (x_ (t - 1)) = 1) as [E|E] by lia;
    rewrite E in *; lia.
Qed.

Lemma big_M_caps_orders_witness :
  quantity recorded_plan 2 <= 1000000 /\
  (1000000 < moq notebook_data ->
   indicator recorded_plan 2 = 0 /\ quantity recorded_plan 2 = 0).
Proof.
  apply (big_M_caps_orders notebook_data (the_model notebook_data)
           recorded_plan 2).
  - vm_compute. reflexivity.
  - apply recorded_plan_feasible.
  - vm_compute. lia.
Defined.

(** ** Integer data give a feasible model *)

Lemma no_order_plan_feasible (d : Data) :
  feasible (the_model d) (no_order_plan d).
Proof.
  apply feasible_the_model. intros i Hi.
  assert (Hlev : ending_level d (no_order_plan d) i = stock_after d i)
    by (destruct i; reflexivity).
  unfold period_ok. rewrite Hlev. unfold no_order_plan, BIG_M.
  cbn [stock_after]. lia.
Qed.

(** X3. For integer stock and demand, which is what [Data] holds, and
    whatever the supplier terms, the built model has a feasible plan: never
    order and write off as lost sales the demand the stock does not
    cover. *)
Theorem always_feasible (d : Data) (m : Solver) :
  model_of d = inr m ->
  feasible m (no_order_plan d) /\
  forall t, quantity (no_order_plan d) t = 0 /\
            indicator (no_order_plan d) t = 0.
Proof.
  intros Hm. apply model_of_inv in Hm as [_ ->].
  split; [apply no_order_plan_feasible|]. intros t. split; reflexivity.
Qed.

Lemma always_feasible_witness :
  feasible (the_model negative_data) (no_order_plan negative_data) /\
  forall t, quantity (no_order_plan negative_data) t = 0 /\
            indicator (no_order_plan negative_data) t = 0.
Proof.
  apply (always_feasible negative_data (the_model negative_data)).
  vm_compute. reflexivity.
Defined.

(** ** Stock over time *)

(** X4. In every assignment that satisfies the generated constraints the
    ending level of period [t] is the starting stock plus everything
    ordered, minus the demand, plus the lost sales of the periods up to
    [t]. *)
Theorem cumulative_balance (d : Data) (m : Solver) (a : Assignment) (t : nat) :
  model_of d = inr m ->
  satisfies m a ->
  (t <= periods d)%nat ->
  ending_level d a t =
  stock_level d
  + sumZ t (fun s => quantity a s - demand_of d s + lost_quantity a s).
Proof.
  intros Hm Hsat. apply model_of_inv in Hm as [_ ->].
  pose proof (proj1 (satisfies_the_model d a) Hsat) as H.
  rewrite sumZ_days. induction t as [|t IH]; intros Ht.
  - unfold sum_days. simpl. lia.
  - rewrite sum_days_S, Z.add_assoc, <- IH by lia.
    destruct (H t) as (_ & _ & Hbal); [lia|].
    unfold quantity, demand_of, lost_quantity.
    replace (S t - 1)%nat with t by lia. cbn [ending_level]. lia.
Qed.

Lemma cumulative_balance_witness :
  ending_level notebook_data recorded_plan 10 =
  stock_level notebook_data
  + sumZ 10 (fun s => quantity recorded_plan s - demand_of notebook_data s
                      + lost_quantity recorded_plan s).
Proof.
  apply (cumulative_balance notebook_data (the_model notebook_data)
           recorded_plan 10).
  - vm_compute. reflexivity.
  - apply recorded_plan_feasible.
  - vm_compute. lia.
Defined.

(** ** How low the cost can go *)

Lemma scaled_cost_nonneg (d : Data) (a : Assignment) :
  0 <= delivery_cost d -> 0 <= selling_price d ->
  feasible (the_model d) a -> 0 <= scaled_cost d a.
Proof.
  intros Hdc Hsp Hf. rewrite scaled_cost_days. apply sum_days_nonneg.
  intros j Hj.
  destruct (proj1 (feasible_the_model d a) Hf j Hj)
    as ((Hx & _ & Hi & Hl) & _).
  unfold scaled_day_cost.
  assert (0 <= 100 * delivery_cost d * a (x_ j))
    by (apply Z.mul_nonneg_nonneg; lia).
  assert (0 <= selling_price d * a (inv_ j))
    by (apply Z.mul_nonneg_nonneg; lia).
  assert (0 <= 100 * selling_price d * a (lost_ j))
    by (apply Z.mul_nonneg_nonneg; lia).
  lia.
Qed.

Lemma cost_vs_bound (d : Data) (a : Assignment) (z : Z) :
  (scaled_cost d a <= 100 * z -> (cost (the_model d) a <= inject_Z z)%Q) /\
  (100 * z <= scaled_cost d a -> (inject_Z z <= cost (the_model d) a)%Q).
Proof.
  pose proof (cost_scaled d a) as H.
  split; intros Hz; rewrite Zle_Qle in Hz;
    rewrite inject_Z_mult in Hz; change (inject_Z 100) with 100%Q in Hz; lra.
Qed.

(** X5. With a non-negative delivery cost and a non-negative selling
    price no feasible plan costs less than nothing: the objective is
    bounded below by 0. *)
Theorem cost_bounded_below (d : Data) (m : Solver) (a : Assignment) :
  model_of d = inr m ->
  0 <= delivery_cost d -> 0 <= selling_price d ->
  feasible m a ->
  (0 <= cost m a)%Q.
Proof.
  intros Hm Hdc Hsp Hf. apply model_of_inv in Hm as [_ ->].
  apply (proj2 (cost_vs_bound d a 0)).
  apply (scaled_cost_nonneg d a Hdc Hsp Hf).
Qed.

Lemma cost_bounded_below_witness :
  (0 <= cost (the_model notebook_data) recorded_plan)%Q.
Proof.
  apply (cost_bounded_below notebook_data (the_model notebook_data)
           recorded_plan).
  - vm_compute. reflexivity.
  - vm_compute. discriminate.
  - vm_compute. discriminate.
  - apply recorded_plan_feasible.
Defined.

Lemma adjust_feasible (d : Data) (a : Assignment) (i : nat) (k : Z) :
  feasible (the_model d) a ->
  0 <= a (inv_ i) + k -> 0 <= a (lost_ i) + k ->
  ((S i < periods d)%nat -> 0 <= a (lost_ (S i)) - k) ->
  feasible (the_model d) (adjust a i k).
Proof.
  intros Hf Hi Hl Hnext. apply feasible_the_model. intros j Hj.
  destruct (proj1 (feasible_the_model d a) Hf j Hj)
    as ((Hx & Hq & Hs & Hlo) & H1 & H2 & Hbal).
  unfold period_ok. cbn [adjust].
  assert (Hlev : ending_level d (adjust a i k) j =
                 ending_level d a j
                 + (if Nat.eqb j (S i) then k else 0)).
  { destruct j as [|j']; cbn [ending_level adjust].
    - simpl. lia.
    - change (S j' =? S i)%nat with (j' =? i)%nat.
      destruct (Nat.eqb_spec j' i); lia. }
  rewrite Hlev.
  destruct (Nat.eqb_spec j i) as [->|Hne].
  - replace (i =? S i)%nat with false by (symmetry; apply Nat.eqb_neq; lia).
    lia.
  - destruct (Nat.eqb_spec j (S i)) as [->|Hne'].
    + specialize (Hnext Hj). lia.
    + lia.
Qed.

Lemma adjust_cost (d : Data) (a : Assignment) (i : nat) (k : Z) :
  (i < periods d)%nat ->
  scaled_cost d (adjust a i k) =
  scaled_cost d a + 101 * selling_price d * k
  + (if Nat.ltb (S i) (periods d) then - (100 * selling_price d * k) else 0).
Proof.
  intros Hi. rewrite !scaled_cost_days.
  rewrite (sum_days_ext _ (scaled_day_cost d (adjust a i k))
             (fun j => scaled_day_cost d a j
                       + ((if Nat.eqb j i then 101 * selling_price d * k else 0)
                          + (if Nat.eqb j (S i)
                             then - (100 * selling_price d * k) else 0)))).
  - rewrite !sum_days_plus, !sum_days_point.
    replace (i <? periods d)%nat with true by (symmetry; apply Nat.ltb_lt; lia).
    lia.
  - intros j _. unfold scaled_day_cost. cbn [adjust].
    destruct (Nat.eqb_spec j i) as [->|Hne].
    + replace (i =? S i)%nat with false by (symmetry; apply Nat.eqb_neq; lia).
      lia.
    + destruct (Nat.eqb_spec j (S i)); lia.
Qed.

(** X6. For integer stock and demand, with a negative selling price and
    at least one period the objective has no minimum: for every bound there
    is a feasible plan that costs no more. *)
Theorem negative_price_unbounded (d : Data) (m : Solver) (bound : Z) :
  model_of d = inr m ->
  selling_price d < 0 ->
  1 <= number_of_days d ->
  exists a, feasible m a /\ (cost m a <= inject_Z bound)%Q.
Proof.
  intros Hm Hsp HN. apply model_of_inv in Hm as [_ ->].
  assert (Hn : (periods d - 1 < periods d)%nat) by (unfold periods; lia).
  set (base := scaled_cost d (no_order_plan d)).
  set (k := Z.max 0 (base - 100 * bound)).
  exists (adjust (no_order_plan d) (periods d - 1) k). split.
  - apply adjust_feasible.
    + apply no_order_plan_feasible.
    + destruct (proj1 (feasible_the_model d _) (no_order_plan_feasible d)
                  _ Hn) as ((_ & _ & Hs & _) & _). lia.
    + destruct (proj1 (feasible_the_model d _) (no_order_plan_feasible d)
                  _ Hn) as ((_ & _ & _ & Hl) & _). lia.
    + intros H. lia.
  - apply (proj1 (cost_vs_bound d _ bound)).
    rewrite adjust_cost by exact Hn.
    replace (S (periods d - 1) <? periods d)%nat with false
      by (symmetry; apply Nat.ltb_ge; lia).
    fold base.
    assert (selling_price d * k <= - k) by nia.
    lia.
Qed.

Lemma negative_price_unbounded_witness :
  exists a, feasible (the_model unbounded_data) a /\
            (cost (the_model unbounded_data) a <= inject_Z (-5))%Q.
Proof.
  apply (negative_price_unbounded unbounded_data (the_model unbounded_data) (-5)).
  - vm_compute. reflexivity.
  - vm_compute. reflexivity.
  - vm_compute. discriminate.
Defined.

(** In an optimal plan no day both keeps stock and loses sales. *)
Lemma slack_at_optimum (d : Data) (a : Assignment) (i : nat) :
  0 < selling_price d ->
  optimal (the_model d) a ->
  (i < periods d)%nat ->
  a (inv_ i) = 0 \/ a (lost_ i) = 0.
Proof.
  intros Hsp [Hf Hopt] Hi.
  destruct (proj1 (feasible_the_model d a) Hf i Hi)
    as ((_ & _ & Hs & Hl) & _).
  destruct (Z.eq_dec (a (inv_ i)) 0) as [E|Hpos]; [left; exact E|].
  destruct (Z.eq_dec (a (lost_ i)) 0) as [E|Hpos']; [right; exact E|].
  exfalso.
  assert (Hb : feasible (the_model d) (adjust a i (-1))).
  { apply adjust_feasible; [exact Hf|lia|lia|].
    intros Hn.
    destruct (proj1 (feasible_the_model d a) Hf (S i) Hn)
      as ((_ & _ & _ & Hl') & _). lia. }
  specialize (Hopt _ Hb). apply cost_le_scaled in Hopt.
  rewrite adjust_cost in Hopt by exact Hi.
  destruct (S i <? periods d)%nat; lia.
Qed.

(** X7. With a positive selling price every optimal plan has, in each
    period, a zero ending level or zero lost sales: stock is never kept
    while a sale is lost. *)
Theorem complementary_slackness (d : Data) (m : Solver) (a : Assignment)
    (t : nat) :
  model_of d = inr m ->
  0 < selling_price d ->
  optimal m a ->
  (1 <= t <= periods d)%nat ->
  ending_level d a t = 0 \/ lost_quantity a t = 0.
Proof.
  intros Hm Hsp Hopt Ht. apply model_of_inv in Hm as [_ ->].
  destruct t as [|i]; [lia|].
  unfold lost_quantity. cbn [ending_level].
  replace (S i - 1)%nat with i by lia.
  apply (slack_at_optimum d a i Hsp Hopt). lia.
Qed.

Lemma complementary_slackness_witness :
  ending_level notebook_data recorded_plan 3 = 0 \/
  lost_quantity recorded_plan 3 = 0.
Proof.
  apply (complementary_slackness notebook_data (the_model notebook_data)
           recorded_plan 3).
  - vm_compute. reflexivity.
  - vm_compute. reflexivity.
  - apply recorded_plan_optimal.
  - vm_compute. lia.
Defined.

(** X9. With a positive selling price every optimal plan loses exactly
    the demand that the stock carried over and the order of the period do
    not cover, and keeps exactly what they leave: the optimum follows the
    forward simulation of the stock. *)
Theorem lost_sales_are_the_shortfall (d : Data) (m : Solver) (a : Assignment)
    (t : nat) :
  model_of d = inr m ->
  0 < selling_price d ->
  optimal m a ->
  (1 <= t <= periods d)%nat ->
  lost_quantity a t =
    Z.max 0 (demand_of d t - ending_level d a (t - 1) - quantity a t) /\
  ending_level d a t =
    Z.max 0 (ending_level d a (t - 1) + quantity a t - demand_of d t).
Proof.
  intros Hm Hsp Hopt Ht. apply model_of_inv in Hm as [_ ->].
  destruct t as [|i]; [lia|].
  assert (Hi : (i < periods d)%nat) by lia.
  destruct (slack_at_optimum d a i Hsp Hopt Hi) as [E|E];
    destruct (proj1 (feasible_the_model d a) (proj1 Hopt) i Hi)
      as ((_ & _ & Hs & Hl) & _ & _ & Hbal);
    unfold lost_quantity, quantity, demand_of; cbn [ending_level];
    replace (S i - 1)%nat with i by lia; lia.
Qed.

Lemma lost_sales_are_the_shortfall_witness :
  lost_quantity recorded_plan 4 =
    Z.max 0 (demand_of notebook_data 4
             - ending_level notebook_data recorded_plan 3
             - quantity recorded_plan 4) /\
  ending_level notebook_data recorded_plan 4 =
    Z.max 0 (ending_level notebook_data recorded_plan 3
             + quantity recorded_plan 4 - demand_of notebook_data 4).
Proof.
  apply (lost_sales_are_the_shortfall notebook_data
           (the_model notebook_data) recorded_plan 4).
  - vm_compute. reflexivity.
  - vm_compute. reflexivity.
  - apply recorded_plan_optimal.
  - vm_compute. lia.
Defined.

(** X10. For integer stock, demand and prices, with a non-negative
    delivery cost and a non-negative selling price the built model has an
    optimal plan, so that for such data neither INFEASIBLE nor UNBOUNDED is
    a correct answer of the engine. *)
Theorem optimum_exists (d : Data) (m : Solver) :
  model_of d = inr m ->
  0 <= delivery_cost d -> 0 <= selling_price d ->
  exists a, optimal m a.
Proof.
  intros Hm Hdc Hsp. apply model_of_inv in Hm as [_ ->].
  set (P := fun n : nat =>
              exists a, feasible (the_model d) a /\
                        scaled_cost d a = Z.of_nat n).
  assert (Hsome : exists n, P n).
  { exists (Z.to_nat (scaled_cost d (no_order_plan d))).
    exists (no_order_plan d). split; [apply no_order_plan_feasible|].
    rewrite Z2Nat.id; [reflexivity|].
    apply scaled_cost_nonneg; [exact Hdc|exact Hsp|].
    apply no_order_plan_feasible. }
  destruct (dec_inh_nat_subset_has_unique_least_element P
              (fun n => classic (P n)) Hsome)
    as (n & ((a & Hf & Hn) & Hleast) & _).
  exists a. split; [exact Hf|]. intros b Hb. apply cost_le_scaled.
  assert (Hnb : 0 <= scaled_cost d b)
    by (apply scaled_cost_nonneg; assumption).
  assert (Hle : (n <= Z.to_nat (scaled_cost d b))%nat).
  { apply Hleast. exists b. split; [exact Hb|]. rewrite Z2Nat.id; lia. }
  lia.
Qed.

Lemma optimum_exists_witness :
  exists a, optimal (the_model noisy_data) a.
Proof.
  apply (optimum_exists noisy_data (the_model noisy_data)).
  - vm_compute. reflexivity.
  - vm_compute. discriminate.
  - vm_compute. discriminate.
Defined.

(** ** What the report shows *)

Lemma run_inv (engine : Solver -> Solution) (d : Data) (r : Report) :
  run engine d = inr r ->
  (periods d <= length (demand d))%nat /\
  r = report_of d (rounded (engine (the_model d))).
Proof.
  intros H. destruct (le_lt_dec (periods d) (length (demand d))) as [Hle|Hlt].
  - split; [exact Hle|]. rewrite (run_ok engine d Hle) in H. congruence.
  - rewrite (run_raises engine d Hlt) in H. discriminate.
Qed.

Lemma firstn_by_index (l : list Z) (n : nat) :
  (n <= length l)%nat ->
  map (fun i => nth i l 0) (seq 0 n) = firstn n l.
Proof.
  revert n. induction l as [|z l IH]; intros [|n] Hn; simpl in Hn;
    try reflexivity; try lia.
  cbn [seq map firstn nth]. f_equal.
  rewrite <- seq_shift, map_map. cbn [nth]. apply IH. lia.
Qed.

Lemma map_periods {A} (f : nat -> A) (n : nat) :
  map f (seq 1 n) = map (fun i => f (S i)) (seq 0 n).
Proof. rewrite <- seq_shift, map_map. reflexivity. Qed.

(** X11. When the notebook reaches its last cell, every printed row has
    one entry a day, the day row counts 1..N, the demand row is the first
    N entries of [demand], and the status, objective value and initial
    stock printed are the engine's and the data's. *)
Theorem report_layout (engine : Solver -> Solution) (d : Data) (r : Report) :
  run engine d = inr r ->
  row_day r = map Z.of_nat (seq 1 (periods d)) /\
  row_demand r = firstn (periods d) (demand d) /\
  length (row_intake r) = periods d /\
  length (row_inv r) = periods d /\
  length (row_lost r) = periods d /\
  printed_stock r = stock_level d /\
  exists m, model_of d = inr m /\
            printed_status r = status_code (status (engine m)) /\
            printed_objective r = objective_value (engine m).
Proof.
  intros H. apply run_inv in H as [Hlen ->].
  unfold report_of, range. fold (periods d).
  cbn [row_day row_demand row_intake row_inv row_lost printed_stock
       printed_status printed_objective].
  rewrite !length_map, !length_seq, firstn_by_index by exact Hlen.
  split.
  - rewrite map_periods. apply map_ext. intros i. lia.
  - repeat split. exists (the_model d).
    split; [apply model_of_ok, Hlen|]. split; reflexivity.
Qed.

Lemma report_layout_witness :
  row_day (report_of notebook_data
             (rounded (near_one_engine (the_model notebook_data))))
  = map Z.of_nat (seq 1 (periods notebook_data)) /\
  row_demand (report_of notebook_data
                (rounded (near_one_engine (the_model notebook_data))))
  = firstn (periods notebook_data) (demand notebook_data).
Proof.
  destruct (report_layout near_one_engine notebook_data
              (report_of notebook_data
                 (rounded (near_one_engine (the_model notebook_data)))))
    as (H1 & H2 & _).
  - vm_compute. reflexivity.
  - split; [exact H1|exact H2].
Defined.

(** X12. When the engine returns the values of an integer assignment,
    the printed rows are that assignment, period by period: reading a
    value through [int] loses nothing of an integer. *)
Theorem rows_show_the_plan (engine : Solver -> Solution) (d : Data)
    (m : Solver) (a : Assignment) :
  model_of d = inr m ->
  (forall v, value_of (engine m) v == valuation a v)%Q ->
  exists r,
    run engine d = inr r /\
    row_intake r = map (quantity a) (seq 1 (periods d)) /\
    row_inv r = map (ending_level d a) (seq 1 (periods d)) /\
    row_lost r = map (lost_quantity a) (seq 1 (periods d)).
Proof.
  intros Hm Hv. apply model_of_inv in Hm as [Hlen ->].
  assert (Hr : forall v, (value_of (rounded (engine (the_model d))) v
                          == valuation a v)%Q)
    by (intros v; rewrite (rounded_integral _ a Hv v); reflexivity).
  eexists. split; [apply run_ok, Hlen|].
  unfold report_of, range. fold (periods d).
  cbn [row_intake row_inv row_lost]. rewrite !map_periods.
  repeat split; apply map_ext; intros i; apply int_inject_Z;
    unfold quantity, lost_quantity; cbn [ending_level];
    replace (S i - 1)%nat with i by lia; apply Hr.
Qed.

Lemma rows_show_the_plan_witness :
  exists r,
    run (engine_returning short_plan 10) short_data = inr r /\
    row_intake r = map (quantity short_plan) (seq 1 (periods short_data)) /\
    row_inv r = map (ending_level short_data short_plan)
                    (seq 1 (periods short_data)) /\
    row_lost r = map (lost_quantity short_plan) (seq 1 (periods short_data)).
Proof.
  apply (rows_show_the_plan (engine_returning short_plan 10) short_data
           (the_model short_data) short_plan).
  - vm_compute. reflexivity.
  - intros v. reflexivity.
Defined.

(** The test [x[i].solution_value() == 1] on the value of an integer. *)
Lemma reads_one (a : Assignment) (sol : Solution) (i : nat) :
  (forall v, value_of sol v == valuation a v)%Q ->
  Qeq_bool (value_of sol (x_ i)) 1 = (a (x_ i) =? 1).
Proof.
  intros Hv. destruct (Z.eqb_spec (a (x_ i)) 1) as [E|E].
  - apply Qeq_bool_iff. rewrite (Hv (x_ i)). unfold valuation. rewrite E.
    reflexivity.
  - destruct (Qeq_bool (value_of sol (x_ i)) 1) eqn:B; [|reflexivity].
    exfalso. apply E. apply Qeq_bool_iff in B. rewrite (Hv (x_ i)) in B.
    unfold valuation in B. change 1%Q with (inject_Z 1) in B.
    exact (proj1 (inject_Z_injective (a (x_ i)) 1) B).
Qed.

Lemma totals_of_filtered (a : Assignment) (sol : Solution) (l : list nat)
    (acc : Totals) :
  (forall v, value_of sol v == valuation a v)%Q ->
  let pick (var : nat -> Var) :=
    inject_Z (fold_right
                (fun i r => ((if a (x_ i) =? 1 then a (var i) else 0) + r)%Z)
                0%Z l) in
  (total_intake_qty (fold_left (add_day sol) l acc)
   == total_intake_qty acc + pick ord_)%Q /\
  (total_inventory (fold_left (add_day sol) l acc)
   == total_inventory acc + pick inv_)%Q /\
  (total_lost_sales_qty (fold_left (add_day sol) l acc)
   == total_lost_sales_qty acc + pick lost_)%Q.
Proof.
  intros Hv. cbv zeta. revert acc.
  induction l as [|i l IH]; intros acc; cbn [fold_left fold_right].
  - unfold inject_Z. repeat split; ring.
  - destruct (IH (add_day sol acc i)) as (H1 & H2 & H3).
    rewrite H1, H2, H3. unfold add_day. rewrite (reads_one a sol i Hv).
    rewrite !inject_Z_plus.
    destruct (a (x_ i) =? 1); cbn [total_intake_qty total_inventory
                                    total_lost_sales_qty];
      rewrite ?(Hv (ord_ i)), ?(Hv (inv_ i)), ?(Hv (lost_ i));
      unfold valuation, inject_Z; repeat split; ring.
Qed.

(** X13. When the engine returns the values of an integer assignment,
    each of the three printed totals is the sum, over the periods whose
    indicator is 1, of the order quantities, of the ending levels and of
    the lost sales: a period without an order adds nothing to any of
    them. *)
Theorem totals_count_order_days (engine : Solver -> Solution) (d : Data)
    (m : Solver) (a : Assignment) :
  model_of d = inr m ->
  (forall v, value_of (engine m) v == valuation a v)%Q ->
  exists r,
    run engine d = inr r /\
    printed_total_intake r =
      sumZ (periods d)
           (fun t => if indicator a t =? 1 then quantity a t else 0) /\
    printed_total_inventory r =
      sumZ (periods d)
           (fun t => if indicator a t =? 1 then ending_level d a t else 0) /\
    printed_total_lost_sales r =
      sumZ (periods d)
           (fun t => if indicator a t =? 1 then lost_quantity a t else 0).
Proof.
  intros Hm Hv. apply model_of_inv in Hm as [Hlen ->].
  assert (Hr : forall v, (value_of (rounded (engine (the_model d))) v
                          == valuation a v)%Q)
    by (intros v; rewrite (rounded_integral _ a Hv v); reflexivity).
  eexists. split; [apply run_ok, Hlen|].
  unfold report_of, range. fold (periods d).
  cbn [printed_total_intake printed_total_inventory printed_total_lost_sales].
  destruct (totals_of_filtered a (rounded (engine (the_model d)))
              (seq 0 (periods d))
              {| total_intake_qty := 0; total_inventory := 0;
                 total_lost_sales_qty := 0 |} Hr) as (H1 & H2 & H3).
  cbv zeta in H1, H2, H3.
  cbn [total_intake_qty total_inventory total_lost_sales_qty] in H1, H2, H3.
  rewrite Qplus_0_l in H1, H2, H3.
  rewrite !sumZ_days. unfold totals_of, sum_days.
  repeat split; apply int_inject_Z;
    [rewrite H1|rewrite H2|rewrite H3];
    apply inject_Z_injective;
    apply fold_seq_ext; intros i _;
    unfold indicator, quantity, lost_quantity; cbn [ending_level];
    replace (S i - 1)%nat with i by lia; reflexivity.
Qed.

Lemma totals_count_order_days_witness :
  exists r,
    run (engine_returning recorded_plan 6.8) notebook_data = inr r /\
    printed_total_intake r =
      sumZ (periods notebook_data)
           (fun t => if indicator recorded_plan t =? 1
                     then quantity recorded_plan t else 0) /\
    printed_total_inventory r =
      sumZ (periods notebook_data)
           (fun t => if indicator recorded_plan t =? 1
                     then ending_level notebook_data recorded_plan t else 0) /\
    printed_total_lost_sales r =
      sumZ (periods notebook_data)
           (fun t => if indicator recorded_plan t =? 1
                     then lost_quantity recorded_plan t else 0).
Proof.
  apply (totals_count_order_days (engine_returning recorded_plan 6.8)
           notebook_data (the_model notebook_data) recorded_plan).
  - vm_compute. reflexivity.
  - intros v. reflexivity.
Defined.

Lemma totals_of_unread (sol : Solution) (l : list nat) (acc : Totals) :
  (forall i, In i l -> ~ (value_of sol (x_ i) == 1)%Q) ->
  fold_left (add_day sol) l acc = acc.
Proof.
  revert acc. induction l as [|i l IH]; intros acc H; cbn [fold_left].
  - reflexivity.
  - unfold add_day at 2.
    destruct (Qeq_bool (value_of sol (x_ i)) 1) eqn:B.
    + exfalso. apply (H i); [simpl; auto|]. apply Qeq_bool_iff, B.
    + apply IH. intros j Hj. apply H. simpl. auto.
Qed.

(** X14. A day enters the totals only when its indicator reads 1: if
    none of the indicators the engine returns rounds to 1, the three
    printed totals are 0 whatever the other values are.  So it is for the
    plan that never orders: its lost sales are in no total. *)
Theorem indicator_must_read_one (engine : Solver -> Solution) (d : Data)
    (m : Solver) :
  model_of d = inr m ->
  (forall i, (i < periods d)%nat -> round (value_of (engine m) (x_ i)) <> 1) ->
  exists r,
    run engine d = inr r /\
    printed_total_intake r = 0 /\
    printed_total_inventory r = 0 /\
    printed_total_lost_sales r = 0.
Proof.
  intros Hm Hx. apply model_of_inv in Hm as [Hlen ->].
  eexists. split; [apply run_ok, Hlen|].
  unfold report_of, totals_of.
  cbn [printed_total_intake printed_total_inventory printed_total_lost_sales].
  rewrite totals_of_unread; [repeat split|].
  intros i Hi E. apply (Hx i); [apply range_lt, Hi|].
  unfold rounded in E. cbn [value_of] in E.
  change 1%Q with (inject_Z 1) in E.
  exact (proj1 (inject_Z_injective _ _) E).
Qed.

Lemma indicator_must_read_one_witness :
  exists r,
    run (engine_returning (no_order_plan notebook_data) 360.1) notebook_data
    = inr r /\
    printed_total_intake r = 0 /\
    printed_total_inventory r = 0 /\
    printed_total_lost_sales r = 0.
Proof.
  apply (indicator_must_read_one
           (engine_returning (no_order_plan notebook_data) 360.1)
           notebook_data (the_model notebook_data)).
  - vm_compute. reflexivity.
  - intros i _. vm_compute. discriminate.
Defined.

(** X15. Without a single period ([N <= 0]) nothing is declared: the
    engine is handed a model with no variable, no constraint and the
    constant objective 0, and the report has empty rows and zero totals,
    whatever [demand] holds. *)
Theorem empty_horizon_run (engine : Solver -> Solution) (d : Data) :
  number_of_days d <= 0 ->
  let empty := {| variables := []; constraints := []; objective := Cst 0;
                  last := last CreateSolver |} in
  model_of d = inr empty /\
  run engine d =
  inr {| printed_status := status_code (status (engine empty));
         printed_objective := objective_value (engine empty);
         printed_stock := stock_level d;
         row_day := []; row_intake := []; row_demand := []; row_inv := [];
         row_lost := [];
         printed_total_intake := 0; printed_total_inventory := 0;
         printed_total_lost_sales := 0 |}.
Proof.
  intros HN. cbv zeta.
  assert (Hn : periods d = 0%nat) by (unfold periods; lia).
  assert (Hm : the_model d =
               {| variables := []; constraints := []; objective := Cst 0;
                  last := last CreateSolver |}).
  { unfold the_model, range. fold (periods d). rewrite Hn. reflexivity. }
  split.
  - rewrite model_of_ok by lia. rewrite Hm. reflexivity.
  - rewrite run_ok by lia. rewrite Hm.
    unfold report_of, range. fold (periods d). rewrite Hn. reflexivity.
Qed.

Lemma empty_horizon_run_witness :
  model_of empty_horizon =
    inr {| variables := []; constraints := []; objective := Cst 0;
           last := last CreateSolver |} /\
  run near_one_engine empty_horizon =
  inr {| printed_status := 0; printed_objective := 6.8; printed_stock := 4;
         row_day := []; row_intake := []; row_demand := []; row_inv := [];
         row_lost := [];
         printed_total_intake := 0; printed_total_inventory := 0;
         printed_total_lost_sales := 0 |}.
Proof.
  apply (empty_horizon_run near_one_engine empty_horizon).
  vm_compute. discriminate.
Defined.

(** X16. [int] truncates towards zero: it turns a non-negative number
    into its floor and a non-positive number into its ceiling, so the
    result never lies farther from zero than the number. *)
Theorem int_towards_zero (q : Q) :
  ((0 <= q)%Q -> int q = Qfloor q) /\
  ((q <= 0)%Q -> int q = Qceiling q).
Proof.
  destruct q as [n p]. unfold Qle, Qceiling, Qfloor, int. simpl.
  rewrite !Z.mul_1_r. split; intros H.
  - apply Z.quot_div_nonneg; lia.
  - rewrite <- (Z.opp_involutive n) at 1.
    rewrite Z.quot_opp_l by discriminate.
    rewrite Z.quot_div_nonneg by lia. reflexivity.
Qed.

(** ** Variables declared for fewer days than the constraints cover *)

Lemma fold_declare_absent (l : list nat) (e : Env) (i : nat) :
  ~ In i l ->
  intake (fold_left declare_step l e) !! i = intake e !! i.
Proof.
  revert e. induction l as [|j l IH]; intros e H; cbn [fold_left].
  - reflexivity.
  - rewrite IH by (intros Hi; apply H; simpl; auto).
    cbn [declare_step intake]. apply lookup_insert_ne.
    intros ->. apply H. simpl. auto.
Qed.

(** X17. If the variables cell ran for fewer days than the constraints
    cell is asked to cover, the constraints cell raises [KeyError] on the
    first day that has no variables. *)
Theorem stale_variables (d1 d2 : Data) :
  (periods d1 < periods d2)%nat ->
  (declare_variables d1 ;; add_constraints d2) initial_env
  = inl (KeyError (periods d1)).
Proof.
  intros Hlt. unfold bind at 1. rewrite declare_variables_run.
  change (mkEnv (solver initial_env) ∅ ∅ ∅ ∅) with initial_env.
  set (e1 := fold_left declare_step (range (number_of_days d1)) initial_env).
  assert (He1 : declared (periods d1) e1) by apply declared_after.
  assert (Hnone : intake e1 !! periods d1 = None).
  { unfold e1. rewrite fold_declare_absent.
    - apply lookup_empty.
    - intros Hin. apply range_lt in Hin. lia. }
  unfold add_constraints, bind at 1. unfold range at 1. fold (periods d2).
  replace (periods d2)
    with (periods d1 + S (periods d2 - S (periods d1)))%nat at 1 by lia.
  rewrite seq_app, for_app.
  rewrite (constraint_1_loop (periods d1))
    by (try exact He1; intros i Hi; apply in_seq in Hi; lia).
  cbn [seq for_ Nat.add]. unfold bind at 1. unfold bind at 1.
  unfold getitem at 1. cbn [add_all intake]. rewrite Hnone. reflexivity.
Qed.

Lemma stale_variables_witness :
  (declare_variables one_day ;; add_constraints notebook_data) initial_env
  = inl (KeyError (periods one_day)).
Proof.
  apply (stale_variables one_day notebook_data). vm_compute. lia.
Defined.

(** * The selection notebooks *)

(** ** Loops over any environment *)

Lemma forW_pure {W} (body : nat -> MW W unit) (step : W -> nat -> W)
    (l : list nat) (w : W) :
  (forall i w', body i w' = inr (tt, step w' i)) ->
  forW l body w = inr (tt, fold_left step l w).
Proof.
  intros H. revert w. induction l as [|i l IH]; intros w; cbn [forW fold_left].
  - reflexivity.
  - unfold bindW. rewrite H. apply IH.
Qed.

Lemma mapW_pure {W A} (f : nat -> MW W A) (g : nat -> A) (l : list nat)
    (w : W) :
  (forall i, In i l -> f i w = inr (g i, w)) ->
  mapW f l w = inr (map g l, w).
Proof.
  induction l as [|i l IH]; intros H; cbn [mapW map].
  - reflexivity.
  - unfold bindW. rewrite (H i) by (simpl; auto).
    rewrite IH by (intros j Hj; apply H; simpl; auto). reflexivity.
Qed.

Lemma foldW_pure {W A} (f : A -> nat -> MW W A) (g : A -> nat -> A)
    (l : list nat) (acc : A) (w : W) :
  (forall acc' i, In i l -> f acc' i w = inr (g acc' i, w)) ->
  foldW f acc l w = inr (fold_left g l acc, w).
Proof.
  revert acc. induction l as [|i l IH]; intros acc H; cbn [foldW fold_left].
  - reflexivity.
  - unfold bindW. rewrite (H acc i) by (simpl; auto).
    apply IH. intros acc' j Hj. apply H. simpl. auto.
Qed.

(** ** Weighted sums of the selection variables *)

Lemma eval_weighted_sum (a : Assignment) (c : nat -> Z) (l : list nat) :
  (eval (valuation a) (sum_ (map (fun i => Prod (inject_Z (c i)) (V (x_ i))) l))
   == inject_Z (sum_over l (fun i => (c i * a (x_ i))%Z)))%Q.
Proof.
  unfold sum_. rewrite eval_fold_Sum. simpl eval. rewrite Qplus_0_l.
  unfold sum_over. induction l as [|i l IH]; cbn [map fold_right].
  - reflexivity.
  - rewrite IH, inject_Z_plus, inject_Z_mult. simpl eval. reflexivity.
Qed.

Lemma sum_over_ext (l : list nat) (g h : nat -> Z) :
  (forall i, In i l -> g i = h i) -> sum_over l g = sum_over l h.
Proof.
  unfold sum_over. induction l as [|i l IH]; intros H; cbn [fold_right].
  - reflexivity.
  - rewrite (H i) by (simpl; auto).
    rewrite IH by (intros j Hj; apply H; simpl; auto). reflexivity.
Qed.

Lemma sum_over_le (l : list nat) (g h : nat -> Z) :
  (forall i, In i l -> g i <= h i) -> sum_over l g <= sum_over l h.
Proof.
  unfold sum_over. induction l as [|i l IH]; intros H; cbn [fold_right].
  - lia.
  - assert (g i <= h i) by (apply H; simpl; auto).
    assert (fold_right (fun i r => g i + r) 0 l
            <= fold_right (fun i r => h i + r) 0 l)
      by (apply IH; intros j Hj; apply H; simpl; auto).
    lia.
Qed.

Lemma sum_over_scale (l : list nat) (c : Z) (g : nat -> Z) :
  sum_over l (fun i => c * g i) = c * sum_over l g.
Proof.
  unfold sum_over. induction l as [|i l IH]; cbn [fold_right]; [lia|].
  rewrite IH. lia.
Qed.

Lemma sum_over_plus (l : list nat) (g h : nat -> Z) :
  sum_over l (fun i => g i + h i) = sum_over l g + sum_over l h.
Proof.
  unfold sum_over. induction l as [|i l IH]; cbn [fold_right]; [lia|].
  rewrite IH. lia.
Qed.

(** A sum over [0 .. n-1] with a single non-zero index. *)
Lemma sum_over_point (n i : nat) (c : Z) :
  sum_over (seq 0 n) (fun j => if Nat.eqb j i then c else 0)
  = if Nat.ltb i n then c else 0.
Proof. apply sum_days_point. Qed.

(** ** The knapsack notebook *)

Module KnapsackFacts.

Import Knapsack.

Ltac run_cells :=
  unfold bindW, get_item, get_x; cbv beta iota;
  repeat (match goal with
          | H : ?m !! ?i = _ |- context [?m !! ?i] => rewrite H
          end; cbv beta iota).

Lemma pack_items_fold (rand : nat -> Z -> Z -> Z) (n s : nat) (e : Env) :
  let e' := fold_left (items_step rand) (seq s n) e in
  solver e' = solver e /\ maximization e' = maximization e /\
  x e' = x e /\
  (forall i, (s <= i < s + n)%nat ->
     item e' !! i =
     Some {| value := rand (draws e + 2 * (i - s))%nat 1 5;
             weight := rand (draws e + 2 * (i - s) + 1)%nat 10 30 |}) /\
  (forall i, (i < s)%nat -> item e' !! i = item e !! i).
Proof.
  revert s e. induction n as [|n IH]; intros s e; cbn [seq fold_left].
  - cbv zeta. split; [reflexivity|]. split; [reflexivity|].
    split; [reflexivity|]. split; [intros i Hi; lia|reflexivity].
  - cbv zeta.
    destruct (IH (S s) (items_step rand e s)) as (H1 & H2 & H3 & H4 & H5).
    cbv zeta in H1, H2, H3, H4, H5.
    split; [rewrite H1; reflexivity|].
    split; [rewrite H2; reflexivity|].
    split; [rewrite H3; reflexivity|]. split.
    + intros i Hi. destruct (Nat.eq_dec i s) as [->|Hne].
      * rewrite H5 by lia. cbn [items_step item].
        rewrite lookup_insert_eq. f_equal. f_equal; f_equal; lia.
      * rewrite H4 by lia. cbn [items_step draws].
        f_equal. f_equal; f_equal; lia.
    + intros i Hi. rewrite H5 by lia. cbn [items_step item].
      apply lookup_insert_ne. lia.
Qed.

Lemma pack_make_items_spec (rand : nat -> Z -> Z -> Z) (d : Data) :
  exists e,
    make_items rand d initial_env = inr (tt, e) /\
    solver e = CreateSolver /\ maximization e = false /\
    forall i, In i (range (number_of_items d)) ->
      item e !! i = Some (drawn rand i).
Proof.
  eexists. split.
  - unfold make_items, bindW at 1. cbn [reset_item].
    apply (forW_pure _ (items_step rand)). intros i w. reflexivity.
  - destruct (pack_items_fold rand (Z.to_nat (number_of_items d)) 0
                {| solver := solver initial_env;
                   maximization := maximization initial_env;
                   item := ∅; x := x initial_env;
                   draws := draws initial_env |})
      as (H1 & H2 & _ & H4 & _).
    cbv zeta in H1, H2, H4. unfold range.
    split; [rewrite H1; reflexivity|]. split; [rewrite H2; reflexivity|].
    intros i Hi. apply in_seq in Hi. rewrite H4 by lia.
    unfold drawn. cbn [draws initial_env]. f_equal. f_equal; f_equal; lia.
Qed.

Lemma pack_declare_fold (l : list nat) (e : Env) :
  let e' := fold_left declare_step l e in
  solver e' =
    {| variables := variables (solver e)
                    ++ map (fun i => mkVar (x_ i) true 0%Q (Some 1%Q)) l;
       constraints := constraints (solver e);
       objective := objective (solver e); last := last (solver e) |} /\
  maximization e' = maximization e /\ item e' = item e /\
  forall i, In i l \/ x e !! i = Some (x_ i) -> x e' !! i = Some (x_ i).
Proof.
  revert e. induction l as [|j l IH]; intros e; cbn [fold_left map].
  - cbv zeta. rewrite app_nil_r. destruct (solver e) as [vs cs ob la].
    split; [reflexivity|]. split; [reflexivity|]. split; [reflexivity|].
    intros i [[]|H]. exact H.
  - cbv zeta. destruct (IH (declare_step e j)) as (H1 & H2 & H3 & H4).
    cbv zeta in H1, H2, H3, H4. rewrite H1, H2, H3.
    cbn [declare_step solver maximization item register variables
         constraints objective last].
    rewrite <- app_assoc.
    split; [reflexivity|]. split; [reflexivity|]. split; [reflexivity|].
    intros i Hi. apply H4.
    destruct Hi as [[->|Hi]|Hi].
    + right. cbn [declare_step x]. apply lookup_insert_eq.
    + left. exact Hi.
    + right. cbn [declare_step x]. destruct (Nat.eq_dec j i) as [->|Hne].
      * apply lookup_insert_eq.
      * rewrite lookup_insert_ne by exact Hne. exact Hi.
Qed.

Lemma pack_declare_variables_spec (d : Data) (e : Env) :
  exists e',
    declare_variables d e = inr (tt, e') /\
    solver e' =
      {| variables := map (fun i => mkVar (x_ i) true 0%Q (Some 1%Q))
                          (range (number_of_items d));
         constraints := []; objective := Cst 0;
         last := last CreateSolver |} /\
    maximization e' = false /\ item e' = item e /\
    forall i, In i (range (number_of_items d)) -> x e' !! i = Some (x_ i).
Proof.
  eexists. split.
  - unfold declare_variables, bindW at 1. cbn [new_solver].
    apply (forW_pure _ declare_step). intros i w. reflexivity.
  - destruct (pack_declare_fold (range (number_of_items d))
                {| solver := CreateSolver; maximization := false;
                   item := item e; x := ∅; draws := draws e |})
      as (H1 & H2 & H3 & H4).
    cbv zeta in H1, H2, H3, H4. rewrite H1, H2, H3.
    split; [reflexivity|]. split; [reflexivity|]. split; [reflexivity|].
    intros i Hi. apply H4. left. exact Hi.
Qed.

Lemma pack_add_constraint_spec (rand : nat -> Z -> Z -> Z) (d : Data) (e : Env) :
  ready rand d e ->
  add_constraint d e =
  Add (c_le (sum_ (map (fun i => Prod (inject_Z (weight (drawn rand i)))
                                      (V (x_ i)))
                       (range (number_of_items d))))
            (Cst (inject_Z (max_weight d)))) e.
Proof.
  intros He. unfold add_constraint, bindW at 1.
  rewrite (mapW_pure _ (fun i => Prod (inject_Z (weight (drawn rand i)))
                                      (V (x_ i)))).
  - reflexivity.
  - intros i Hi. destruct (He i Hi) as [Hit Hx]. run_cells. reflexivity.
Qed.

Lemma pack_set_objective_spec (rand : nat -> Z -> Z -> Z) (d : Data) (e : Env) :
  ready rand d e ->
  set_objective d e =
  Maximize (sum_ (map (fun i => Prod (inject_Z (value (drawn rand i)))
                                     (V (x_ i)))
                      (range (number_of_items d)))) e.
Proof.
  intros He. unfold set_objective, bindW at 1.
  rewrite (mapW_pure _ (fun i => Prod (inject_Z (value (drawn rand i)))
                                      (V (x_ i)))).
  - reflexivity.
  - intros i Hi. destruct (He i Hi) as [Hit Hx]. run_cells. reflexivity.
Qed.

(** The building cells never raise and leave [the_model], to be
    maximized. *)
Lemma pack_build_spec (rand : nat -> Z -> Z -> Z) (d : Data) :
  exists e,
    build rand d initial_env = inr (tt, e) /\
    solver e = the_model rand d /\ maximization e = true /\
    ready rand d e.
Proof.
  destruct (pack_make_items_spec rand d) as (e1 & R1 & _ & _ & Hit).
  destruct (pack_declare_variables_spec d e1) as (e2 & R2 & S2 & _ & I2 & Hx).
  assert (He2 : ready rand d e2).
  { intros i Hi. split; [rewrite I2; apply Hit, Hi|apply Hx, Hi]. }
  eexists. split.
  - unfold build, bindW at 1. rewrite R1.
    unfold bindW at 1. rewrite R2.
    unfold bindW at 1. rewrite (pack_add_constraint_spec rand d e2 He2).
    cbn [Add]. rewrite (pack_set_objective_spec rand d).
    + reflexivity.
    + intros i Hi. apply (He2 i Hi).
  - cbn [Maximize with_solver solver maximization item x].
    rewrite S2. split; [reflexivity|]. split; [reflexivity|].
    intros i Hi. apply (He2 i Hi).
Qed.

Lemma pack_model_of_spec (rand : nat -> Z -> Z -> Z) (d : Data) :
  model_of rand d = inr (the_model rand d, true).
Proof.
  destruct (pack_build_spec rand d) as (e & R & S & Mx & _).
  unfold model_of. rewrite R, S, Mx. reflexivity.
Qed.

Lemma pack_integer (rand : nat -> Z -> Z -> Z) (d : Data) (s : Solver)
    (i : nat) :
  variables s = variables (the_model rand d) ->
  In i (range (number_of_items d)) ->
  is_integer s (x_ i) = true.
Proof.
  intros Hv Hi. apply is_integer_declared; rewrite Hv;
    cbn [variables the_model].
  - apply Forall_map_iff. intros j _. reflexivity.
  - rewrite map_map. cbn [name]. apply in_map_iff. exists i. auto.
Qed.

Lemma pack_tally_spec (rand : nat -> Z -> Z -> Z) (d : Data) (e : Env) :
  ready rand d e ->
  variables (solver e) = variables (the_model rand d) ->
  tally d e =
  inr (fold_left (tally_step rand (rounded (last (solver e))))
                 (range (number_of_items d)) (0, 0), e).
Proof.
  intros He Hv. unfold tally. apply foldW_pure. intros acc i Hi.
  destruct (He i Hi) as [Hit Hx]. run_cells.
  unfold solution_value, tally_step. cbv beta iota.
  rewrite (read_integer _ _ (pack_integer rand d _ i Hv Hi)).
  destruct (Qeq_bool (value_of (rounded (last (solver e))) (x_ i)) 1);
    run_cells; reflexivity.
Qed.

Lemma pack_run_spec (rand : nat -> Z -> Z -> Z) (engine : Solver -> bool -> Solution)
    (d : Data) :
  run rand engine d
  = inr (report_of rand d (rounded (engine (the_model rand d) true))).
Proof.
  destruct (pack_build_spec rand d) as (e & R & S & Mx & He).
  unfold run, notebook, bindW at 1. rewrite R.
  unfold bindW at 1. unfold Solve. rewrite S, Mx.
  unfold report, bindW. cbn [Objective_Value].
  rewrite (pack_tally_spec rand d);
    [reflexivity|intros i Hi; apply (He i Hi)|].
  cbn [solver with_solver variables]. rewrite S. reflexivity.
Qed.

(** *** What the model means *)

Lemma pack_feasible_the_model (rand : nat -> Z -> Z -> Z) (d : Data)
    (a : Assignment) :
  feasible (the_model rand d) a <->
  (forall i, In i (range (number_of_items d)) -> 0 <= a (x_ i) <= 1) /\
  packed_weight rand d a <= max_weight d.
Proof.
  unfold feasible, satisfies, the_model.
  cbn [variables constraints].
  rewrite Forall_map_iff, Forall_cons_iff, Forall_nil_iff.
  cbn [holds]. rewrite eval_weighted_sum. simpl eval.
  rewrite <- Zle_Qle. fold (packed_weight rand d a).
  assert (Hdom : forall i,
            in_domain a (mkVar (x_ i) true 0%Q (Some 1%Q)) <->
            0 <= a (x_ i) <= 1).
  { intros i. unfold in_domain, valuation. cbn [lb ub name].
    change 0%Q with (inject_Z 0). change 1%Q with (inject_Z 1).
    rewrite <- !Zle_Qle. reflexivity. }
  split.
  - intros [H1 [H2 _]]. split; [|exact H2].
    intros i Hi. apply Hdom, H1, Hi.
  - intros [H1 H2]. split; [|split; [exact H2|exact I]].
    intros i Hi. apply Hdom, H1, Hi.
Qed.

Lemma pack_cost_the_model (rand : nat -> Z -> Z -> Z) (d : Data) (a : Assignment) :
  (cost (the_model rand d) a == inject_Z (packed_value rand d a))%Q.
Proof. unfold cost, the_model. cbn [objective]. apply eval_weighted_sum. Qed.

Lemma pack_model_of_inv (rand : nat -> Z -> Z -> Z) (d : Data) (m : Solver)
    (dir : bool) :
  model_of rand d = inr (m, dir) -> m = the_model rand d /\ dir = true.
Proof. rewrite pack_model_of_spec. intros H. injection H as -> ->. auto. Qed.

Lemma pack_drawn_in_range (rand : nat -> Z -> Z -> Z) (i : nat) :
  randint_ok rand ->
  1 <= value (drawn rand i) <= 5 /\ 10 <= weight (drawn rand i) <= 30.
Proof.
  intros H. unfold drawn. cbn [value weight]. split; apply H; lia.
Qed.

Lemma walk_ok : randint_ok walk.
Proof.
  intros k lo hi H. unfold walk.
  pose proof (Z.mod_pos_bound (Z.of_nat k) (hi - lo + 1)). lia.
Qed.

(** X18. The knapsack notebook never raises: for every item count,
    weight limit and random draw it builds a model of one binary variable
    an item and a single constraint, asks the engine to maximize, and
    prints the engine's status and objective value. *)
Theorem knapsack_runs (rand : nat -> Z -> Z -> Z)
    (engine : Solver -> bool -> Solution) (d : Data) :
  exists m r,
    model_of rand d = inr (m, true) /\
    run rand engine d = inr r /\
    length (variables m) = Z.to_nat (number_of_items d) /\
    Forall (fun vd => integer vd = true /\ lb vd = 0%Q /\ ub vd = Some 1%Q)
           (variables m) /\
    length (constraints m) = 1%nat /\
    printed_status r = status_code (status (engine m true)) /\
    printed_objective r = objective_value (engine m true).
Proof.
  exists (the_model rand d),
    (report_of rand d (rounded (engine (the_model rand d) true))).
  split; [apply pack_model_of_spec|]. split; [apply pack_run_spec|].
  unfold the_model, range. cbn [variables constraints].
  rewrite length_map, length_seq. split; [reflexivity|].
  split; [|repeat split].
  apply Forall_map_iff. intros i _. repeat split.
Qed.

Lemma pack_tally_fold (rand : nat -> Z -> Z -> Z) (a : Assignment) (sol : Solution)
    (l : list nat) (acc : Z * Z) :
  (forall v, value_of sol v == valuation a v)%Q ->
  (forall i, In i l -> 0 <= a (x_ i) <= 1) ->
  fold_left (tally_step rand sol) l acc =
  (fst acc + sum_over l (fun i => a (x_ i)),
   snd acc + sum_over l (fun i => weight (drawn rand i) * a (x_ i))).
Proof.
  intros Hv. revert acc.
  induction l as [|i l IH]; intros acc H; cbn [fold_left].
  - unfold sum_over. simpl. destruct acc. simpl. f_equal; lia.
  - rewrite IH by (intros j Hj; apply H; simpl; auto).
    unfold tally_step. rewrite (reads_one a sol i Hv).
    assert (Hx : 0 <= a (x_ i) <= 1) by (apply H; simpl; auto).
    unfold sum_over. cbn [fold_right].
    destruct (Z.eqb_spec (a (x_ i)) 1) as [E|E]; cbn [fst snd].
    + rewrite E. f_equal; lia.
    + assert (E0 : a (x_ i) = 0) by lia. rewrite E0. f_equal; lia.
Qed.

(** X19. When the engine returns a feasible pack, the printed count is
    the number of items packed and the printed total weight is the weight
    of the pack, which is within the weight limit. *)
Theorem reported_pack (rand : nat -> Z -> Z -> Z)
    (engine : Solver -> bool -> Solution) (d : Data) (m : Solver)
    (dir : bool) (a : Assignment) :
  model_of rand d = inr (m, dir) ->
  (forall v, value_of (engine m dir) v == valuation a v)%Q ->
  feasible m a ->
  exists r,
    run rand engine d = inr r /\
    number_of_items_packed r = packed_count d a /\
    total_weight_used r = packed_weight rand d a /\
    total_weight_used r <= max_weight d.
Proof.
  intros Hm Hv Hf. apply pack_model_of_inv in Hm as [-> ->].
  apply pack_feasible_the_model in Hf as [Hdom Hw].
  assert (Hr : forall v,
             (value_of (rounded (engine (the_model rand d) true)) v
              == valuation a v)%Q)
    by (intros v; rewrite (rounded_integral _ a Hv v); reflexivity).
  eexists. split; [apply pack_run_spec|].
  unfold report_of. cbn [number_of_items_packed total_weight_used].
  rewrite (pack_tally_fold rand a) by assumption. cbn [fst snd].
  unfold packed_count, packed_weight in *. repeat split; lia.
Qed.

Lemma small_pack_feasible : feasible (the_model walk small_data) small_pack.
Proof. apply feasibleb_spec. vm_compute. reflexivity. Qed.

Lemma reported_pack_witness :
  exists r,
    run walk (engine_packing small_pack 5) small_data = inr r /\
    number_of_items_packed r = packed_count small_data small_pack /\
    total_weight_used r = packed_weight walk small_data small_pack /\
    total_weight_used r <= max_weight small_data.
Proof.
  apply (reported_pack walk (engine_packing small_pack 5) small_data
           (the_model walk small_data) true small_pack).
  - vm_compute. reflexivity.
  - intros v. reflexivity.
  - apply small_pack_feasible.
Defined.

(** X20. Every item weighs between 10 and 30 and is worth between 1 and
    5, so a feasible pack of [k] items weighs at least [10 k], holds at
    most a tenth of the weight limit in items, and is worth between [k]
    and [5 k]. *)
Theorem pack_bounds (rand : nat -> Z -> Z -> Z) (d : Data) (m : Solver)
    (dir : bool) (a : Assignment) :
  randint_ok rand ->
  model_of rand d = inr (m, dir) ->
  feasible m a ->
  10 * packed_count d a <= packed_weight rand d a /\
  10 * packed_count d a <= max_weight d /\
  packed_count d a <= packed_value rand d a /\
  packed_value rand d a <= 5 * packed_count d a.
Proof.
  intros Hr Hm Hf. apply pack_model_of_inv in Hm as [-> ->].
  apply pack_feasible_the_model in Hf as [Hdom Hw].
  unfold packed_count, packed_weight, packed_value in *.
  rewrite <- !sum_over_scale.
  assert (H1 : sum_over (range (number_of_items d)) (fun i => 10 * a (x_ i))
               <= sum_over (range (number_of_items d))
                    (fun i => weight (drawn rand i) * a (x_ i))).
  { apply sum_over_le. intros i Hi.
    destruct (pack_drawn_in_range rand i Hr) as [_ Hwt].
    specialize (Hdom i Hi). nia. }
  assert (H2 : sum_over (range (number_of_items d)) (fun i => a (x_ i))
               <= sum_over (range (number_of_items d))
                    (fun i => value (drawn rand i) * a (x_ i))).
  { apply sum_over_le. intros i Hi.
    destruct (pack_drawn_in_range rand i Hr) as [Hval _].
    specialize (Hdom i Hi). nia. }
  assert (H3 : sum_over (range (number_of_items d))
                 (fun i => value (drawn rand i) * a (x_ i))
               <= sum_over (range (number_of_items d))
                    (fun i => 5 * a (x_ i))).
  { apply sum_over_le. intros i Hi.
    destruct (pack_drawn_in_range rand i Hr) as [Hval _].
    specialize (Hdom i Hi). nia. }
  lia.
Qed.

Lemma pack_bounds_witness :
  10 * packed_count small_data small_pack
  <= packed_weight walk small_data small_pack /\
  10 * packed_count small_data small_pack <= max_weight small_data /\
  packed_count small_data small_pack
  <= packed_value walk small_data small_pack /\
  packed_value walk small_data small_pack
  <= 5 * packed_count small_data small_pack.
Proof.
  apply (pack_bounds walk small_data (the_model walk small_data) true
           small_pack).
  - apply walk_ok.
  - vm_compute. reflexivity.
  - apply small_pack_feasible.
Defined.

Lemma sum_also_pack (c : nat -> Z) (a : Assignment) (n i : nat) :
  (i < n)%nat -> a (x_ i) = 0 ->
  sum_over (seq 0 n) (fun j => c j * also_pack a i (x_ j))
  = sum_over (seq 0 n) (fun j => c j * a (x_ j)) + c i.
Proof.
  intros Hi Hx.
  rewrite (sum_over_ext _ _
             (fun j => c j * a (x_ j) + (if Nat.eqb j i then c i else 0))).
  - rewrite sum_over_plus, sum_over_point.
    replace (i <? n)%nat with true by (symmetry; apply Nat.ltb_lt; lia).
    reflexivity.
  - intros j _. cbn [also_pack].
    destruct (Nat.eqb_spec j i) as [->|Hne]; [rewrite Hx|]; lia.
Qed.

(** X21. An optimal pack is full: no item left out of it fits in the
    weight that remains. *)
Theorem optimal_pack_is_maximal (rand : nat -> Z -> Z -> Z) (d : Data)
    (m : Solver) (dir : bool) (a : Assignment) (i : nat) :
  randint_ok rand ->
  model_of rand d = inr (m, dir) ->
  best m a ->
  (i < Z.to_nat (number_of_items d))%nat ->
  a (x_ i) = 0 ->
  max_weight d - packed_weight rand d a < weight (drawn rand i).
Proof.
  intros Hr Hm [Hf Hbest] Hi Hx. apply pack_model_of_inv in Hm as [-> ->].
  destruct (Z.lt_ge_cases (max_weight d - packed_weight rand d a)
              (weight (drawn rand i))) as [Hlt|Hge]; [exact Hlt|exfalso].
  apply pack_feasible_the_model in Hf as [Hdom Hw].
  assert (Hb : feasible (the_model rand d) (also_pack a i)).
  { apply pack_feasible_the_model. split.
    - intros j Hj. cbn [also_pack]. specialize (Hdom j Hj).
      destruct (Nat.eqb j i); lia.
    - unfold packed_weight, range in *.
      rewrite (sum_also_pack (fun j => weight (drawn rand j))) by assumption.
      lia. }
  specialize (Hbest _ Hb). rewrite !pack_cost_the_model, <- Zle_Qle in Hbest.
  unfold packed_value, range in Hbest.
  rewrite (sum_also_pack (fun j => value (drawn rand j))) in Hbest
    by assumption.
  destruct (pack_drawn_in_range rand i Hr) as [Hval _]. lia.
Qed.

Lemma small_pack_best : best (the_model walk small_data) small_pack.
Proof.
  split; [apply small_pack_feasible|]. intros b Hb.
  rewrite !pack_cost_the_model, <- Zle_Qle.
  apply pack_feasible_the_model in Hb as [Hdom Hw].
  assert (H0 := Hdom 0%nat ltac:(vm_compute; auto)).
  assert (H1 := Hdom 1%nat ltac:(vm_compute; auto)).
  assert (H2 := Hdom 2%nat ltac:(vm_compute; auto)).
  assert (Ew : packed_weight walk small_data b
               = 11 * b (x_ 0) + (13 * b (x_ 1) + (15 * b (x_ 2) + 0)))
    by reflexivity.
  assert (Ev : packed_value walk small_data b
               = 1 * b (x_ 0) + (3 * b (x_ 1) + (5 * b (x_ 2) + 0)))
    by reflexivity.
  assert (Es : packed_value walk small_data small_pack = 5) by reflexivity.
  rewrite Ew in Hw. rewrite Ev, Es. cbn [max_weight small_data] in Hw. lia.
Qed.

Lemma optimal_pack_is_maximal_witness :
  max_weight small_data - packed_weight walk small_data small_pack
  < weight (drawn walk 0).
Proof.
  apply (optimal_pack_is_maximal walk small_data (the_model walk small_data)
           true small_pack 0).
  - apply walk_ok.
  - vm_compute. reflexivity.
  - apply small_pack_best.
  - vm_compute. lia.
  - reflexivity.
Defined.

Lemma sum_over_zero (l : list nat) : sum_over l (fun _ => 0) = 0.
Proof. unfold sum_over. induction l as [|i l IH]; simpl; lia. Qed.

(** X22. The knapsack model is feasible exactly when the weight limit is
    not negative: the empty pack always fits a non-negative limit, and
    under a negative limit no pack is feasible, since no item has a
    negative weight. *)
Theorem knapsack_feasibility (rand : nat -> Z -> Z -> Z) (d : Data)
    (m : Solver) (dir : bool) :
  randint_ok rand ->
  model_of rand d = inr (m, dir) ->
  (0 <= max_weight d -> feasible m (fun _ => 0)) /\
  (max_weight d < 0 -> forall a, ~ feasible m a).
Proof.
  intros Hr Hm. apply pack_model_of_inv in Hm as [-> ->]. split.
  - intros Hmax. apply pack_feasible_the_model. split; [intros; lia|].
    unfold packed_weight.
    rewrite (sum_over_ext _ _ (fun _ => 0)) by (intros; lia).
    rewrite sum_over_zero. exact Hmax.
  - intros Hmax a Hf. apply pack_feasible_the_model in Hf as [Hdom Hw].
    assert (0 <= packed_weight rand d a); [|lia].
    unfold packed_weight. rewrite <- (sum_over_zero (range (number_of_items d))).
    apply sum_over_le. intros i Hi.
    destruct (pack_drawn_in_range rand i Hr) as [_ Hwt].
    specialize (Hdom i Hi). nia.
Qed.

Lemma knapsack_feasibility_witness :
  (0 <= max_weight no_room -> feasible (the_model walk no_room) (fun _ => 0)) /\
  (max_weight no_room < 0 -> forall a, ~ feasible (the_model walk no_room) a).
Proof.
  apply (knapsack_feasibility walk no_room (the_model walk no_room) true).
  - apply walk_ok.
  - vm_compute. reflexivity.
Defined.

(** The empty pack is feasible and no feasible pack is worth more than
    some bound. *)
Lemma knapsack_feasibility_aux (rand : nat -> Z -> Z -> Z) (d : Data) :
  randint_ok rand -> 0 <= max_weight d ->
  exists U,
    feasible (the_model rand d) (fun _ => 0) /\
    forall a, feasible (the_model rand d) a -> packed_value rand d a <= U.
Proof.
  intros Hr Hmax.
  exists (sum_over (range (number_of_items d)) (fun _ => 5)). split.
  - apply pack_feasible_the_model. split; [intros; lia|].
    unfold packed_weight.
    rewrite (sum_over_ext _ _ (fun _ => 0)) by (intros; lia).
    rewrite sum_over_zero. exact Hmax.
  - intros a Hf. apply pack_feasible_the_model in Hf as [Hdom _].
    unfold packed_value. apply sum_over_le. intros i Hi.
    destruct (pack_drawn_in_range rand i Hr) as [Hval _].
    specialize (Hdom i Hi). nia.
Qed.

(** X23. Under a non-negative weight limit the knapsack model has a best
    pack: the engine's correct answer is never INFEASIBLE or UNBOUNDED. *)
Theorem best_pack_exists (rand : nat -> Z -> Z -> Z) (d : Data) (m : Solver)
    (dir : bool) :
  randint_ok rand ->
  model_of rand d = inr (m, dir) ->
  0 <= max_weight d ->
  exists a, best m a.
Proof.
  intros Hr Hm Hmax.
  destruct (knapsack_feasibility_aux rand d Hr Hmax) as [U HU].
  apply pack_model_of_inv in Hm as [-> ->].
  set (P := fun n : nat =>
              exists a, feasible (the_model rand d) a /\
                        U - packed_value rand d a = Z.of_nat n).
  assert (Hsome : exists n, P n).
  { destruct HU as [Hzero Hall].
    exists (Z.to_nat (U - packed_value rand d (fun _ => 0))).
    exists (fun _ => 0). split; [exact Hzero|].
    rewrite Z2Nat.id; [reflexivity|]. specialize (Hall _ Hzero). lia. }
  destruct (dec_inh_nat_subset_has_unique_least_element P
              (fun n => classic (P n)) Hsome)
    as (n & ((a & Hf & Hn) & Hleast) & _).
  exists a. split; [exact Hf|]. intros b Hb.
  rewrite !pack_cost_the_model, <- Zle_Qle.
  assert (Hle : (n <= Z.to_nat (U - packed_value rand d b))%nat).
  { apply Hleast. exists b. split; [exact Hb|].
    rewrite Z2Nat.id; [reflexivity|]. destruct HU as [_ Hall].
    specialize (Hall _ Hb). lia. }
  destruct HU as [_ Hall]. specialize (Hall _ Hb). lia.
Qed.

Lemma best_pack_exists_witness :
  exists a, best (the_model walk small_data) a.
Proof.
  apply (best_pack_exists walk small_data (the_model walk small_data) true).
  - apply walk_ok.
  - vm_compute. reflexivity.
  - vm_compute. discriminate.
Defined.

End KnapsackFacts.

(** ** The purchase notebook *)

Module PurchaseFacts.

Import Purchase.

Ltac run_cells :=
  unfold bindW, get_SKU, get_x; cbv beta iota;
  repeat (match goal with
          | H : ?m !! ?i = _ |- context [?m !! ?i] => rewrite H
          end; cbv beta iota).

Lemma buy_SKUs_fold (rand : nat -> Z -> Z -> Z) (n s : nat) (e : Env) :
  let e' := fold_left (SKUs_step rand) (seq s n) e in
  solver e' = solver e /\ maximization e' = maximization e /\
  x e' = x e /\
  (forall i, (s <= i < s + n)%nat ->
     SKU e' !! i =
     Some {| p := rand (draws e + 2 * (i - s))%nat 20 200;
             f := (inject_Z (rand (draws e + 2 * (i - s))%nat 20%Z 200%Z
                             * rand (draws e + 2 * (i - s) + 1)%nat 5%Z 20%Z)
                   / 100)%Q |}) /\
  (forall i, (i < s)%nat -> SKU e' !! i = SKU e !! i).
Proof.
  revert s e. induction n as [|n IH]; intros s e; cbn [seq fold_left].
  - cbv zeta. split; [reflexivity|]. split; [reflexivity|].
    split; [reflexivity|]. split; [intros i Hi; lia|reflexivity].
  - cbv zeta.
    destruct (IH (S s) (SKUs_step rand e s)) as (H1 & H2 & H3 & H4 & H5).
    cbv zeta in H1, H2, H3, H4, H5.
    split; [rewrite H1; reflexivity|].
    split; [rewrite H2; reflexivity|].
    split; [rewrite H3; reflexivity|]. split.
    + intros i Hi. destruct (Nat.eq_dec i s) as [->|Hne].
      * rewrite H5 by lia. cbn [SKUs_step SKU].
        rewrite lookup_insert_eq.
        replace (draws e + 2 * (s - s))%nat with (draws e) by lia.
        replace (draws e + 1)%nat with (S (draws e)) by lia. reflexivity.
      * rewrite H4 by lia. cbn [SKUs_step draws].
        replace (S (S (draws e)) + 2 * (i - S s))%nat
          with (draws e + 2 * (i - s))%nat by lia.
        reflexivity.
    + intros i Hi. rewrite H5 by lia. cbn [SKUs_step SKU].
      apply lookup_insert_ne. lia.
Qed.

Lemma buy_make_SKUs_spec (rand : nat -> Z -> Z -> Z) (d : Data) :
  exists e,
    make_SKUs rand d initial_env = inr (tt, e) /\
    forall i, In i (range (number_of_SKUs d)) ->
      SKU e !! i = Some (drawn rand i).
Proof.
  eexists. split.
  - unfold make_SKUs, bindW at 1. cbn [reset_SKU].
    apply (forW_pure _ (SKUs_step rand)). intros i w. reflexivity.
  - destruct (buy_SKUs_fold rand (Z.to_nat (number_of_SKUs d)) 0
                {| solver := solver initial_env;
                   maximization := maximization initial_env;
                   SKU := ∅; x := x initial_env;
                   draws := draws initial_env |})
      as (_ & _ & _ & H4 & _).
    cbv zeta in H4. unfold range.
    intros i Hi. apply in_seq in Hi. rewrite H4 by lia.
    unfold drawn, price, percent. cbn [draws initial_env].
    replace (0 + 2 * (i - 0))%nat with (2 * i)%nat by lia. reflexivity.
Qed.

Lemma buy_declare_fold (l : list nat) (e : Env) :
  let e' := fold_left declare_step l e in
  solver e' =
    {| variables := variables (solver e)
                    ++ map (fun i => mkVar (x_ i) true 0%Q infinity) l;
       constraints := constraints (solver e);
       objective := objective (solver e); last := last (solver e) |} /\
  maximization e' = maximization e /\ SKU e' = SKU e /\
  forall i, In i l \/ x e !! i = Some (x_ i) -> x e' !! i = Some (x_ i).
Proof.
  revert e. induction l as [|j l IH]; intros e; cbn [fold_left map].
  - cbv zeta. rewrite app_nil_r. destruct (solver e) as [vs cs ob la].
    split; [reflexivity|]. split; [reflexivity|]. split; [reflexivity|].
    intros i [[]|H]. exact H.
  - cbv zeta. destruct (IH (declare_step e j)) as (H1 & H2 & H3 & H4).
    cbv zeta in H1, H2, H3, H4. rewrite H1, H2, H3.
    cbn [declare_step solver maximization SKU register variables
         constraints objective last].
    rewrite <- app_assoc.
    split; [reflexivity|]. split; [reflexivity|]. split; [reflexivity|].
    intros i Hi. apply H4.
    destruct Hi as [[->|Hi]|Hi].
    + right. cbn [declare_step x]. apply lookup_insert_eq.
    + left. exact Hi.
    + right. cbn [declare_step x]. destruct (Nat.eq_dec j i) as [->|Hne].
      * apply lookup_insert_eq.
      * rewrite lookup_insert_ne by exact Hne. exact Hi.
Qed.

Lemma buy_declare_variables_spec (d : Data) (e : Env) :
  exists e',
    declare_variables d e = inr (tt, e') /\
    solver e' =
      {| variables := map (fun i => mkVar (x_ i) true 0%Q infinity)
                          (range (number_of_SKUs d));
         constraints := []; objective := Cst 0;
         last := last CreateSolver |} /\
    SKU e' = SKU e /\
    forall i, In i (range (number_of_SKUs d)) -> x e' !! i = Some (x_ i).
Proof.
  eexists. split.
  - unfold declare_variables, bindW at 1. cbn [new_solver].
    apply (forW_pure _ declare_step). intros i w. reflexivity.
  - destruct (buy_declare_fold (range (number_of_SKUs d))
                {| solver := CreateSolver; maximization := false;
                   SKU := SKU e; x := ∅; draws := draws e |})
      as (H1 & _ & H3 & H4).
    cbv zeta in H1, H3, H4. rewrite H1, H3.
    split; [reflexivity|]. split; [reflexivity|].
    intros i Hi. apply H4. left. exact Hi.
Qed.

Lemma buy_add_constraint_spec (rand : nat -> Z -> Z -> Z) (d : Data) (e : Env) :
  ready rand d e ->
  add_constraint d e =
  Add (c_le (sum_ (map (fun i => Prod (inject_Z (p (drawn rand i))) (V (x_ i)))
                       (range (number_of_SKUs d))))
            (Cst (inject_Z (B d)))) e.
Proof.
  intros He. unfold add_constraint, bindW at 1.
  rewrite (mapW_pure _ (fun i => Prod (inject_Z (p (drawn rand i)))
                                      (V (x_ i)))).
  - reflexivity.
  - intros i Hi. destruct (He i Hi) as [Hit Hx]. run_cells. reflexivity.
Qed.

Lemma buy_set_objective_spec (rand : nat -> Z -> Z -> Z) (d : Data) (e : Env) :
  ready rand d e ->
  set_objective d e =
  Maximize (sum_ (map (fun i => Prod (f (drawn rand i)) (V (x_ i)))
                      (range (number_of_SKUs d)))) e.
Proof.
  intros He. unfold set_objective, bindW at 1.
  rewrite (mapW_pure _ (fun i => Prod (f (drawn rand i)) (V (x_ i)))).
  - reflexivity.
  - intros i Hi. destruct (He i Hi) as [Hit Hx]. run_cells. reflexivity.
Qed.

(** The building cells never raise and leave [the_model], to be
    maximized. *)
Lemma buy_build_spec (rand : nat -> Z -> Z -> Z) (d : Data) :
  exists e,
    build rand d initial_env = inr (tt, e) /\
    solver e = the_model rand d /\ maximization e = true /\
    ready rand d e.
Proof.
  destruct (buy_make_SKUs_spec rand d) as (e1 & R1 & Hit).
  destruct (buy_declare_variables_spec d e1) as (e2 & R2 & S2 & I2 & Hx).
  assert (He2 : ready rand d e2).
  { intros i Hi. split; [rewrite I2; apply Hit, Hi|apply Hx, Hi]. }
  eexists. split.
  - unfold build, bindW at 1. rewrite R1.
    unfold bindW at 1. rewrite R2.
    unfold bindW at 1. rewrite (buy_add_constraint_spec rand d e2 He2).
    cbn [Add]. rewrite (buy_set_objective_spec rand d).
    + reflexivity.
    + intros i Hi. apply (He2 i Hi).
  - cbn [Maximize with_solver solver maximization SKU x].
    rewrite S2. split; [reflexivity|]. split; [reflexivity|].
    intros i Hi. apply (He2 i Hi).
Qed.

Lemma buy_model_of_spec (rand : nat -> Z -> Z -> Z) (d : Data) :
  model_of rand d = inr (the_model rand d, true).
Proof.
  destruct (buy_build_spec rand d) as (e & R & S & Mx & _).
  unfold model_of. rewrite R, S, Mx. reflexivity.
Qed.

Lemma buy_model_of_inv (rand : nat -> Z -> Z -> Z) (d : Data) (m : Solver)
    (dir : bool) :
  model_of rand d = inr (m, dir) -> m = the_model rand d /\ dir = true.
Proof. rewrite buy_model_of_spec. intros H. injection H as -> ->. auto. Qed.

Lemma buy_integer (rand : nat -> Z -> Z -> Z) (d : Data) (s : Solver)
    (i : nat) :
  variables s = variables (the_model rand d) ->
  In i (range (number_of_SKUs d)) ->
  is_integer s (x_ i) = true.
Proof.
  intros Hv Hi. apply is_integer_declared; rewrite Hv;
    cbn [variables the_model].
  - apply Forall_map_iff. intros j _. reflexivity.
  - rewrite map_map. cbn [name]. apply in_map_iff. exists i. auto.
Qed.

Lemma buy_tally_spec (rand : nat -> Z -> Z -> Z) (d : Data) (e : Env) :
  ready rand d e ->
  variables (solver e) = variables (the_model rand d) ->
  tally d e =
  inr (fold_left (tally_step rand (rounded (last (solver e))))
                 (range (number_of_SKUs d))
                 {| total_budget_used := 0; number_of_SKUs_purchased := 0;
                    number_of_units_purchased := 0 |}, e).
Proof.
  intros He Hv. unfold tally. apply foldW_pure. intros acc i Hi.
  destruct (He i Hi) as [Hit Hx]. run_cells.
  unfold solution_value, tally_step. cbv beta iota.
  rewrite (read_integer _ _ (buy_integer rand d _ i Hv Hi)).
  destruct (negb (Qle_bool (value_of (rounded (last (solver e))) (x_ i)) 0));
    run_cells; [|reflexivity].
  unfold retW. rewrite !(read_integer _ _ (buy_integer rand d _ i Hv Hi)).
  reflexivity.
Qed.

Lemma buy_run_spec (rand : nat -> Z -> Z -> Z) (engine : Solver -> bool -> Solution)
    (d : Data) :
  run rand engine d
  = inr (report_of rand d (rounded (engine (the_model rand d) true))).
Proof.
  destruct (buy_build_spec rand d) as (e & R & S & Mx & He).
  unfold run, notebook, bindW at 1. rewrite R.
  unfold bindW at 1. unfold Solve. rewrite S, Mx.
  unfold report, bindW. cbn [Objective_Value].
  rewrite (buy_tally_spec rand d);
    [reflexivity|intros i Hi; apply (He i Hi)|].
  cbn [solver with_solver variables]. rewrite S. reflexivity.
Qed.

(** *** What the model means *)

Lemma buy_feasible_the_model (rand : nat -> Z -> Z -> Z) (d : Data)
    (a : Assignment) :
  feasible (the_model rand d) a <->
  (forall i, In i (range (number_of_SKUs d)) -> 0 <= a (x_ i)) /\
  spent rand d a <= B d.
Proof.
  unfold feasible, satisfies, the_model.
  cbn [variables constraints].
  rewrite Forall_map_iff, Forall_cons_iff, Forall_nil_iff.
  cbn [holds]. rewrite eval_weighted_sum. simpl eval.
  rewrite <- Zle_Qle. fold (spent rand d a).
  assert (Hdom : forall i,
            in_domain a (mkVar (x_ i) true 0%Q infinity) <-> 0 <= a (x_ i)).
  { intros i. unfold in_domain, valuation, infinity. cbn [lb ub name].
    change 0%Q with (inject_Z 0). rewrite <- Zle_Qle. tauto. }
  split.
  - intros [H1 [H2 _]]. split; [|exact H2].
    intros i Hi. apply Hdom, H1, Hi.
  - intros [H1 H2]. split; [|split; [exact H2|exact I]].
    intros i Hi. apply Hdom, H1, Hi.
Qed.

(** One hundred times the objective is an integer. *)
Lemma buy_cost_the_model (rand : nat -> Z -> Z -> Z) (d : Data) (a : Assignment) :
  (100 * cost (the_model rand d) a == inject_Z (scaled_gain rand d a))%Q.
Proof.
  unfold cost, the_model, scaled_gain, sum_. cbn [objective].
  rewrite eval_fold_Sum. simpl eval. rewrite Qplus_0_l. unfold sum_over.
  induction (range (number_of_SKUs d)) as [|i l IH]; cbn [map fold_right].
  - reflexivity.
  - rewrite inject_Z_plus, <- IH, !inject_Z_mult. simpl eval.
    unfold drawn, valuation. cbn [f]. rewrite inject_Z_mult. field.
Qed.

Lemma cost_le_gain (rand : nat -> Z -> Z -> Z) (d : Data) (a b : Assignment) :
  (cost (the_model rand d) a <= cost (the_model rand d) b)%Q <->
  scaled_gain rand d a <= scaled_gain rand d b.
Proof.
  rewrite Zle_Qle, <- !buy_cost_the_model.
  symmetry. apply Qmult_le_l. reflexivity.
Qed.

Lemma buy_drawn_in_range (rand : nat -> Z -> Z -> Z) (i : nat) :
  Knapsack.randint_ok rand ->
  20 <= price rand i <= 200 /\ 5 <= percent rand i <= 20.
Proof. intros H. unfold price, percent. split; apply H; lia. Qed.

(** X24. The purchase notebook never raises: for every SKU count, budget
    and random draw it builds a model of one non-negative integer variable
    a SKU and a single constraint, asks the engine to maximize, and prints
    the engine's status and objective value. *)
Theorem purchase_runs (rand : nat -> Z -> Z -> Z)
    (engine : Solver -> bool -> Solution) (d : Data) :
  exists m r,
    model_of rand d = inr (m, true) /\
    run rand engine d = inr r /\
    length (variables m) = Z.to_nat (number_of_SKUs d) /\
    Forall (fun vd => integer vd = true /\ lb vd = 0%Q /\ ub vd = None)
           (variables m) /\
    length (constraints m) = 1%nat /\
    printed_status r = status_code (status (engine m true)) /\
    printed_objective r = objective_value (engine m true).
Proof.
  exists (the_model rand d),
    (report_of rand d (rounded (engine (the_model rand d) true))).
  split; [apply buy_model_of_spec|]. split; [apply buy_run_spec|].
  unfold the_model, range. cbn [variables constraints].
  rewrite length_map, length_seq. split; [reflexivity|].
  split; [|repeat split].
  apply Forall_map_iff. intros i _. repeat split.
Qed.

(** The test [x[i].solution_value() > 0] on the value of an integer. *)
Lemma reads_positive (a : Assignment) (sol : Solution) (i : nat) :
  (forall v, value_of sol v == valuation a v)%Q ->
  negb (Qle_bool (value_of sol (x_ i)) 0) = (0 <? a (x_ i)).
Proof.
  intros Hv. destruct (Z.ltb_spec 0 (a (x_ i))) as [Hpos|Hle].
  - destruct (Qle_bool (value_of sol (x_ i)) 0) eqn:E; [|reflexivity].
    exfalso. apply Qle_bool_iff in E. rewrite (Hv (x_ i)) in E.
    unfold valuation in E. change 0%Q with (inject_Z 0) in E.
    rewrite <- Zle_Qle in E. lia.
  - replace (Qle_bool (value_of sol (x_ i)) 0) with true; [reflexivity|].
    symmetry. apply Qle_bool_iff. rewrite (Hv (x_ i)).
    unfold valuation. change 0%Q with (inject_Z 0).
    rewrite <- Zle_Qle. exact Hle.
Qed.

Lemma buy_tally_fold (rand : nat -> Z -> Z -> Z) (a : Assignment) (sol : Solution)
    (l : list nat) (acc : Tally) :
  (forall v, value_of sol v == valuation a v)%Q ->
  (forall i, In i l -> 0 <= a (x_ i)) ->
  let r := fold_left (tally_step rand sol) l acc in
  (total_budget_used r ==
   total_budget_used acc
   + inject_Z (sum_over l (fun i => (price rand i * a (x_ i))%Z)))%Q /\
  number_of_SKUs_purchased r =
    number_of_SKUs_purchased acc
    + sum_over l (fun i => if 0 <? a (x_ i) then 1 else 0) /\
  (number_of_units_purchased r ==
   number_of_units_purchased acc
   + inject_Z (sum_over l (fun i => a (x_ i))))%Q.
Proof.
  intros Hv. cbv zeta. revert acc.
  induction l as [|i l IH]; intros acc H; cbn [fold_left].
  - unfold sum_over, inject_Z. simpl. repeat split; first [ring | lia].
  - destruct (IH (tally_step rand sol acc i)) as (H1 & H2 & H3);
      [intros j Hj; apply H; simpl; auto|].
    rewrite H1, H2, H3. unfold tally_step.
    rewrite (reads_positive a sol i Hv).
    assert (Hx : 0 <= a (x_ i)) by (apply H; simpl; auto).
    unfold sum_over. cbn [fold_right].
    rewrite !inject_Z_plus, inject_Z_mult.
    destruct (Z.ltb_spec 0 (a (x_ i))) as [Hpos|Hle];
      cbn [total_budget_used number_of_SKUs_purchased
           number_of_units_purchased drawn p].
    + rewrite (Hv (x_ i)). unfold valuation. repeat split; first [ring | lia].
    + assert (E0 : a (x_ i) = 0) by lia. rewrite E0.
      unfold inject_Z. repeat split; first [ring | lia].
Qed.

(** X25. When the engine returns a feasible purchase, the printed budget
    used is the price of everything bought, which is within the budget;
    the printed number of units is the number of units bought and the
    printed number of SKUs is the number of SKUs bought at least once. *)
Theorem reported_purchase (rand : nat -> Z -> Z -> Z)
    (engine : Solver -> bool -> Solution) (d : Data) (m : Solver)
    (dir : bool) (a : Assignment) :
  model_of rand d = inr (m, dir) ->
  (forall v, value_of (engine m dir) v == valuation a v)%Q ->
  feasible m a ->
  exists r,
    run rand engine d = inr r /\
    (total_budget_used (printed r) == inject_Z (spent rand d a))%Q /\
    (total_budget_used (printed r) <= inject_Z (B d))%Q /\
    (number_of_units_purchased (printed r) == inject_Z (units d a))%Q /\
    number_of_SKUs_purchased (printed r) = lines d a.
Proof.
  intros Hm Hv Hf. apply buy_model_of_inv in Hm as [-> ->].
  apply buy_feasible_the_model in Hf as [Hdom Hw].
  assert (Hr : forall v,
             (value_of (rounded (engine (the_model rand d) true)) v
              == valuation a v)%Q)
    by (intros v; rewrite (rounded_integral _ a Hv v); reflexivity).
  eexists. split; [apply buy_run_spec|].
  unfold report_of. cbn [printed].
  destruct (buy_tally_fold rand a (rounded (engine (the_model rand d) true))
              (range (number_of_SKUs d))
              {| total_budget_used := 0; number_of_SKUs_purchased := 0;
                 number_of_units_purchased := 0 |} Hr Hdom)
    as (H1 & H2 & H3).
  cbv zeta in H1, H2, H3.
  cbn [total_budget_used number_of_SKUs_purchased number_of_units_purchased]
    in H1, H2, H3.
  rewrite Qplus_0_l in H1, H3.
  fold (spent rand d a) in H1. fold (units d a) in H3. fold (lines d a) in H2.
  split; [exact H1|]. split; [rewrite H1, <- Zle_Qle; exact Hw|].
  split; [exact H3|]. rewrite H2. lia.
Qed.

Lemma small_purchase_feasible :
  feasible (the_model Knapsack.walk small_data) small_purchase.
Proof. apply feasibleb_spec. vm_compute. reflexivity. Qed.

Lemma reported_purchase_witness :
  exists r,
    run Knapsack.walk (Knapsack.engine_packing small_purchase 3.52) small_data
    = inr r /\
    (total_budget_used (printed r)
     == inject_Z (spent Knapsack.walk small_data small_purchase))%Q /\
    (total_budget_used (printed r) <= inject_Z (B small_data))%Q /\
    (number_of_units_purchased (printed r)
     == inject_Z (units small_data small_purchase))%Q /\
    number_of_SKUs_purchased (printed r) = lines small_data small_purchase.
Proof.
  apply (reported_purchase Knapsack.walk
           (Knapsack.engine_packing small_purchase 3.52) small_data
           (the_model Knapsack.walk small_data) true small_purchase).
  - vm_compute. reflexivity.
  - intros v. reflexivity.
  - apply small_purchase_feasible.
Defined.

(** X26. Every price is at least 20 and every unit earns between 5 and
    20 percent of its price, so a feasible purchase buys at most a
    twentieth of the budget in units and earns between 5 and 20 percent
    of what it spends, never more than a fifth of the budget. *)
Theorem purchase_bounds (rand : nat -> Z -> Z -> Z) (d : Data) (m : Solver)
    (dir : bool) (a : Assignment) :
  Knapsack.randint_ok rand ->
  model_of rand d = inr (m, dir) ->
  feasible m a ->
  20 * units d a <= B d /\
  (inject_Z (spent rand d a) * 0.05 <= cost m a)%Q /\
  (cost m a <= inject_Z (spent rand d a) * 0.2)%Q /\
  (cost m a <= inject_Z (B d) * 0.2)%Q.
Proof.
  intros Hr Hm Hf. apply buy_model_of_inv in Hm as [-> ->].
  pose proof (buy_cost_the_model rand d a) as Hc.
  apply buy_feasible_the_model in Hf as [Hdom Hw].
  unfold units, spent, scaled_gain in *.
  assert (H1 : sum_over (range (number_of_SKUs d)) (fun i => 20 * a (x_ i))
               <= sum_over (range (number_of_SKUs d))
                    (fun i => price rand i * a (x_ i))).
  { apply sum_over_le. intros i Hi.
    destruct (buy_drawn_in_range rand i Hr) as [Hp _].
    specialize (Hdom i Hi). nia. }
  assert (H2 : sum_over (range (number_of_SKUs d))
                 (fun i => 5 * (price rand i * a (x_ i)))
               <= sum_over (range (number_of_SKUs d))
                    (fun i => price rand i * percent rand i * a (x_ i))).
  { apply sum_over_le. intros i Hi.
    destruct (buy_drawn_in_range rand i Hr) as [Hp Hk].
    specialize (Hdom i Hi).
    assert (0 <= price rand i * a (x_ i)) by nia. nia. }
  assert (H3 : sum_over (range (number_of_SKUs d))
                 (fun i => price rand i * percent rand i * a (x_ i))
               <= sum_over (range (number_of_SKUs d))
                    (fun i => 20 * (price rand i * a (x_ i)))).
  { apply sum_over_le. intros i Hi.
    destruct (buy_drawn_in_range rand i Hr) as [Hp Hk].
    specialize (Hdom i Hi).
    assert (0 <= price rand i * a (x_ i)) by nia. nia. }
  rewrite !sum_over_scale in *.
  split; [lia|].
  rewrite Zle_Qle in H2, H3, Hw.
  rewrite !inject_Z_mult in H2, H3.
  change (inject_Z 5) with 5%Q in H2. change (inject_Z 20) with 20%Q in H3.
  repeat split; lra.
Qed.

Lemma purchase_bounds_witness :
  20 * units small_data small_purchase <= B small_data /\
  (inject_Z (spent Knapsack.walk small_data small_purchase) * 0.05
   <= cost (the_model Knapsack.walk small_data) small_purchase)%Q /\
  (cost (the_model Knapsack.walk small_data) small_purchase
   <= inject_Z (spent Knapsack.walk small_data small_purchase) * 0.2)%Q /\
  (cost (the_model Knapsack.walk small_data) small_purchase
   <= inject_Z (B small_data) * 0.2)%Q.
Proof.
  apply (purchase_bounds Knapsack.walk small_data
           (the_model Knapsack.walk small_data) true small_purchase).
  - apply KnapsackFacts.walk_ok.
  - vm_compute. reflexivity.
  - apply small_purchase_feasible.
Defined.

Lemma sum_one_more (c : nat -> Z) (a : Assignment) (n i : nat) :
  (i < n)%nat ->
  sum_over (seq 0 n) (fun j => c j * one_more a i (x_ j))
  = sum_over (seq 0 n) (fun j => c j * a (x_ j)) + c i.
Proof.
  intros Hi.
  rewrite (sum_over_ext _ _
             (fun j => c j * a (x_ j) + (if Nat.eqb j i then c i else 0))).
  - rewrite sum_over_plus, sum_over_point.
    replace (i <? n)%nat with true by (symmetry; apply Nat.ltb_lt; lia).
    reflexivity.
  - intros j _. cbn [one_more].
    destruct (Nat.eqb_spec j i) as [->|Hne]; lia.
Qed.

(** X27. An optimal purchase leaves less of the budget unspent than any
    single SKU costs: if one more unit of some SKU could be afforded,
    buying it would earn more. *)
Theorem optimal_purchase_spends (rand : nat -> Z -> Z -> Z) (d : Data)
    (m : Solver) (dir : bool) (a : Assignment) (i : nat) :
  Knapsack.randint_ok rand ->
  model_of rand d = inr (m, dir) ->
  best m a ->
  (i < Z.to_nat (number_of_SKUs d))%nat ->
  B d - spent rand d a < price rand i.
Proof.
  intros Hr Hm [Hf Hbest] Hi. apply buy_model_of_inv in Hm as [-> ->].
  destruct (Z.lt_ge_cases (B d - spent rand d a) (price rand i))
    as [Hlt|Hge]; [exact Hlt|exfalso].
  apply buy_feasible_the_model in Hf as [Hdom Hw].
  assert (Hb : feasible (the_model rand d) (one_more a i)).
  { apply buy_feasible_the_model. split.
    - intros j Hj. cbn [one_more]. specialize (Hdom j Hj).
      destruct (Nat.eqb j i); lia.
    - unfold spent, range in *.
      rewrite (sum_one_more (price rand)) by assumption. lia. }
  specialize (Hbest _ Hb). apply cost_le_gain in Hbest.
  unfold scaled_gain, range in Hbest.
  rewrite (sum_one_more (fun j => price rand j * percent rand j)) in Hbest
    by assumption.
  destruct (buy_drawn_in_range rand i Hr) as [Hp Hk]. nia.
Qed.

Lemma small_purchase_best :
  best (the_model Knapsack.walk small_data) small_purchase.
Proof.
  split; [apply small_purchase_feasible|]. intros b Hb.
  apply cost_le_gain.
  apply buy_feasible_the_model in Hb as [Hdom Hw].
  assert (H0 := Hdom 0%nat ltac:(vm_compute; auto)).
  assert (H1 := Hdom 1%nat ltac:(vm_compute; auto)).
  assert (Ew : spent Knapsack.walk small_data b
               = 20 * b (x_ 0) + (22 * b (x_ 1) + 0)) by reflexivity.
  assert (Ev : scaled_gain Knapsack.walk small_data b
               = 20 * 6 * b (x_ 0) + (22 * 8 * b (x_ 1) + 0)) by reflexivity.
  assert (Es : scaled_gain Knapsack.walk small_data small_purchase = 352)
    by reflexivity.
  rewrite Ew in Hw. rewrite Ev, Es. cbn [B small_data] in Hw. lia.
Qed.

Lemma optimal_purchase_spends_witness :
  B small_data - spent Knapsack.walk small_data small_purchase
  < price Knapsack.walk 0.
Proof.
  apply (optimal_purchase_spends Knapsack.walk small_data
           (the_model Knapsack.walk small_data) true small_purchase 0).
  - apply KnapsackFacts.walk_ok.
  - vm_compute. reflexivity.
  - apply small_purchase_best.
  - vm_compute. lia.
Defined.

End PurchaseFacts.
